(** * concourse-up: the deployment orchestration of [concourse/deploy.go]

    A shallow embedding of the [Deploy] method of the concourse client and of
    the helpers it calls, together with the properties of the orchestration
    (region lock, certificate lifecycle, ordering of the pipeline and BOSH
    steps, best-effort persistence of the director blobs).

    The Go code talks to its collaborators (configuration store, terraform,
    fly, BOSH, certificate generator, writers) through interfaces.  Every call
    to a collaborator is recorded as an [Event]; what the collaborator answers
    is an arbitrary function of the events that happened before the call. *)

From Stdlib Require Import String Ascii List ZArith Bool Lia.
Import ListNotations.

Local Open Scope string_scope.
Local Open Scope list_scope.
Local Open Scope Z_scope.

(** ** Go values *)

(** A Go [error] value that is not nil; a nil error is [None] of
    [option error]. *)
Definition error : Type := string.

(** [[]byte]; the conversion [string(b)] is the identity on it. *)
Definition bytes : Type := string.

(** The result of a Go function returning [(T, error)] whose callers all drop
    the value when the error is not nil. *)
Inductive Res (A : Type) : Type :=
| Ok (a : A)
| Err (e : error).
Arguments Ok {A} a.
Arguments Err {A} e.

Definition is_Err {A : Type} (r : Res A) : bool :=
  match r with Ok _ => false | Err _ => true end.

Definition nl : string := String (ascii_of_nat 10) EmptyString.
Definition dquote : string := String (ascii_of_nat 34) EmptyString.

(** *** Package [strings] *)

Definition HasSuffix (s suffix : string) : bool :=
  (String.length suffix <=? String.length s)%nat &&
  String.eqb
    (substring (String.length s - String.length suffix)
       (String.length suffix) s)
    suffix.

Definition TrimSuffix (s suffix : string) : string :=
  if HasSuffix s suffix
  then substring 0 (String.length s - String.length suffix) s
  else s.

(** *** Package [time]

    A [time.Time] is an instant in nanoseconds since the epoch, a
    [time.Duration] is an [int64] count of nanoseconds.  [Time.Sub] returns the
    difference, replaced by the largest (smallest) duration when it does not
    fit. *)
Module time.

Definition Time : Type := Z.
Definition Duration : Type := Z.

Definition minDuration : Duration := - 2 ^ 63.
Definition maxDuration : Duration := 2 ^ 63 - 1.

Definition Nanosecond : Duration := 1.
Definition Microsecond : Duration := 1000 * Nanosecond.
Definition Millisecond : Duration := 1000 * Microsecond.
Definition Second : Duration := 1000 * Millisecond.
Definition Minute : Duration := 60 * Second.
Definition Hour : Duration := 60 * Minute.

Definition Sub (t u : Time) : Duration :=
  if t - u <? minDuration then minDuration
  else if maxDuration <? t - u then maxDuration
  else t - u.

(** [time.Until(t)] is [t.Sub(time.Now())]. *)
Definition Until (now t : Time) : Duration := Sub t now.

End time.

(** ** The data of packages [config], [terraform], [certs], [fly] *)

(** [config.DeployArgs], with the fields [deploy.go] reads. *)
Module DeployArgs.
Record t : Type := mk {
  AWSRegion : string;
  Domain : string;
  TLSCert : string;
  TLSKey : string;
  WorkerCount : Z;
  WorkerSize : string;
  WebSize : string;
  DBSize : string;
  DBSizeIsSet : bool;
  SelfUpdate : bool
}.
End DeployArgs.

(** [config.Config], with the fields [deploy.go] reads or writes.  An
    assignment [config.F = v] is [Config.set_F v config]. *)
Module Config.
Record t : Type := mk {
  Project : string;
  Deployment : string;
  Region : string;
  Domain : string;
  SourceAccessIP : string;
  HostedZoneID : string;
  HostedZoneRecordPrefix : string;
  DirectorPublicIP : string;
  RDSInstanceClass : string;
  ConcourseWorkerCount : Z;
  ConcourseWorkerSize : string;
  ConcourseWebSize : string;
  ConcourseUsername : string;
  ConcoursePassword : string;
  DirectorCACert : string;
  DirectorCert : string;
  DirectorKey : string;
  ConcourseCACert : string;
  ConcourseCert : string;
  ConcourseKey : string;
  ConcourseUserProvidedCert : bool;
  CredhubURL : string;
  CredhubUsername : string;
  CredhubPassword : string;
  CredhubCACert : string
}.

Definition set_Region (v : string) (c : t) : t :=
  {| Project := Project c; Deployment := Deployment c; Region := v;
     Domain := Domain c; SourceAccessIP := SourceAccessIP c;
     HostedZoneID := HostedZoneID c;
     HostedZoneRecordPrefix := HostedZoneRecordPrefix c;
     DirectorPublicIP := DirectorPublicIP c;
     RDSInstanceClass := RDSInstanceClass c;
     ConcourseWorkerCount := ConcourseWorkerCount c;
     ConcourseWorkerSize := ConcourseWorkerSize c;
     ConcourseWebSize := ConcourseWebSize c;
     ConcourseUsername := ConcourseUsername c;
     ConcoursePassword := ConcoursePassword c;
     DirectorCACert := DirectorCACert c; DirectorCert := DirectorCert c;
     DirectorKey := DirectorKey c; ConcourseCACert := ConcourseCACert c;
     ConcourseCert := ConcourseCert c; ConcourseKey := ConcourseKey c;
     ConcourseUserProvidedCert := ConcourseUserProvidedCert c;
     CredhubURL := CredhubURL c; CredhubUsername := CredhubUsername c;
     CredhubPassword := CredhubPassword c;
     CredhubCACert := CredhubCACert c |}.

Definition set_Domain (v : string) (c : t) : t :=
  {| Project := Project c; Deployment := Deployment c; Region := Region c;
     Domain := v; SourceAccessIP := SourceAccessIP c;
     HostedZoneID := HostedZoneID c;
     HostedZoneRecordPrefix := HostedZoneRecordPrefix c;
     DirectorPublicIP := DirectorPublicIP c;
     RDSInstanceClass := RDSInstanceClass c;
     ConcourseWorkerCount := ConcourseWorkerCount c;
     ConcourseWorkerSize := ConcourseWorkerSize c;
     ConcourseWebSize := ConcourseWebSize c;
     ConcourseUsername := ConcourseUsername c;
     ConcoursePassword := ConcoursePassword c;
     DirectorCACert := DirectorCACert c; DirectorCert := DirectorCert c;
     DirectorKey := DirectorKey c; ConcourseCACert := ConcourseCACert c;
     ConcourseCert := ConcourseCert c; ConcourseKey := ConcourseKey c;
     ConcourseUserProvidedCert := ConcourseUserProvidedCert c;
     CredhubURL := CredhubURL c; CredhubUsername := CredhubUsername c;
     CredhubPassword := CredhubPassword c;
     CredhubCACert := CredhubCACert c |}.

Definition set_SourceAccessIP (v : string) (c : t) : t :=
  {| Project := Project c; Deployment := Deployment c; Region := Region c;
     Domain := Domain c; SourceAccessIP := v; HostedZoneID := HostedZoneID c;
     HostedZoneRecordPrefix := HostedZoneRecordPrefix c;
     DirectorPublicIP := DirectorPublicIP c;
     RDSInstanceClass := RDSInstanceClass c;
     ConcourseWorkerCount := ConcourseWorkerCount c;
     ConcourseWorkerSize := ConcourseWorkerSize c;
     ConcourseWebSize := ConcourseWebSize c;
     ConcourseUsername := ConcourseUsername c;
     ConcoursePassword := ConcoursePassword c;
     DirectorCACert := DirectorCACert c; DirectorCert := DirectorCert c;
     DirectorKey := DirectorKey c; ConcourseCACert := ConcourseCACert c;
     ConcourseCert := ConcourseCert c; ConcourseKey := ConcourseKey c;
     ConcourseUserProvidedCert := ConcourseUserProvidedCert c;
     CredhubURL := CredhubURL c; CredhubUsername := CredhubUsername c;
     CredhubPassword := CredhubPassword c;
     CredhubCACert := CredhubCACert c |}.

Definition set_HostedZoneID (v : string) (c : t) : t :=
  {| Project := Project c; Deployment := Deployment c; Region := Region c;
     Domain := Domain c; SourceAccessIP := SourceAccessIP c;
     HostedZoneID := v; HostedZoneRecordPrefix := HostedZoneRecordPrefix c;
     DirectorPublicIP := DirectorPublicIP c;
     RDSInstanceClass := RDSInstanceClass c;
     ConcourseWorkerCount := ConcourseWorkerCount c;
     ConcourseWorkerSize := ConcourseWorkerSize c;
     ConcourseWebSize := ConcourseWebSize c;
     ConcourseUsername := ConcourseUsername c;
     ConcoursePassword := ConcoursePassword c;
     DirectorCACert := DirectorCACert c; DirectorCert := DirectorCert c;
     DirectorKey := DirectorKey c; ConcourseCACert := ConcourseCACert c;
     ConcourseCert := ConcourseCert c; ConcourseKey := ConcourseKey c;
     ConcourseUserProvidedCert := ConcourseUserProvidedCert c;
     CredhubURL := CredhubURL c; CredhubUsername := CredhubUsername c;
     CredhubPassword := CredhubPassword c;
     CredhubCACert := CredhubCACert c |}.

Definition set_HostedZoneRecordPrefix (v : string) (c : t) : t :=
  {| Project := Project c; Deployment := Deployment c; Region := Region c;
     Domain := Domain c; SourceAccessIP := SourceAccessIP c;
     HostedZoneID := HostedZoneID c; HostedZoneRecordPrefix := v;
     DirectorPublicIP := DirectorPublicIP c;
     RDSInstanceClass := RDSInstanceClass c;
     ConcourseWorkerCount := ConcourseWorkerCount c;
     ConcourseWorkerSize := ConcourseWorkerSize c;
     ConcourseWebSize := ConcourseWebSize c;
     ConcourseUsername := ConcourseUsername c;
     ConcoursePassword := ConcoursePassword c;
     DirectorCACert := DirectorCACert c; DirectorCert := DirectorCert c;
     DirectorKey := DirectorKey c; ConcourseCACert := ConcourseCACert c;
     ConcourseCert := ConcourseCert c; ConcourseKey := ConcourseKey c;
     ConcourseUserProvidedCert := ConcourseUserProvidedCert c;
     CredhubURL := CredhubURL c; CredhubUsername := CredhubUsername c;
     CredhubPassword := CredhubPassword c;
     CredhubCACert := CredhubCACert c |}.

Definition set_DirectorPublicIP (v : string) (c : t) : t :=
  {| Project := Project c; Deployment := Deployment c; Region := Region c;
     Domain := Domain c; SourceAccessIP := SourceAccessIP c;
     HostedZoneID := HostedZoneID c;
     HostedZoneRecordPrefix := HostedZoneRecordPrefix c;
     DirectorPublicIP := v; RDSInstanceClass := RDSInstanceClass c;
     ConcourseWorkerCount := ConcourseWorkerCount c;
     ConcourseWorkerSize := ConcourseWorkerSize c;
     ConcourseWebSize := ConcourseWebSize c;
     ConcourseUsername := ConcourseUsername c;
     ConcoursePassword := ConcoursePassword c;
     DirectorCACert := DirectorCACert c; DirectorCert := DirectorCert c;
     DirectorKey := DirectorKey c; ConcourseCACert := ConcourseCACert c;
     ConcourseCert := ConcourseCert c; ConcourseKey := ConcourseKey c;
     ConcourseUserProvidedCert := ConcourseUserProvidedCert c;
     CredhubURL := CredhubURL c; CredhubUsername := CredhubUsername c;
     CredhubPassword := CredhubPassword c;
     CredhubCACert := CredhubCACert c |}.

Definition set_RDSInstanceClass (v : string) (c : t) : t :=
  {| Project := Project c; Deployment := Deployment c; Region := Region c;
     Domain := Domain c; SourceAccessIP := SourceAccessIP c;
     HostedZoneID := HostedZoneID c;
     HostedZoneRecordPrefix := HostedZoneRecordPrefix c;
     DirectorPublicIP := DirectorPublicIP c; RDSInstanceClass := v;
     ConcourseWorkerCount := ConcourseWorkerCount c;
     ConcourseWorkerSize := ConcourseWorkerSize c;
     ConcourseWebSize := ConcourseWebSize c;
     ConcourseUsername := ConcourseUsername c;
     ConcoursePassword := ConcoursePassword c;
     DirectorCACert := DirectorCACert c; DirectorCert := DirectorCert c;
     DirectorKey := DirectorKey c; ConcourseCACert := ConcourseCACert c;
     ConcourseCert := ConcourseCert c; ConcourseKey := ConcourseKey c;
     ConcourseUserProvidedCert := ConcourseUserProvidedCert c;
     CredhubURL := CredhubURL c; CredhubUsername := CredhubUsername c;
     CredhubPassword := CredhubPassword c;
     CredhubCACert := CredhubCACert c |}.

Definition set_ConcourseWorkerCount (v : Z) (c : t) : t :=
  {| Project := Project c; Deployment := Deployment c; Region := Region c;
     Domain := Domain c; SourceAccessIP := SourceAccessIP c;
     HostedZoneID := HostedZoneID c;
     HostedZoneRecordPrefix := HostedZoneRecordPrefix c;
     DirectorPublicIP := DirectorPublicIP c;
     RDSInstanceClass := RDSInstanceClass c; ConcourseWorkerCount := v;
     ConcourseWorkerSize := ConcourseWorkerSize c;
     ConcourseWebSize := ConcourseWebSize c;
     ConcourseUsername := ConcourseUsername c;
     ConcoursePassword := ConcoursePassword c;
     DirectorCACert := DirectorCACert c; DirectorCert := DirectorCert c;
     DirectorKey := DirectorKey c; ConcourseCACert := ConcourseCACert c;
     ConcourseCert := ConcourseCert c; ConcourseKey := ConcourseKey c;
     ConcourseUserProvidedCert := ConcourseUserProvidedCert c;
     CredhubURL := CredhubURL c; CredhubUsername := CredhubUsername c;
     CredhubPassword := CredhubPassword c;
     CredhubCACert := CredhubCACert c |}.

Definition set_ConcourseWorkerSize (v : string) (c : t) : t :=
  {| Project := Project c; Deployment := Deployment c; Region := Region c;
     Domain := Domain c; SourceAccessIP := SourceAccessIP c;
     HostedZoneID := HostedZoneID c;
     HostedZoneRecordPrefix := HostedZoneRecordPrefix c;
     DirectorPublicIP := DirectorPublicIP c;
     RDSInstanceClass := RDSInstanceClass c;
     ConcourseWorkerCount := ConcourseWorkerCount c;
     ConcourseWorkerSize := v; ConcourseWebSize := ConcourseWebSize c;
     ConcourseUsername := ConcourseUsername c;
     ConcoursePassword := ConcoursePassword c;
     DirectorCACert := DirectorCACert c; DirectorCert := DirectorCert c;
     DirectorKey := DirectorKey c; ConcourseCACert := ConcourseCACert c;
     ConcourseCert := ConcourseCert c; ConcourseKey := ConcourseKey c;
     ConcourseUserProvidedCert := ConcourseUserProvidedCert c;
     CredhubURL := CredhubURL c; CredhubUsername := CredhubUsername c;
     CredhubPassword := CredhubPassword c;
     CredhubCACert := CredhubCACert c |}.

Definition set_ConcourseWebSize (v : string) (c : t) : t :=
  {| Project := Project c; Deployment := Deployment c; Region := Region c;
     Domain := Domain c; SourceAccessIP := SourceAccessIP c;
     HostedZoneID := HostedZoneID c;
     HostedZoneRecordPrefix := HostedZoneRecordPrefix c;
     DirectorPublicIP := DirectorPublicIP c;
     RDSInstanceClass := RDSInstanceClass c;
     ConcourseWorkerCount := ConcourseWorkerCount c;
     ConcourseWorkerSize := ConcourseWorkerSize c; ConcourseWebSize := v;
     ConcourseUsername := ConcourseUsername c;
     ConcoursePassword := ConcoursePassword c;
     DirectorCACert := DirectorCACert c; DirectorCert := DirectorCert c;
     DirectorKey := DirectorKey c; ConcourseCACert := ConcourseCACert c;
     ConcourseCert := ConcourseCert c; ConcourseKey := ConcourseKey c;
     ConcourseUserProvidedCert := ConcourseUserProvidedCert c;
     CredhubURL := CredhubURL c; CredhubUsername := CredhubUsername c;
     CredhubPassword := CredhubPassword c;
     CredhubCACert := CredhubCACert c |}.

Definition set_DirectorCACert (v : string) (c : t) : t :=
  {| Project := Project c; Deployment := Deployment c; Region := Region c;
     Domain := Domain c; SourceAccessIP := SourceAccessIP c;
     HostedZoneID := HostedZoneID c;
     HostedZoneRecordPrefix := HostedZoneRecordPrefix c;
     DirectorPublicIP := DirectorPublicIP c;
     RDSInstanceClass := RDSInstanceClass c;
     ConcourseWorkerCount := ConcourseWorkerCount c;
     ConcourseWorkerSize := ConcourseWorkerSize c;
     ConcourseWebSize := ConcourseWebSize c;
     ConcourseUsername := ConcourseUsername c;
     ConcoursePassword := ConcoursePassword c; DirectorCACert := v;
     DirectorCert := DirectorCert c; DirectorKey := DirectorKey c;
     ConcourseCACert := ConcourseCACert c; ConcourseCert := ConcourseCert c;
     ConcourseKey := ConcourseKey c;
     ConcourseUserProvidedCert := ConcourseUserProvidedCert c;
     CredhubURL := CredhubURL c; CredhubUsername := CredhubUsername c;
     CredhubPassword := CredhubPassword c;
     CredhubCACert := CredhubCACert c |}.

Definition set_DirectorCert (v : string) (c : t) : t :=
  {| Project := Project c; Deployment := Deployment c; Region := Region c;
     Domain := Domain c; SourceAccessIP := SourceAccessIP c;
     HostedZoneID := HostedZoneID c;
     HostedZoneRecordPrefix := HostedZoneRecordPrefix c;
     DirectorPublicIP := DirectorPublicIP c;
     RDSInstanceClass := RDSInstanceClass c;
     ConcourseWorkerCount := ConcourseWorkerCount c;
     ConcourseWorkerSize := ConcourseWorkerSize c;
     ConcourseWebSize := ConcourseWebSize c;
     ConcourseUsername := ConcourseUsername c;
     ConcoursePassword := ConcoursePassword c;
     DirectorCACert := DirectorCACert c; DirectorCert := v;
     DirectorKey := DirectorKey c; ConcourseCACert := ConcourseCACert c;
     ConcourseCert := ConcourseCert c; ConcourseKey := ConcourseKey c;
     ConcourseUserProvidedCert := ConcourseUserProvidedCert c;
     CredhubURL := CredhubURL c; CredhubUsername := CredhubUsername c;
     CredhubPassword := CredhubPassword c;
     CredhubCACert := CredhubCACert c |}.

Definition set_DirectorKey (v : string) (c : t) : t :=
  {| Project := Project c; Deployment := Deployment c; Region := Region c;
     Domain := Domain c; SourceAccessIP := SourceAccessIP c;
     HostedZoneID := HostedZoneID c;
     HostedZoneRecordPrefix := HostedZoneRecordPrefix c;
     DirectorPublicIP := DirectorPublicIP c;
     RDSInstanceClass := RDSInstanceClass c;
     ConcourseWorkerCount := ConcourseWorkerCount c;
     ConcourseWorkerSize := ConcourseWorkerSize c;
     ConcourseWebSize := ConcourseWebSize c;
     ConcourseUsername := ConcourseUsername c;
     ConcoursePassword := ConcoursePassword c;
     DirectorCACert := DirectorCACert c; DirectorCert := DirectorCert c;
     DirectorKey := v; ConcourseCACert := ConcourseCACert c;
     ConcourseCert := ConcourseCert c; ConcourseKey := ConcourseKey c;
     ConcourseUserProvidedCert := ConcourseUserProvidedCert c;
     CredhubURL := CredhubURL c; CredhubUsername := CredhubUsername c;
     CredhubPassword := CredhubPassword c;
     CredhubCACert := CredhubCACert c |}.

Definition set_ConcourseCACert (v : string) (c : t) : t :=
  {| Project := Project c; Deployment := Deployment c; Region := Region c;
     Domain := Domain c; SourceAccessIP := SourceAccessIP c;
     HostedZoneID := HostedZoneID c;
     HostedZoneRecordPrefix := HostedZoneRecordPrefix c;
     DirectorPublicIP := DirectorPublicIP c;
     RDSInstanceClass := RDSInstanceClass c;
     ConcourseWorkerCount := ConcourseWorkerCount c;
     ConcourseWorkerSize := ConcourseWorkerSize c;
     ConcourseWebSize := ConcourseWebSize c;
     ConcourseUsername := ConcourseUsername c;
     ConcoursePassword := ConcoursePassword c;
     DirectorCACert := DirectorCACert c; DirectorCert := DirectorCert c;
     DirectorKey := DirectorKey c; ConcourseCACert := v;
     ConcourseCert := ConcourseCert c; ConcourseKey := ConcourseKey c;
     ConcourseUserProvidedCert := ConcourseUserProvidedCert c;
     CredhubURL := CredhubURL c; CredhubUsername := CredhubUsername c;
     CredhubPassword := CredhubPassword c;
     CredhubCACert := CredhubCACert c |}.

Definition set_ConcourseCert (v : string) (c : t) : t :=
  {| Project := Project c; Deployment := Deployment c; Region := Region c;
     Domain := Domain c; SourceAccessIP := SourceAccessIP c;
     HostedZoneID := HostedZoneID c;
     HostedZoneRecordPrefix := HostedZoneRecordPrefix c;
     DirectorPublicIP := DirectorPublicIP c;
     RDSInstanceClass := RDSInstanceClass c;
     ConcourseWorkerCount := ConcourseWorkerCount c;
     ConcourseWorkerSize := ConcourseWorkerSize c;
     ConcourseWebSize := ConcourseWebSize c;
     ConcourseUsername := ConcourseUsername c;
     ConcoursePassword := ConcoursePassword c;
     DirectorCACert := DirectorCACert c; DirectorCert := DirectorCert c;
     DirectorKey := DirectorKey c; ConcourseCACert := ConcourseCACert c;
     ConcourseCert := v; ConcourseKey := ConcourseKey c;
     ConcourseUserProvidedCert := ConcourseUserProvidedCert c;
     CredhubURL := CredhubURL c; CredhubUsername := CredhubUsername c;
     CredhubPassword := CredhubPassword c;
     CredhubCACert := CredhubCACert c |}.

Definition set_ConcourseKey (v : string) (c : t) : t :=
  {| Project := Project c; Deployment := Deployment c; Region := Region c;
     Domain := Domain c; SourceAccessIP := SourceAccessIP c;
     HostedZoneID := HostedZoneID c;
     HostedZoneRecordPrefix := HostedZoneRecordPrefix c;
     DirectorPublicIP := DirectorPublicIP c;
     RDSInstanceClass := RDSInstanceClass c;
     ConcourseWorkerCount := ConcourseWorkerCount c;
     ConcourseWorkerSize := ConcourseWorkerSize c;
     ConcourseWebSize := ConcourseWebSize c;
     ConcourseUsername := ConcourseUsername c;
     ConcoursePassword := ConcoursePassword c;
     DirectorCACert := DirectorCACert c; DirectorCert := DirectorCert c;
     DirectorKey := DirectorKey c; ConcourseCACert := ConcourseCACert c;
     ConcourseCert := ConcourseCert c; ConcourseKey := v;
     ConcourseUserProvidedCert := ConcourseUserProvidedCert c;
     CredhubURL := CredhubURL c; CredhubUsername := CredhubUsername c;
     CredhubPassword := CredhubPassword c;
     CredhubCACert := CredhubCACert c |}.

Definition set_ConcourseUserProvidedCert (v : bool) (c : t) : t :=
  {| Project := Project c; Deployment := Deployment c; Region := Region c;
     Domain := Domain c; SourceAccessIP := SourceAccessIP c;
     HostedZoneID := HostedZoneID c;
     HostedZoneRecordPrefix := HostedZoneRecordPrefix c;
     DirectorPublicIP := DirectorPublicIP c;
     RDSInstanceClass := RDSInstanceClass c;
     ConcourseWorkerCount := ConcourseWorkerCount c;
     ConcourseWorkerSize := ConcourseWorkerSize c;
     ConcourseWebSize := ConcourseWebSize c;
     ConcourseUsername := ConcourseUsername c;
     ConcoursePassword := ConcoursePassword c;
     DirectorCACert := DirectorCACert c; DirectorCert := DirectorCert c;
     DirectorKey := DirectorKey c; ConcourseCACert := ConcourseCACert c;
     ConcourseCert := ConcourseCert c; ConcourseKey := ConcourseKey c;
     ConcourseUserProvidedCert := v; CredhubURL := CredhubURL c;
     CredhubUsername := CredhubUsername c;
     CredhubPassword := CredhubPassword c;
     CredhubCACert := CredhubCACert c |}.

Definition set_CredhubURL (v : string) (c : t) : t :=
  {| Project := Project c; Deployment := Deployment c; Region := Region c;
     Domain := Domain c; SourceAccessIP := SourceAccessIP c;
     HostedZoneID := HostedZoneID c;
     HostedZoneRecordPrefix := HostedZoneRecordPrefix c;
     DirectorPublicIP := DirectorPublicIP c;
     RDSInstanceClass := RDSInstanceClass c;
     ConcourseWorkerCount := ConcourseWorkerCount c;
     ConcourseWorkerSize := ConcourseWorkerSize c;
     ConcourseWebSize := ConcourseWebSize c;
     ConcourseUsername := ConcourseUsername c;
     ConcoursePassword := ConcoursePassword c;
     DirectorCACert := DirectorCACert c; DirectorCert := DirectorCert c;
     DirectorKey := DirectorKey c; ConcourseCACert := ConcourseCACert c;
     ConcourseCert := ConcourseCert c; ConcourseKey := ConcourseKey c;
     ConcourseUserProvidedCert := ConcourseUserProvidedCert c;
     CredhubURL := v; CredhubUsername := CredhubUsername c;
     CredhubPassword := CredhubPassword c;
     CredhubCACert := CredhubCACert c |}.

Definition set_CredhubUsername (v : string) (c : t) : t :=
  {| Project := Project c; Deployment := Deployment c; Region := Region c;
     Domain := Domain c; SourceAccessIP := SourceAccessIP c;
     HostedZoneID := HostedZoneID c;
     HostedZoneRecordPrefix := HostedZoneRecordPrefix c;
     DirectorPublicIP := DirectorPublicIP c;
     RDSInstanceClass := RDSInstanceClass c;
     ConcourseWorkerCount := ConcourseWorkerCount c;
     ConcourseWorkerSize := ConcourseWorkerSize c;
     ConcourseWebSize := ConcourseWebSize c;
     ConcourseUsername := ConcourseUsername c;
     ConcoursePassword := ConcoursePassword c;
     DirectorCACert := DirectorCACert c; DirectorCert := DirectorCert c;
     DirectorKey := DirectorKey c; ConcourseCACert := ConcourseCACert c;
     ConcourseCert := ConcourseCert c; ConcourseKey := ConcourseKey c;
     ConcourseUserProvidedCert := ConcourseUserProvidedCert c;
     CredhubURL := CredhubURL c; CredhubUsername := v;
     CredhubPassword := CredhubPassword c;
     CredhubCACert := CredhubCACert c |}.

Definition set_CredhubPassword (v : string) (c : t) : t :=
  {| Project := Project c; Deployment := Deployment c; Region := Region c;
     Domain := Domain c; SourceAccessIP := SourceAccessIP c;
     HostedZoneID := HostedZoneID c;
     HostedZoneRecordPrefix := HostedZoneRecordPrefix c;
     DirectorPublicIP := DirectorPublicIP c;
     RDSInstanceClass := RDSInstanceClass c;
     ConcourseWorkerCount := ConcourseWorkerCount c;
     ConcourseWorkerSize := ConcourseWorkerSize c;
     ConcourseWebSize := ConcourseWebSize c;
     ConcourseUsername := ConcourseUsername c;
     ConcoursePassword := ConcoursePassword c;
     DirectorCACert := DirectorCACert c; DirectorCert := DirectorCert c;
     DirectorKey := DirectorKey c; ConcourseCACert := ConcourseCACert c;
     ConcourseCert := ConcourseCert c; ConcourseKey := ConcourseKey c;
     ConcourseUserProvidedCert := ConcourseUserProvidedCert c;
     CredhubURL := CredhubURL c; CredhubUsername := CredhubUsername c;
     CredhubPassword := v; CredhubCACert := CredhubCACert c |}.

Definition set_CredhubCACert (v : string) (c : t) : t :=
  {| Project := Project c; Deployment := Deployment c; Region := Region c;
     Domain := Domain c; SourceAccessIP := SourceAccessIP c;
     HostedZoneID := HostedZoneID c;
     HostedZoneRecordPrefix := HostedZoneRecordPrefix c;
     DirectorPublicIP := DirectorPublicIP c;
     RDSInstanceClass := RDSInstanceClass c;
     ConcourseWorkerCount := ConcourseWorkerCount c;
     ConcourseWorkerSize := ConcourseWorkerSize c;
     ConcourseWebSize := ConcourseWebSize c;
     ConcourseUsername := ConcourseUsername c;
     ConcoursePassword := ConcoursePassword c;
     DirectorCACert := DirectorCACert c; DirectorCert := DirectorCert c;
     DirectorKey := DirectorKey c; ConcourseCACert := ConcourseCACert c;
     ConcourseCert := ConcourseCert c; ConcourseKey := ConcourseKey c;
     ConcourseUserProvidedCert := ConcourseUserProvidedCert c;
     CredhubURL := CredhubURL c; CredhubUsername := CredhubUsername c;
     CredhubPassword := CredhubPassword c; CredhubCACert := v |}.

End Config.

(** [terraform.Metadata]: each field stands for the [Value] of the output of
    that name. *)
Module Metadata.
Record t : Type := mk {
  ATCPublicIP : string;
  DirectorPublicIP : string
}.
End Metadata.

(** [certs.Certs] *)
Module Certs.
Record t : Type := mk {
  CACert : bytes;
  Cert : bytes;
  Key : bytes
}.
End Certs.

(** [fly.Credentials] *)
Module Credentials.
Record t : Type := mk {
  Target : string;
  API : string;
  Username : string;
  Password : string
}.
End Credentials.

(** The local type [credhubCreds] of [deployBosh]: [Password] is the key
    [credhub_cli_password], [CACert] the key [ca] under [credhub-tls]. *)
Module credhubCreds.
Record t : Type := mk {
  Password : string;
  CACert : string
}.
End credhubCreds.

(** [x509.Certificate], with the field [timeTillExpiry] reads. *)
Module Certificate.
Record t : Type := mk {
  NotAfter : time.Time
}.
End Certificate.

(** ** Calls to collaborators *)

Inductive Stream : Type := Stdout | Stderr.

Inductive Event : Type :=
| EvLoadOrCreate (args : DeployArgs.t)
| EvUpdate (config : Config.t)
| EvHasAsset (filename : string)
| EvLoadAsset (filename : string)
| EvStoreAsset (filename : string) (contents : bytes)
| EvWrite (w : Stream) (p : string)
| EvFindUserIP
| EvIAAS
| EvFindLongestMatchingHostedZone (domain : string)
| EvTerraformClientFactory (iaas : string) (config : Config.t)
| EvTerraformApply (arg : bool)
| EvTerraformOutput
| EvTerraformCleanup
| EvCertGenerator (identity : string) (subjects : list string)
| EvFlyClientFactory (creds : Credentials.t)
| EvCanConnect
| EvSetDefaultPipeline (args : DeployArgs.t) (config : Config.t)
    (allowFlyVersionDiscrepancy : bool)
| EvFlyCleanup
| EvBuildBoshClient (config : Config.t) (metadata : Metadata.t)
| EvBoshDeploy (state creds : bytes) (detach : bool)
| EvBoshCleanup.

(** The calls made so far, oldest first. *)
Definition History : Type := list Event.

(** ** The monad of the orchestration

    A computation reads the history, makes calls and either returns a value or
    stops with an error; it yields its outcome and the calls it made, oldest
    first. *)
Definition M (A : Type) : Type := History -> Res A * list Event.

Definition ret {A : Type} (a : A) : M A := fun _ => (Ok a, []).

Definition fail {A : Type} (e : error) : M A := fun _ => (Err e, []).

Definition bind {A B : Type} (m : M A) (f : A -> M B) : M B :=
  fun h =>
    match m h with
    | (Ok a, l1) => let (r, l2) := f a (h ++ l1) in (r, l1 ++ l2)
    | (Err e, l1) => (Err e, l1)
    end.

(** A call whose answer is used whatever it is. *)
Definition call {A : Type} (ev : Event) (answer : History -> A) : M A :=
  fun h => (Ok (answer h), [ev]).

(** [v, err := f(); if err != nil { return err }] *)
Definition try {A : Type} (ev : Event) (answer : History -> Res A) : M A :=
  fun h => (answer h, [ev]).

(** [if err := f(); err != nil { return err }] *)
Definition check (ev : Event) (answer : History -> option error) : M unit :=
  fun h =>
    match answer h with
    | None => (Ok tt, [ev])
    | Some e => (Err e, [ev])
    end.

(** [defer c.Cleanup()] in front of [body]: the call is made when [body] is
    left, with a value or with an error. *)
Definition defer {A : Type} (ev : Event) (body : M A) : M A :=
  fun h => let (r, l) := body h in (r, l ++ [ev]).

Declare Scope go_scope.
Delimit Scope go_scope with go.
Notation "x <- m ;; k" := (bind m (fun x => k))
  (at level 61, m at next level, right associativity) : go_scope.
Notation "m ;;; k" := (bind m (fun _ => k))
  (at level 61, right associativity) : go_scope.
Local Open Scope go_scope.

Definition outcome {A : Type} (x : Res A * list Event) : Res A := fst x.
Definition calls {A : Type} (x : Res A * list Event) : list Event := snd x.

(** A read of the environment that is not a call to a collaborator. *)
Definition ask {A : Type} (answer : History -> A) : M A :=
  fun h => (Ok (answer h), []).

(** [if err != nil { return err }] on an error already at hand. *)
Definition guard (err : option error) : M unit :=
  match err with
  | None => ret tt
  | Some e => fail e
  end.

Definition lift {A : Type} (r : Res A) : M A :=
  match r with
  | Ok a => ret a
  | Err e => fail e
  end.

(** [v, err := f()] with the error inspected by the caller. *)
Definition attempt {A : Type} (m : M A) : M (Res A) :=
  fun h => let (r, l) := m h in (Ok r, l).

(** ** Interfaces

    A method of an interface is a function of the history of calls: the
    collaborator behind it is arbitrary, and may remember what it was asked. *)

(** [config.IClient] *)
Module IConfigClient.
Record t : Type := mk {
  LoadOrCreate : History -> DeployArgs.t -> Res (Config.t * bool);
  Update : History -> Config.t -> option error;
  HasAsset : History -> string -> Res bool;
  LoadAsset : History -> string -> Res bytes;
  StoreAsset : History -> string -> bytes -> option error
}.
End IConfigClient.

(** [io.Writer]; the count of bytes written is dropped by every caller. *)
Module Writer.
Record t : Type := mk {
  Write : History -> string -> option error
}.
End Writer.

(** [iaas.IClient] *)
Module IIaasClient.
Record t : Type := mk {
  IAAS : History -> string;
  FindLongestMatchingHostedZone : History -> string -> Res (string * string)
}.
End IIaasClient.

(** [terraform.IClient] *)
Module ITerraformClient.
Record t : Type := mk {
  Apply : History -> bool -> option error;
  Output : History -> Res Metadata.t
}.
End ITerraformClient.

(** [fly.IClient] *)
Module IFlyClient.
Record t : Type := mk {
  CanConnect : History -> Res bool;
  SetDefaultPipeline :
    History -> DeployArgs.t -> Config.t -> bool -> option error
}.
End IFlyClient.

(** [bosh.IClient]; [Deploy] returns both blobs together with its error. *)
Module IBoshClient.
Record t : Type := mk {
  Deploy : History -> bytes -> bytes -> bool -> bytes * bytes * option error
}.
End IBoshClient.

(** The fields of [Client] that [deploy.go] uses.  The two factories are
    always given the client's own [stdout] and [stderr]. *)
Module Client.
Record t : Type := mk {
  deployArgs : DeployArgs.t;
  configClient : IConfigClient.t;
  iaasClient : IIaasClient.t;
  stdout : Writer.t;
  stderr : Writer.t;
  certGenerator : History -> string -> list string -> Res Certs.t;
  flyClientFactory : History -> Credentials.t -> Res IFlyClient.t;
  terraformClientFactory :
    History -> string -> Config.t -> Res ITerraformClient.t
}.
End Client.

(** What [deploy.go] takes from other packages and from the other files of its
    own package, none of which is in the sources at hand: the table
    [config.DBSizes] (a Go map: a missing key reads as the empty string), the
    names [bosh.StateFilename] and [bosh.CredsFilename], [util.FindUserIP],
    [Metadata.AssertValid], the method [buildBoshClient] of [Client], and the
    library functions [pem.Decode] (the bytes of the first block, if any),
    [x509.ParseCertificate], [time.Now] and [yaml.Unmarshal] at the type
    [credhubCreds]. *)
Module Packages.
Record t : Type := mk {
  DBSizes : string -> string;
  StateFilename : string;
  CredsFilename : string;
  FindUserIP : History -> Res string;
  AssertValid : Metadata.t -> option error;
  buildBoshClient : History -> Config.t -> Metadata.t -> Res IBoshClient.t;
  Decode : bytes -> option bytes;
  ParseCertificate : bytes -> Res Certificate.t;
  Now : History -> time.Time;
  Unmarshal : bytes -> Res credhubCreds.t
}.
End Packages.

(** ** The functions of [deploy.go]

    A [*config.Config] has a single owner during a run, and every function
    returns the pointer it was given: the record is passed by value, and a
    function that updates it in place and returns only an [error] returns the
    updated record. *)
Section Deploy.

Variable pkg : Packages.t.
Variable client : Client.t.

Let deployArgs : DeployArgs.t := Client.deployArgs client.
Let configClient : IConfigClient.t := Client.configClient client.

Definition Write (w : Stream) (p : string) : M unit :=
  check (EvWrite w p)
    (fun h =>
       Writer.Write
         match w with
         | Stdout => Client.stdout client
         | Stderr => Client.stderr client
         end h p).

Definition Update (config : Config.t) : M unit :=
  check (EvUpdate config)
    (fun h => IConfigClient.Update configClient h config).

Definition certGenerator (identity : string) (subjects : list string)
  : M Certs.t :=
  try (EvCertGenerator identity subjects)
    (fun h => Client.certGenerator client h identity subjects).

Definition StoreAsset (filename : string) (contents : bytes)
  : M (option error) :=
  call (EvStoreAsset filename contents)
    (fun h => IConfigClient.StoreAsset configClient h filename contents).

Definition SetDefaultPipeline (flyClient : IFlyClient.t) (config : Config.t)
    (allowFlyVersionDiscrepancy : bool) : M unit :=
  check (EvSetDefaultPipeline deployArgs config allowFlyVersionDiscrepancy)
    (fun h =>
       IFlyClient.SetDefaultPipeline flyClient h deployArgs config
         allowFlyVersionDiscrepancy).

(** *** Messages *)

Definition configLoadedMsg : string :=
  nl ++ "USING PREVIOUS DEPLOYMENT CONFIG" ++ nl.

Definition writeConfigLoadedSuccessMessage (w : Stream) : M unit :=
  Write w configLoadedMsg.

(** The template [deployMsg] applied to a configuration. *)
Definition deployMsg (config : Config.t) : string :=
  "DEPLOY SUCCESSFUL. Log in with:" ++ nl ++
  "fly --target " ++ Config.Project config ++ " login" ++
  (if negb (Config.ConcourseUserProvidedCert config)
   then " --insecure" else EmptyString) ++
  " --concourse-url https://" ++ Config.Domain config ++
  " --username " ++ Config.ConcourseUsername config ++
  " --password " ++ Config.ConcoursePassword config ++ nl ++
  nl ++
  "Metrics available at https://" ++ Config.Domain config ++
  ":3000 using the same username and password" ++ nl ++
  nl ++
  "Log into credhub with:" ++ nl ++
  "eval " ++ dquote ++ "$(concourse-up info --env --region " ++
  Config.Region config ++ ")" ++ dquote ++ nl.

(** The pieces the template engine writes are taken as one write. *)
Definition writeDeploySuccessMessage (config : Config.t)
    (metadata : Metadata.t) (w : Stream) : M unit :=
  Write w (deployMsg config).

(** *** Loading *)

Definition loadConfig : M Config.t :=
  r <- try (EvLoadOrCreate deployArgs)
         (fun h => IConfigClient.LoadOrCreate configClient h deployArgs) ;;
  let '(cfg, createdNewConfig) := r in
  (if negb createdNewConfig
   then writeConfigLoadedSuccessMessage Stdout
   else ret tt) ;;;
  ret cfg.

(** A nil slice and an empty one are both the empty string. *)
Definition loadDirectorState (configClient : IConfigClient.t) : M bytes :=
  hasState <- try (EvHasAsset (Packages.StateFilename pkg))
                (fun h => IConfigClient.HasAsset configClient h
                            (Packages.StateFilename pkg)) ;;
  if negb hasState then ret EmptyString
  else try (EvLoadAsset (Packages.StateFilename pkg))
         (fun h => IConfigClient.LoadAsset configClient h
                     (Packages.StateFilename pkg)).

Definition loadDirectorCreds (configClient : IConfigClient.t) : M bytes :=
  hasCreds <- try (EvHasAsset (Packages.CredsFilename pkg))
                (fun h => IConfigClient.HasAsset configClient h
                            (Packages.CredsFilename pkg)) ;;
  if negb hasCreds then ret EmptyString
  else try (EvLoadAsset (Packages.CredsFilename pkg))
         (fun h => IConfigClient.LoadAsset configClient h
                     (Packages.CredsFilename pkg)).

(** *** Requirements before terraform *)

Definition setUserIP (config : Config.t) : M Config.t :=
  userIP <- try EvFindUserIP (Packages.FindUserIP pkg) ;;
  if negb (Config.SourceAccessIP config =? userIP)%string then
    let config := Config.set_SourceAccessIP userIP config in
    Write Stderr
      (nl ++ "WARNING: allowing access from local machine (address: " ++
       userIP ++ ")" ++ nl ++ nl) ;;;
    Update config ;;;
    ret config
  else ret config.

Definition setHostedZone (config : Config.t) : M Config.t :=
  let domain := DeployArgs.Domain deployArgs in
  if (DeployArgs.Domain deployArgs =? EmptyString)%string then ret config
  else
    r <- try (EvFindLongestMatchingHostedZone domain)
           (fun h => IIaasClient.FindLongestMatchingHostedZone
                       (Client.iaasClient client) h domain) ;;
    let '(hostedZoneName, hostedZoneID) := r in
    let config := Config.set_HostedZoneID hostedZoneID config in
    let config :=
      Config.set_HostedZoneRecordPrefix
        (TrimSuffix domain ("." ++ hostedZoneName)) config in
    let config := Config.set_Domain domain config in
    Write Stderr
      (nl ++ "WARNING: adding record " ++ domain ++
       " to Route53 hosted zone " ++ hostedZoneName ++ " ID: " ++
       hostedZoneID ++ nl ++ nl) ;;;
    Update config ;;;
    ret config.

Definition regionError (previous requested : string) : error :=
  ("found previous deployment in " ++ previous ++
   ". Refusing to deploy to " ++ requested ++
   " as changing regions for existing deployments is not supported")%string.

Definition checkPreTerraformConfigRequirements (conf : Config.t)
  : M Config.t :=
  let region := DeployArgs.AWSRegion deployArgs in
  (if negb (Config.Region conf =? EmptyString)%string then
     if negb (Config.Region conf =? region)%string
     then fail (regionError (Config.Region conf) region)
     else ret tt
   else ret tt) ;;;
  let conf := Config.set_Region region conf in
  let conf :=
    if DeployArgs.DBSizeIsSet deployArgs
    then Config.set_RDSInstanceClass
           (Packages.DBSizes pkg (DeployArgs.DBSize deployArgs)) conf
    else conf in
  conf <- (if negb (DeployArgs.SelfUpdate deployArgs)
           then setUserIP conf
           else ret conf) ;;
  conf <- setHostedZone conf ;;
  ret conf.

(** *** Terraform *)

Definition applyTerraform (config : Config.t) : M Metadata.t :=
  iaas <- call EvIAAS (IIaasClient.IAAS (Client.iaasClient client)) ;;
  terraformClient <-
    try (EvTerraformClientFactory iaas config)
      (fun h => Client.terraformClientFactory client h iaas config) ;;
  defer EvTerraformCleanup
    (check (EvTerraformApply false)
       (fun h => ITerraformClient.Apply terraformClient h false) ;;;
     metadata <- try EvTerraformOutput
                   (ITerraformClient.Output terraformClient) ;;
     guard (Packages.AssertValid pkg metadata) ;;;
     ret metadata).

(** *** Certificates *)

Definition ensureDirectorCerts (config : Config.t) (metadata : Metadata.t)
  : M Config.t :=
  if negb (Config.DirectorCACert config =? EmptyString)%string
  then ret config
  else
    let ip := Metadata.DirectorPublicIP metadata in
    Write Stdout
      (nl ++ "GENERATING BOSH DIRECTOR CERTIFICATE (" ++ ip ++
       ", 10.0.0.6)" ++ nl) ;;;
    directorCerts <-
      certGenerator (Config.Deployment config) [ip; "10.0.0.6"%string] ;;
    let config :=
      Config.set_DirectorCACert (Certs.CACert directorCerts) config in
    let config :=
      Config.set_DirectorCert (Certs.Cert directorCerts) config in
    let config :=
      Config.set_DirectorKey (Certs.Key directorCerts) config in
    ret config.

Definition timeTillExpiry (cert : string) : M time.Duration :=
  match Packages.Decode pkg cert with
  | None => ret 0
  | Some block =>
      match Packages.ParseCertificate pkg block with
      | Err _ => ret 0
      | Ok c =>
          now <- ask (Packages.Now pkg) ;;
          ret (time.Until now (Certificate.NotAfter c))
      end
  end.

(** [28*24*time.Hour] *)
Definition renewalMargin : time.Duration := 28 * 24 * time.Hour.

Definition ensureConcourseCerts (domainUpdated : bool) (config : Config.t)
    (metadata : Metadata.t) : M Config.t :=
  if negb (DeployArgs.TLSCert deployArgs =? EmptyString)%string then
    let config :=
      Config.set_ConcourseCert (DeployArgs.TLSCert deployArgs) config in
    let config :=
      Config.set_ConcourseKey (DeployArgs.TLSKey deployArgs) config in
    let config := Config.set_ConcourseUserProvidedCert true config in
    ret config
  else
    (* the operands of [&&] are evaluated from the left, as far as needed *)
    skip <-
      (if negb (Config.ConcourseCert config =? EmptyString)%string
          && negb domainUpdated
       then
         remaining <- timeTillExpiry (Config.ConcourseCert config) ;;
         ret (renewalMargin <? remaining)
       else ret false) ;;
    if skip : bool then ret config
    else
      concourseCerts <-
        certGenerator (Config.Deployment config) [Config.Domain config] ;;
      let config :=
        Config.set_ConcourseCert (Certs.Cert concourseCerts) config in
      let config :=
        Config.set_ConcourseKey (Certs.Key concourseCerts) config in
      let config :=
        Config.set_ConcourseCACert (Certs.CACert concourseCerts) config in
      ret config.

(** *** Requirements before the BOSH deploy *)

Definition checkPreDeployConfigRequiments (isDomainUpdated : bool)
    (config : Config.t) (metadata : Metadata.t) : M Config.t :=
  let config :=
    if (DeployArgs.Domain deployArgs =? EmptyString)%string
    then Config.set_Domain (Metadata.ATCPublicIP metadata) config
    else config in
  config <- ensureDirectorCerts config metadata ;;
  config <- ensureConcourseCerts isDomainUpdated config metadata ;;
  let config :=
    Config.set_ConcourseWorkerCount (DeployArgs.WorkerCount deployArgs)
      config in
  let config :=
    Config.set_ConcourseWorkerSize (DeployArgs.WorkerSize deployArgs)
      config in
  let config :=
    Config.set_ConcourseWebSize (DeployArgs.WebSize deployArgs) config in
  let config :=
    Config.set_DirectorPublicIP (Metadata.DirectorPublicIP metadata)
      config in
  Update config ;;;
  ret config.

(** *** BOSH *)

Definition firstError (err err1 : option error) : option error :=
  match err with
  | None => err1
  | Some _ => err
  end.

Definition deployBosh (config : Config.t) (metadata : Metadata.t)
    (detach : bool) : M Config.t :=
  boshClient <- try (EvBuildBoshClient config metadata)
                  (fun h => Packages.buildBoshClient pkg h config metadata) ;;
  defer EvBoshCleanup
    (loaded <- attempt (loadDirectorState configClient) ;;
     match loaded with
     | Err _ => ret config
     | Ok boshStateBytes =>
     loaded <- attempt (loadDirectorCreds configClient) ;;
     match loaded with
     | Err _ => ret config
     | Ok boshCredsBytes =>
     deployed <-
       call (EvBoshDeploy boshStateBytes boshCredsBytes detach)
         (fun h => IBoshClient.Deploy boshClient h boshStateBytes
                     boshCredsBytes detach) ;;
     let '(boshStateBytes, boshCredsBytes, err) := deployed in
     err1 <- StoreAsset (Packages.StateFilename pkg) boshStateBytes ;;
     let err := firstError err err1 in
     err1 <- StoreAsset (Packages.CredsFilename pkg) boshCredsBytes ;;
     let err := firstError err err1 in
     guard err ;;;
     cc <- lift (Packages.Unmarshal pkg boshCredsBytes) ;;
     let config :=
       Config.set_CredhubCACert (credhubCreds.CACert cc) config in
     let config :=
       Config.set_CredhubPassword (credhubCreds.Password cc) config in
     let config :=
       Config.set_CredhubURL
         ("https://" ++ Metadata.ATCPublicIP metadata ++ ":8844/") config in
     let config := Config.set_CredhubUsername "credhub-cli" config in
     ret config
     end
     end).

(** *** The two orders of the BOSH deploy and of the pipeline *)

Definition detachError : error :=
  "In detach mode but it seems that concourse is not currently running"
  %string.

Definition deployBoshAndPipeline (config : Config.t)
    (metadata : Metadata.t) (flyClient : IFlyClient.t) : M Config.t :=
  config <- deployBosh config metadata false ;;
  SetDefaultPipeline flyClient config false ;;;
  writeDeploySuccessMessage config metadata Stdout ;;;
  ret config.

Definition updateBoshAndPipeline (config : Config.t)
    (metadata : Metadata.t) (flyClient : IFlyClient.t) : M Config.t :=
  concourseAlreadyRunning <-
    try EvCanConnect (IFlyClient.CanConnect flyClient) ;;
  if negb concourseAlreadyRunning then fail detachError
  else
    SetDefaultPipeline flyClient config true ;;;
    config <- deployBosh config metadata true ;;
    Write Stdout (nl ++ "UPGRADE RUNNING IN BACKGROUND" ++ nl ++ nl) ;;;
    ret config.

(** *** Deploy *)

Definition flyCredentials (config : Config.t) : Credentials.t :=
  {| Credentials.Target := Config.Deployment config;
     Credentials.API := "https://" ++ Config.Domain config;
     Credentials.Username := Config.ConcourseUsername config;
     Credentials.Password := Config.ConcoursePassword config |}.

Definition Deploy : M unit :=
  config <- loadConfig ;;
  let isDomainUpdated :=
    negb (DeployArgs.Domain deployArgs =? Config.Domain config)%string in
  config <- checkPreTerraformConfigRequirements config ;;
  metadata <- applyTerraform config ;;
  config <- checkPreDeployConfigRequiments isDomainUpdated config metadata ;;
  flyClient <- try (EvFlyClientFactory (flyCredentials config))
                 (fun h => Client.flyClientFactory client h
                             (flyCredentials config)) ;;
  defer EvFlyCleanup
    (config <- (if DeployArgs.SelfUpdate deployArgs
                then updateBoshAndPipeline config metadata flyClient
                else deployBoshAndPipeline config metadata flyClient) ;;
     Update config).

End Deploy.

(** A number of runs of the director step, one after the other, each on the
    configuration the run before left, with the metadata of its own terraform
    step. *)
Fixpoint ensureDirectorCertsRuns (client : Client.t)
    (metadatas : list Metadata.t) (config : Config.t) : M Config.t :=
  match metadatas with
  | [] => ret config
  | metadata :: metadatas =>
      config <- ensureDirectorCerts client config metadata ;;
      ensureDirectorCertsRuns client metadatas config
  end.

(** ** Outcomes named in the statements *)

(** What a run of the application step shows when it calls the generator (one
    call and its outcome): the call is made with the
    deployment and the domain; its certificates replace the three parts of
    the bundle, and its error is returned. *)
Definition regenerated (client : Client.t) (config : Config.t) (h : History)
  : Res Config.t * list Event :=
  (match Client.certGenerator client h (Config.Deployment config)
           [Config.Domain config] with
   | Ok concourseCerts =>
       Ok (Config.set_ConcourseCACert (Certs.CACert concourseCerts)
             (Config.set_ConcourseKey (Certs.Key concourseCerts)
                (Config.set_ConcourseCert (Certs.Cert concourseCerts)
                   config)))
   | Err e => Err e
   end,
   [EvCertGenerator (Config.Deployment config) [Config.Domain config]]).

(** ** Views of the calls of a run *)

(** The calls that the order of the BOSH deploy and of the pipeline is about:
    the start of [deployBosh] (its first call builds the BOSH client), the
    deploy call of the BOSH client with its detach flag, and the setting of
    the pipeline with its tolerance of a version mismatch. *)
Inductive Step : Type :=
| BoshStep
| BoshCall (detach : bool)
| PipelineSet (allowFlyVersionDiscrepancy : bool).

Definition step_of (e : Event) : option Step :=
  match e with
  | EvBuildBoshClient _ _ => Some BoshStep
  | EvBoshDeploy _ _ detach => Some (BoshCall detach)
  | EvSetDefaultPipeline _ _ allow => Some (PipelineSet allow)
  | _ => None
  end.

Fixpoint steps (l : list Event) : list Step :=
  match l with
  | [] => []
  | e :: l =>
      match step_of e with
      | Some s => s :: steps l
      | None => steps l
      end
  end.

(** A computation that makes none of these calls. *)
Definition quiet {A : Type} (m : M A) : Prop :=
  forall h, steps (calls (m h)) = [].

(** The steps of a run that deploys afresh: the BOSH step comes first, its
    deploy call is not detached, and the pipeline is set after it, without
    tolerance; a run that shows less than the setting of the pipeline has
    returned an error. *)
Definition freshOrder {A : Type} (r : Res A) (s : list Step) : Prop :=
  (is_Err r = true /\
   (s = [] \/ s = [BoshStep] \/ s = [BoshStep; BoshCall false])) \/
  s = [BoshStep; PipelineSet false] \/
  s = [BoshStep; BoshCall false; PipelineSet false].

(** The steps of a run that updates itself: the pipeline is set first, with
    tolerance, the BOSH step comes after it and its deploy call is detached;
    a run that shows less than the BOSH step has returned an error. *)
Definition updateOrder {A : Type} (r : Res A) (s : list Step) : Prop :=
  (is_Err r = true /\ (s = [] \/ s = [PipelineSet true])) \/
  s = [PipelineSet true; BoshStep] \/
  s = [PipelineSet true; BoshStep; BoshCall true].

(** The loading of the two blobs of the director never returns an error. *)
Definition loadable (pkg : Packages.t) (configClient : IConfigClient.t)
  : Prop :=
  forall h,
    is_Err (outcome (loadDirectorState pkg configClient h)) = false /\
    is_Err (outcome (loadDirectorCreds pkg configClient h)) = false.

(** The steps of a run that deploys afresh when the blobs load: the pipeline
    is set only after the deploy call. *)
Definition freshOrderLoaded {A : Type} (r : Res A) (s : list Step) : Prop :=
  (is_Err r = true /\
   (s = [] \/ s = [BoshStep] \/ s = [BoshStep; BoshCall false])) \/
  s = [BoshStep; BoshCall false; PipelineSet false].

(** The steps of a run that updates itself when the blobs load: a run that
    shows less than the deploy call has returned an error. *)
Definition updateOrderLoaded {A : Type} (r : Res A) (s : list Step) : Prop :=
  (is_Err r = true /\
   (s = [] \/ s = [PipelineSet true] \/ s = [PipelineSet true; BoshStep])) \/
  s = [PipelineSet true; BoshStep; BoshCall true].

Definition isTerraform (e : Event) : bool :=
  match e with
  | EvIAAS | EvTerraformClientFactory _ _ | EvTerraformApply _
  | EvTerraformOutput | EvTerraformCleanup => true
  | _ => false
  end.

Definition isUpdate (e : Event) : bool :=
  match e with
  | EvUpdate _ => true
  | _ => false
  end.

Definition isCertGenerator (e : Event) : bool :=
  match e with
  | EvCertGenerator _ _ => true
  | _ => false
  end.

Definition isBoshDeploy (e : Event) : bool :=
  match e with
  | EvBoshDeploy _ _ _ => true
  | _ => false
  end.

Definition isStoreAsset (e : Event) : bool :=
  match e with
  | EvStoreAsset _ _ => true
  | _ => false
  end.

(** Neither the deploy call of BOSH nor the store of a blob. *)
Definition quietLoad (e : Event) : Prop :=
  isBoshDeploy e = false /\ isStoreAsset e = false.

(** ** A sample installation

    Collaborators that behave as a working installation does, to run the
    orchestration on: a configuration store that returns what was last put
    into it, a terraform that reports two addresses, a generator that issues a
    certificate good for a year.  A [Fault] makes one collaborator fail. *)
Module Sample.

Inductive Fault : Type :=
| NoFault
| AssetsUnreadable
| ConcourseDown
| BoshDeployFails
| StateStoreFails.

Definition lastUpdate (h : History) : option Config.t :=
  fold_left
    (fun found e => match e with EvUpdate c => Some c | _ => found end)
    h None.

Definition lastStored (filename : string) (h : History) : option bytes :=
  fold_left
    (fun found e =>
       match e with
       | EvStoreAsset f b => if (f =? filename)%string then Some b else found
       | _ => found
       end)
    h None.

Definition newConfig (args : DeployArgs.t) : Config.t :=
  {| Config.Project := "ci";
     Config.Deployment := "concourse-up-ci";
     Config.Region := DeployArgs.AWSRegion args;
     Config.Domain := EmptyString;
     Config.SourceAccessIP := EmptyString;
     Config.HostedZoneID := EmptyString;
     Config.HostedZoneRecordPrefix := EmptyString;
     Config.DirectorPublicIP := EmptyString;
     Config.RDSInstanceClass := "db.t2.small";
     Config.ConcourseWorkerCount := 1;
     Config.ConcourseWorkerSize := "xlarge";
     Config.ConcourseWebSize := "small";
     Config.ConcourseUsername := "admin";
     Config.ConcoursePassword := "s3cret";
     Config.DirectorCACert := EmptyString;
     Config.DirectorCert := EmptyString;
     Config.DirectorKey := EmptyString;
     Config.ConcourseCACert := EmptyString;
     Config.ConcourseCert := EmptyString;
     Config.ConcourseKey := EmptyString;
     Config.ConcourseUserProvidedCert := false;
     Config.CredhubURL := EmptyString;
     Config.CredhubUsername := EmptyString;
     Config.CredhubPassword := EmptyString;
     Config.CredhubCACert := EmptyString |}.

Definition args : DeployArgs.t :=
  {| DeployArgs.AWSRegion := "eu-west-1";
     DeployArgs.Domain := EmptyString;
     DeployArgs.TLSCert := EmptyString;
     DeployArgs.TLSKey := EmptyString;
     DeployArgs.WorkerCount := 2;
     DeployArgs.WorkerSize := "large";
     DeployArgs.WebSize := "medium";
     DeployArgs.DBSize := "small";
     DeployArgs.DBSizeIsSet := false;
     DeployArgs.SelfUpdate := false |}.

Definition selfUpdateArgs : DeployArgs.t :=
  {| DeployArgs.AWSRegion := "eu-west-1";
     DeployArgs.Domain := EmptyString;
     DeployArgs.TLSCert := EmptyString;
     DeployArgs.TLSKey := EmptyString;
     DeployArgs.WorkerCount := 2;
     DeployArgs.WorkerSize := "large";
     DeployArgs.WebSize := "medium";
     DeployArgs.DBSize := "small";
     DeployArgs.DBSizeIsSet := false;
     DeployArgs.SelfUpdate := true |}.

Definition domainArgs : DeployArgs.t :=
  {| DeployArgs.AWSRegion := "eu-west-1";
     DeployArgs.Domain := "ci.example.com";
     DeployArgs.TLSCert := EmptyString;
     DeployArgs.TLSKey := EmptyString;
     DeployArgs.WorkerCount := 2;
     DeployArgs.WorkerSize := "large";
     DeployArgs.WebSize := "medium";
     DeployArgs.DBSize := "small";
     DeployArgs.DBSizeIsSet := false;
     DeployArgs.SelfUpdate := false |}.

Definition metadata : Metadata.t :=
  {| Metadata.ATCPublicIP := "1.2.3.4";
     Metadata.DirectorPublicIP := "5.6.7.8" |}.

Definition issued : Certs.t :=
  {| Certs.CACert := "GENERATED CA";
     Certs.Cert := "GENERATED CERT";
     Certs.Key := "GENERATED KEY" |}.

Definition configClient (fault : Fault) (stored : option Config.t)
  : IConfigClient.t :=
  {| IConfigClient.LoadOrCreate := fun h args =>
       match lastUpdate h, stored with
       | Some c, _ => Ok (c, false)
       | None, Some c => Ok (c, false)
       | None, None => Ok (newConfig args, true)
       end;
     IConfigClient.Update := fun _ _ => None;
     IConfigClient.HasAsset := fun h filename =>
       match fault with
       | AssetsUnreadable => Err "AccessDenied"
       | _ => Ok (match lastStored filename h with
                  | Some _ => true
                  | None => false
                  end)
       end;
     IConfigClient.LoadAsset := fun h filename =>
       match lastStored filename h with
       | Some b => Ok b
       | None => Err "NoSuchKey"
       end;
     IConfigClient.StoreAsset := fun _ filename _ =>
       match fault with
       | StateStoreFails =>
           if (filename =? "director-state.json")%string
           then Some "SlowDown"%string else None
       | _ => None
       end |}.

Definition writer : Writer.t := {| Writer.Write := fun _ _ => None |}.

Definition iaasClient : IIaasClient.t :=
  {| IIaasClient.IAAS := fun _ => "AWS"%string;
     IIaasClient.FindLongestMatchingHostedZone := fun _ _ =>
       Ok ("example.com", "Z2ABCDEF")%string |}.

Definition terraformClient : ITerraformClient.t :=
  {| ITerraformClient.Apply := fun _ _ => None;
     ITerraformClient.Output := fun _ => Ok metadata |}.

Definition flyClient (fault : Fault) : IFlyClient.t :=
  {| IFlyClient.CanConnect := fun _ =>
       match fault with
       | ConcourseDown => Ok false
       | _ => Ok true
       end;
     IFlyClient.SetDefaultPipeline := fun _ _ _ _ => None |}.

Definition boshClient (fault : Fault) : IBoshClient.t :=
  {| IBoshClient.Deploy := fun _ _ _ _ =>
       ("NEW STATE", "NEW CREDS",
        match fault with
        | BoshDeployFails => Some "bosh: deploy failed"
        | _ => None
        end)%string |}.

Definition client (fault : Fault) (args : DeployArgs.t)
    (stored : option Config.t) : Client.t :=
  {| Client.deployArgs := args;
     Client.configClient := configClient fault stored;
     Client.iaasClient := iaasClient;
     Client.stdout := writer;
     Client.stderr := writer;
     Client.certGenerator := fun _ _ _ => Ok issued;
     Client.flyClientFactory := fun _ _ => Ok (flyClient fault);
     Client.terraformClientFactory := fun _ _ _ => Ok terraformClient |}.

(** A certificate is any text but [garbage]; it is good for a year, or for
    a week when it is the text [EXPIRING CERT]. *)
Definition pkg (fault : Fault) : Packages.t :=
  {| Packages.DBSizes := fun size =>
       if (size =? "small")%string then "db.t2.small"%string
       else "db.m4.large"%string;
     Packages.StateFilename := "director-state.json";
     Packages.CredsFilename := "director-creds.yml";
     Packages.FindUserIP := fun _ => Ok "9.9.9.9"%string;
     Packages.AssertValid := fun _ => None;
     Packages.buildBoshClient := fun _ _ _ => Ok (boshClient fault);
     Packages.Decode := fun cert =>
       if (cert =? "garbage")%string then None else Some cert;
     Packages.ParseCertificate := fun block =>
       if (block =? "not a certificate")%string
       then Err "x509: malformed certificate"
       else if (block =? "EXPIRING CERT")%string
       then Ok {| Certificate.NotAfter := 7 * 24 * time.Hour |}
       else Ok {| Certificate.NotAfter := 365 * 24 * time.Hour |};
     Packages.Now := fun _ => 0;
     Packages.Unmarshal := fun _ =>
       Ok {| credhubCreds.Password := "credhub password";
             credhubCreds.CACert := "CREDHUB CA" |} |}.

(** A stored configuration with certificates, as a first deploy leaves it.
    [userCert] marks the application certificate as given by the user. *)
Definition deployed (region domain cert : string) (userCert : bool)
  : Config.t :=
  Config.set_Region region
    (Config.set_Domain domain
       (Config.set_DirectorCACert "DIRECTOR CA"
          (Config.set_DirectorCert "DIRECTOR CERT"
             (Config.set_DirectorKey "DIRECTOR KEY"
                (Config.set_ConcourseCert cert
                   (Config.set_ConcourseKey "KEY"
                      (Config.set_ConcourseUserProvidedCert userCert
                         (newConfig args)))))))).

End Sample.

(** ** Further views of a run *)

(** Every call of the computation satisfies [Q], and the value it returns, if
    it returns one, satisfies [R]. *)
Definition sat {A : Type} (Q : Event -> Prop) (R : A -> Prop) (m : M A)
  : Prop :=
  forall h,
    Forall Q (calls (m h)) /\ (forall a, outcome (m h) = Ok a -> R a).

(** A write of the configuration to the store carries a configuration that
    satisfies [P]; other calls are free. *)
Definition updates (P : Config.t -> Prop) (e : Event) : Prop :=
  match e with
  | EvUpdate config => P config
  | _ => True
  end.

Definition isFindUserIP (e : Event) : bool :=
  match e with
  | EvFindUserIP => true
  | _ => false
  end.

Definition isCanConnect (e : Event) : bool :=
  match e with
  | EvCanConnect => true
  | _ => false
  end.

Definition isTerraformCleanup (e : Event) : bool :=
  match e with
  | EvTerraformCleanup => true
  | _ => false
  end.

Definition isBoshCleanup (e : Event) : bool :=
  match e with
  | EvBoshCleanup => true
  | _ => false
  end.


(** The calls that need the infrastructure: the generation of a certificate,
    the fly client and its calls, the BOSH client and its calls, and the
    loading and storing of the blobs of the director. *)
Definition afterTerraform (e : Event) : bool :=
  match e with
  | EvCertGenerator _ _ | EvFlyClientFactory _ | EvCanConnect
  | EvSetDefaultPipeline _ _ _ | EvFlyCleanup | EvBuildBoshClient _ _
  | EvBoshDeploy _ _ _ | EvBoshCleanup | EvHasAsset _ | EvLoadAsset _
  | EvStoreAsset _ _ => true
  | _ => false
  end.

(** The blob last stored under a name in the calls so far. *)
Definition storedAsset (filename : string) (h : History) : option bytes :=
  fold_left
    (fun found e =>
       match e with
       | EvStoreAsset f b => if (f =? filename)%string then Some b else found
       | _ => found
       end)
    h None.

(** A store of blobs that answers from what was stored through it: a blob
    exists when one was stored under its name, and loading returns the last
    one stored. *)
Definition keepsAssets (configClient : IConfigClient.t) : Prop :=
  forall h filename,
    IConfigClient.HasAsset configClient h filename
    = Ok (match storedAsset filename h with
          | Some _ => true
          | None => false
          end) /\
    (forall b, storedAsset filename h = Some b ->
               IConfigClient.LoadAsset configClient h filename = Ok b).

(** The certificate fields of two configurations are the same. *)
Definition sameCertificates (c c' : Config.t) : Prop :=
  Config.DirectorCACert c' = Config.DirectorCACert c /\
  Config.DirectorCert c' = Config.DirectorCert c /\
  Config.DirectorKey c' = Config.DirectorKey c /\
  Config.ConcourseCACert c' = Config.ConcourseCACert c /\
  Config.ConcourseCert c' = Config.ConcourseCert c /\
  Config.ConcourseKey c' = Config.ConcourseKey c /\
  Config.ConcourseUserProvidedCert c' = Config.ConcourseUserProvidedCert c.

(** Arguments of the sample installation with a certificate of the user, and
    arguments with a database size. *)
Definition tlsArgs : DeployArgs.t :=
  {| DeployArgs.AWSRegion := "eu-west-1";
     DeployArgs.Domain := "ci.example.com";
     DeployArgs.TLSCert := "USER CERT";
     DeployArgs.TLSKey := "USER KEY";
     DeployArgs.WorkerCount := 2;
     DeployArgs.WorkerSize := "large";
     DeployArgs.WebSize := "medium";
     DeployArgs.DBSize := "small";
     DeployArgs.DBSizeIsSet := false;
     DeployArgs.SelfUpdate := false |}.

(** A question to the store about a blob: whether it exists, or its
    contents. *)
Definition isAssetRead (e : Event) : bool :=
  match e with
  | EvHasAsset _ | EvLoadAsset _ => true
  | _ => false
  end.

(** The blob last stored under a name, the empty blob when there is none. *)
Definition blob (filename : string) (h : History) : bytes :=
  match storedAsset filename h with
  | Some b => b
  | None => EmptyString
  end.

(** The calls that need a fly client: its own, and those of the BOSH step,
    which runs while the fly client is held. *)
Definition needsFly (e : Event) : bool :=
  match e with
  | EvCanConnect | EvSetDefaultPipeline _ _ _ | EvFlyCleanup
  | EvBuildBoshClient _ _ | EvBoshDeploy _ _ _ | EvBoshCleanup
  | EvHasAsset _ | EvLoadAsset _ | EvStoreAsset _ _ => true
  | _ => false
  end.

(** The BOSH client is built from this configuration and this metadata. *)
Definition buildsFrom (config : Config.t) (metadata : Metadata.t) (e : Event)
  : Prop :=
  match e with
  | EvBuildBoshClient c m => c = config /\ m = metadata
  | _ => True
  end.

(** ** Running the monad *)

Lemma bind_Ok {A B : Type} (m : M A) (f : A -> M B) h a l :
  m h = (Ok a, l) ->
  bind m f h = (outcome (f a (h ++ l)), l ++ calls (f a (h ++ l))).
Proof.
  intros Hm. unfold bind, outcome, calls. rewrite Hm.
  destruct (f a (h ++ l)); reflexivity.
Qed.

Lemma bind_Err {A B : Type} (m : M A) (f : A -> M B) h e l :
  m h = (Err e, l) -> bind m f h = (Err e, l).
Proof. intros Hm. unfold bind. rewrite Hm. reflexivity. Qed.

Lemma bind_ret {A B : Type} (a : A) (f : A -> M B) h :
  bind (ret a) f h = f a h.
Proof.
  unfold bind, ret. rewrite app_nil_r. destruct (f a h); reflexivity.
Qed.

Lemma calls_bind {A B : Type} (m : M A) (f : A -> M B) h :
  calls (bind m f h) =
  calls (m h) ++
  match outcome (m h) with
  | Ok a => calls (f a (h ++ calls (m h)))
  | Err _ => []
  end.
Proof.
  unfold bind, calls, outcome. destruct (m h) as [[a | e] l]; simpl.
  - destruct (f a (h ++ l)); reflexivity.
  - now rewrite app_nil_r.
Qed.

Lemma outcome_bind {A B : Type} (m : M A) (f : A -> M B) h :
  outcome (bind m f h) =
  match outcome (m h) with
  | Ok a => outcome (f a (h ++ calls (m h)))
  | Err e => Err e
  end.
Proof.
  unfold bind, calls, outcome. destruct (m h) as [[a | e] l]; simpl.
  - destruct (f a (h ++ l)); reflexivity.
  - reflexivity.
Qed.

Lemma calls_defer {A : Type} ev (body : M A) h :
  calls (defer ev body h) = calls (body h) ++ [ev].
Proof. unfold defer, calls. destruct (body h); reflexivity. Qed.

Lemma outcome_defer {A : Type} ev (body : M A) h :
  outcome (defer ev body h) = outcome (body h).
Proof. unfold defer, outcome. destruct (body h); reflexivity. Qed.

(** ** The expiry of a certificate *)

Lemma Sub_exact (t u : time.Time) :
  time.minDuration <= t - u <= time.maxDuration -> time.Sub t u = t - u.
Proof.
  intros [Hlo Hhi]. unfold time.Sub.
  destruct (Z.ltb_spec (t - u) time.minDuration); [lia |].
  destruct (Z.ltb_spec time.maxDuration (t - u)); [lia | reflexivity].
Qed.

(** Whether the remaining time is beyond the margin of renewal does not
    depend on the saturation of [Time.Sub]. *)
Lemma Sub_beyond_margin (t u : time.Time) :
  (renewalMargin <? time.Sub t u) = (renewalMargin <? t - u).
Proof.
  unfold time.Sub.
  assert (Hmin : time.minDuration < renewalMargin) by reflexivity.
  assert (Hmax : renewalMargin < time.maxDuration) by reflexivity.
  destruct (Z.ltb_spec (t - u) time.minDuration) as [H1 | H1].
  - destruct (Z.ltb_spec renewalMargin time.minDuration);
      destruct (Z.ltb_spec renewalMargin (t - u)); try reflexivity; lia.
  - destruct (Z.ltb_spec time.maxDuration (t - u)) as [H2 | H2];
      [| reflexivity].
    destruct (Z.ltb_spec renewalMargin time.maxDuration);
      destruct (Z.ltb_spec renewalMargin (t - u)); try reflexivity; lia.
Qed.

Lemma timeTillExpiry_total pkg cert h :
  exists remaining, timeTillExpiry pkg cert h = (Ok remaining, []).
Proof.
  unfold timeTillExpiry.
  destruct (Packages.Decode pkg cert) as [block |]; [| now exists 0].
  destruct (Packages.ParseCertificate pkg block) as [c | e]; [| now exists 0].
  eexists. reflexivity.
Qed.

(** C10: [timeTillExpiry] returns on every string, with a duration and without
    a call to a collaborator; the duration is zero when the PEM decoding finds
    no block and when the block does not parse as a certificate; for a
    certificate it is [NotAfter] minus the present time, as [Time.Sub] gives
    it, which is the difference itself when it fits a [Duration]. *)
Theorem timeTillExpiry_spec pkg cert h :
  (exists remaining, timeTillExpiry pkg cert h = (Ok remaining, [])) /\
  (Packages.Decode pkg cert = None ->
   timeTillExpiry pkg cert h = (Ok 0, [])) /\
  (forall block e,
     Packages.Decode pkg cert = Some block ->
     Packages.ParseCertificate pkg block = Err e ->
     timeTillExpiry pkg cert h = (Ok 0, [])) /\
  (forall block c,
     Packages.Decode pkg cert = Some block ->
     Packages.ParseCertificate pkg block = Ok c ->
     timeTillExpiry pkg cert h =
       (Ok (time.Sub (Certificate.NotAfter c) (Packages.Now pkg h)), []) /\
     (time.minDuration <= Certificate.NotAfter c - Packages.Now pkg h
        <= time.maxDuration ->
      timeTillExpiry pkg cert h =
        (Ok (Certificate.NotAfter c - Packages.Now pkg h), []))).
Proof.
  split; [apply timeTillExpiry_total |].
  unfold timeTillExpiry. split; [| split].
  - intros ->. reflexivity.
  - intros block e -> ->. reflexivity.
  - intros block c -> ->. split; [reflexivity |].
    intros Hfit. cbn. unfold time.Until. now rewrite Sub_exact.
Qed.

Lemma timeTillExpiry_spec_witness :
  timeTillExpiry (Sample.pkg Sample.NoFault) "garbage" [] = (Ok 0, []) /\
  timeTillExpiry (Sample.pkg Sample.NoFault) "not a certificate" []
  = (Ok 0, []) /\
  timeTillExpiry (Sample.pkg Sample.NoFault) "GENERATED CERT" []
  = (Ok (365 * 24 * time.Hour), []).
Proof.
  pose proof (timeTillExpiry_spec (Sample.pkg Sample.NoFault) "garbage" [])
    as (_ & Hdecode & _ & _).
  pose proof (timeTillExpiry_spec (Sample.pkg Sample.NoFault)
                "not a certificate" [])
    as (_ & _ & Hparse & _).
  pose proof (timeTillExpiry_spec (Sample.pkg Sample.NoFault)
                "GENERATED CERT" [])
    as (_ & _ & _ & Hvalid).
  split; [| split].
  - apply Hdecode. reflexivity.
  - apply (Hparse "not a certificate"%string
             "x509: malformed certificate"%string); reflexivity.
  - refine (proj2 (Hvalid "GENERATED CERT"%string
                     {| Certificate.NotAfter := 365 * 24 * time.Hour |}
                     eq_refl eq_refl) _).
    split; discriminate.
Defined.

(** ** The certificate of the director *)

Lemma ensureDirectorCerts_present client config metadata h :
  Config.DirectorCACert config <> EmptyString ->
  ensureDirectorCerts client config metadata h = (Ok config, []).
Proof.
  intros Hca. unfold ensureDirectorCerts.
  apply String.eqb_neq in Hca. rewrite Hca. reflexivity.
Qed.

Lemma ensureDirectorCertsRuns_present client metadatas config h :
  Config.DirectorCACert config <> EmptyString ->
  ensureDirectorCertsRuns client metadatas config h = (Ok config, []).
Proof.
  intros Hca. revert h.
  induction metadatas as [| metadata metadatas IH]; intros h; cbn.
  - reflexivity.
  - rewrite (bind_Ok _ _ h config [])
      by now apply ensureDirectorCerts_present.
    rewrite app_nil_r, IH. reflexivity.
Qed.

(** C6: when the stored CA certificate of the director is not empty, the
    director step returns the configuration it was given and makes no call, so
    the certificate generator is not called; and however many runs of the step
    follow one another from such a configuration, they leave it as it is
    without a single call. *)
Theorem ensureDirectorCerts_once client config h :
  Config.DirectorCACert config <> EmptyString ->
  (forall metadata,
     ensureDirectorCerts client config metadata h = (Ok config, [])) /\
  (forall metadatas,
     ensureDirectorCertsRuns client metadatas config h = (Ok config, [])).
Proof.
  intros Hca. split.
  - intros metadata. now apply ensureDirectorCerts_present.
  - intros metadatas. now apply ensureDirectorCertsRuns_present.
Qed.

Lemma ensureDirectorCerts_once_witness :
  ensureDirectorCerts (Sample.client Sample.NoFault Sample.args None)
    (Sample.deployed "eu-west-1" "1.2.3.4" "GENERATED CERT" false)
    Sample.metadata []
  = (Ok (Sample.deployed "eu-west-1" "1.2.3.4" "GENERATED CERT" false), [])
  /\
  ensureDirectorCertsRuns (Sample.client Sample.NoFault Sample.args None)
    [Sample.metadata; Sample.metadata; Sample.metadata]
    (Sample.deployed "eu-west-1" "1.2.3.4" "GENERATED CERT" false) []
  = (Ok (Sample.deployed "eu-west-1" "1.2.3.4" "GENERATED CERT" false), []).
Proof.
  assert (Hca :
    Config.DirectorCACert
      (Sample.deployed "eu-west-1" "1.2.3.4" "GENERATED CERT" false)
    <> EmptyString) by discriminate.
  split.
  - exact (proj1 (ensureDirectorCerts_once
                    (Sample.client Sample.NoFault Sample.args None)
                    _ [] Hca) Sample.metadata).
  - exact (proj2 (ensureDirectorCerts_once
                    (Sample.client Sample.NoFault Sample.args None)
                    _ [] Hca)
             [Sample.metadata; Sample.metadata; Sample.metadata]).
Defined.

(** From any configuration, runs of the director step that follow one another
    call the generator once at most, as long as the generator issues no empty
    CA certificate. *)
Lemma director_generated_at_most_once client metadatas config h :
  (forall h identity subjects issued,
     Client.certGenerator client h identity subjects = Ok issued ->
     Certs.CACert issued <> EmptyString) ->
  (List.length
     (filter isCertGenerator
        (calls (ensureDirectorCertsRuns client metadatas config h))) <= 1)%nat.
Proof.
  intros Hissue.
  destruct (String.eqb_spec (Config.DirectorCACert config) EmptyString)
    as [Hempty | Hca].
  2: { rewrite (ensureDirectorCertsRuns_present client _ config h Hca).
       cbn. lia. }
  destruct metadatas as [| metadata metadatas]; [cbn; lia |].
  cbn [ensureDirectorCertsRuns].
  set (msg := (nl ++ "GENERATING BOSH DIRECTOR CERTIFICATE (" ++
               Metadata.DirectorPublicIP metadata ++ ", 10.0.0.6)" ++ nl)
              %string).
  set (subjects := [Metadata.DirectorPublicIP metadata; "10.0.0.6"%string]).
  assert (Hstep :
    ensureDirectorCerts client config metadata
    = bind (Write client Stdout msg)
        (fun _ =>
           bind (certGenerator client (Config.Deployment config) subjects)
             (fun directorCerts =>
                ret (Config.set_DirectorKey (Certs.Key directorCerts)
                       (Config.set_DirectorCert (Certs.Cert directorCerts)
                          (Config.set_DirectorCACert
                             (Certs.CACert directorCerts) config)))))).
  { unfold ensureDirectorCerts. apply String.eqb_eq in Hempty.
    now rewrite Hempty. }
  rewrite Hstep. clear Hstep.
  destruct (Writer.Write (Client.stdout client) h msg) as [e |] eqn:Hw.
  { assert (Hwrite : Write client Stdout msg h = (Err e, [EvWrite Stdout msg]))
      by (unfold Write, check; now rewrite Hw).
    rewrite (bind_Err _ _ h e _ (bind_Err _ _ h e _ Hwrite)). cbn. lia. }
  assert (Hwrite : Write client Stdout msg h = (Ok tt, [EvWrite Stdout msg]))
    by (unfold Write, check; now rewrite Hw).
  set (h1 := h ++ [EvWrite Stdout msg]).
  destruct (Client.certGenerator client h1 (Config.Deployment config) subjects)
    as [issued | e] eqn:Hgen.
  - assert (Hcerts :
      certGenerator client (Config.Deployment config) subjects h1
      = (Ok issued, [EvCertGenerator (Config.Deployment config) subjects]))
      by (unfold certGenerator, try; now rewrite Hgen).
    assert (Hrun :
      bind (Write client Stdout msg)
        (fun _ =>
           bind (certGenerator client (Config.Deployment config) subjects)
             (fun directorCerts =>
                ret (Config.set_DirectorKey (Certs.Key directorCerts)
                       (Config.set_DirectorCert (Certs.Cert directorCerts)
                          (Config.set_DirectorCACert
                             (Certs.CACert directorCerts) config))))) h
      = (Ok (Config.set_DirectorKey (Certs.Key issued)
               (Config.set_DirectorCert (Certs.Cert issued)
                  (Config.set_DirectorCACert (Certs.CACert issued) config))),
         [EvWrite Stdout msg;
          EvCertGenerator (Config.Deployment config) subjects])).
    { rewrite (bind_Ok _ _ h tt _ Hwrite).
      fold h1. now rewrite (bind_Ok _ _ h1 issued _ Hcerts). }
    rewrite (bind_Ok _ _ h _ _ Hrun).
    apply Hissue in Hgen.
    match goal with
    | |- context [ensureDirectorCertsRuns client metadatas ?c ?h'] =>
        assert (Hca : Config.DirectorCACert c <> EmptyString) by exact Hgen;
        rewrite (ensureDirectorCertsRuns_present client metadatas c h' Hca)
    end.
    cbn. lia.
  - assert (Hcerts :
      certGenerator client (Config.Deployment config) subjects h1
      = (Err e, [EvCertGenerator (Config.Deployment config) subjects]))
      by (unfold certGenerator, try; now rewrite Hgen).
    assert (Hrun :
      bind (Write client Stdout msg)
        (fun _ =>
           bind (certGenerator client (Config.Deployment config) subjects)
             (fun directorCerts =>
                ret (Config.set_DirectorKey (Certs.Key directorCerts)
                       (Config.set_DirectorCert (Certs.Cert directorCerts)
                          (Config.set_DirectorCACert
                             (Certs.CACert directorCerts) config))))) h
      = (Err e, [EvWrite Stdout msg;
                 EvCertGenerator (Config.Deployment config) subjects])).
    { rewrite (bind_Ok _ _ h tt _ Hwrite).
      fold h1. now rewrite (bind_Err _ _ h1 e _ Hcerts). }
    rewrite (bind_Err _ _ h e _ Hrun). cbn. lia.
Qed.

(** ** The certificate of the application *)

Lemma ensureConcourseCerts_skip pkg client domainUpdated config metadata h
    remaining :
  DeployArgs.TLSCert (Client.deployArgs client) = EmptyString ->
  Config.ConcourseCert config <> EmptyString ->
  domainUpdated = false ->
  timeTillExpiry pkg (Config.ConcourseCert config) h = (Ok remaining, []) ->
  renewalMargin < remaining ->
  ensureConcourseCerts pkg client domainUpdated config metadata h
  = (Ok config, []).
Proof.
  intros Htls Hcert -> Htime Hlong. unfold ensureConcourseCerts.
  rewrite Htls. apply String.eqb_neq in Hcert. rewrite Hcert.
  cbn [negb andb String.eqb]. apply Z.ltb_lt in Hlong.
  unfold bind at 1. unfold bind at 1. rewrite Htime.
  cbn -[renewalMargin]. rewrite Hlong. reflexivity.
Qed.

Lemma generate_regenerated client config h :
  (concourseCerts <-
     certGenerator client (Config.Deployment config) [Config.Domain config] ;;
   ret
     (Config.set_ConcourseCACert (Certs.CACert concourseCerts)
        (Config.set_ConcourseKey (Certs.Key concourseCerts)
           (Config.set_ConcourseCert (Certs.Cert concourseCerts) config)))) h
  = regenerated client config h.
Proof.
  unfold regenerated, bind, certGenerator, try, ret.
  destruct (Client.certGenerator client h (Config.Deployment config)
              [Config.Domain config]); reflexivity.
Qed.

Lemma ensureConcourseCerts_regenerate pkg client domainUpdated config
    metadata h remaining :
  DeployArgs.TLSCert (Client.deployArgs client) = EmptyString ->
  timeTillExpiry pkg (Config.ConcourseCert config) h = (Ok remaining, []) ->
  Config.ConcourseCert config = EmptyString \/ domainUpdated = true \/
    remaining <= renewalMargin ->
  ensureConcourseCerts pkg client domainUpdated config metadata h
  = regenerated client config h.
Proof.
  intros Htls Htime Hcase. unfold ensureConcourseCerts. rewrite Htls.
  cbn [negb String.eqb].
  assert (Hskip :
    (if negb (Config.ConcourseCert config =? EmptyString)%string
        && negb domainUpdated
     then
       remaining <- timeTillExpiry pkg (Config.ConcourseCert config) ;;
       ret (renewalMargin <? remaining)
     else ret false) h = (Ok false, [])).
  { destruct (negb (Config.ConcourseCert config =? EmptyString)%string
              && negb domainUpdated) eqn:Hcond; [| reflexivity].
    apply andb_true_iff in Hcond. destruct Hcond as [Hcert Hdom].
    apply negb_true_iff in Hcert, Hdom. apply String.eqb_neq in Hcert.
    destruct Hcase as [Hempty | [Hupd | Hshort]]; [congruence | congruence |].
    unfold bind. rewrite Htime. cbn -[renewalMargin].
    apply Z.ltb_ge in Hshort. now rewrite Hshort. }
  rewrite (bind_Ok _ _ h false []) by exact Hskip.
  rewrite app_nil_r. cbv beta iota. rewrite generate_regenerated.
  unfold regenerated, outcome, calls. reflexivity.
Qed.

(** C7: with no certificate in the arguments, the application step leaves the
    configuration as it is and makes no call when the stored certificate is
    not empty, the domain did not change and more than 28 days remain; in
    every other case (at most 28 days remain, the domain changed, or no
    certificate is stored) it makes exactly one call, to the generator, whose
    certificates replace the bundle (and whose error, if any, is returned). *)
Theorem ensureConcourseCerts_policy pkg client domainUpdated config metadata
    h remaining :
  DeployArgs.TLSCert (Client.deployArgs client) = EmptyString ->
  timeTillExpiry pkg (Config.ConcourseCert config) h = (Ok remaining, []) ->
  (Config.ConcourseCert config <> EmptyString /\ domainUpdated = false /\
   renewalMargin < remaining ->
   ensureConcourseCerts pkg client domainUpdated config metadata h
   = (Ok config, [])) /\
  (Config.ConcourseCert config = EmptyString \/ domainUpdated = true \/
   remaining <= renewalMargin ->
   ensureConcourseCerts pkg client domainUpdated config metadata h
   = regenerated client config h).
Proof.
  intros Htls Htime. split.
  - intros (Hcert & Hdom & Hlong).
    now apply ensureConcourseCerts_skip with (remaining := remaining).
  - intros Hcase.
    now apply ensureConcourseCerts_regenerate with (remaining := remaining).
Qed.

(** The policy on the sample installation: a certificate good for a year is
    kept, one good for a week is replaced. *)
Lemma ensureConcourseCerts_policy_witness :
  ensureConcourseCerts (Sample.pkg Sample.NoFault)
    (Sample.client Sample.NoFault Sample.args None) false
    (Sample.deployed "eu-west-1" "1.2.3.4" "GENERATED CERT" false)
    Sample.metadata []
  = (Ok (Sample.deployed "eu-west-1" "1.2.3.4" "GENERATED CERT" false), [])
  /\
  ensureConcourseCerts (Sample.pkg Sample.NoFault)
    (Sample.client Sample.NoFault Sample.args None) false
    (Sample.deployed "eu-west-1" "1.2.3.4" "EXPIRING CERT" false)
    Sample.metadata []
  = regenerated (Sample.client Sample.NoFault Sample.args None)
      (Sample.deployed "eu-west-1" "1.2.3.4" "EXPIRING CERT" false) [].
Proof.
  split.
  - apply (ensureConcourseCerts_policy (Sample.pkg Sample.NoFault)
             (Sample.client Sample.NoFault Sample.args None) false
             (Sample.deployed "eu-west-1" "1.2.3.4" "GENERATED CERT" false)
             Sample.metadata [] (365 * 24 * time.Hour)).
    + reflexivity.
    + reflexivity.
    + split; [discriminate | split; [reflexivity | reflexivity]].
  - apply (ensureConcourseCerts_policy (Sample.pkg Sample.NoFault)
             (Sample.client Sample.NoFault Sample.args None) false
             (Sample.deployed "eu-west-1" "1.2.3.4" "EXPIRING CERT" false)
             Sample.metadata [] (7 * 24 * time.Hour)).
    + reflexivity.
    + reflexivity.
    + right; right. discriminate.
Defined.

(** C1 as stated fails: the configuration marks its certificate as given by
    the user, the arguments carry no certificate, and the run finds that the
    domain changed; the step calls the generator and returns a configuration
    with another certificate and another key. *)
Lemma user_certificate_overwritten :
  let client := Sample.client Sample.NoFault Sample.args None in
  let config := Sample.deployed "eu-west-1" "ci.example.com" "USER CERT" true in
  DeployArgs.TLSCert (Client.deployArgs client) = EmptyString /\
  Config.ConcourseUserProvidedCert config = true /\
  exists config',
    ensureConcourseCerts (Sample.pkg Sample.NoFault) client true config
      Sample.metadata []
    = (Ok config', [EvCertGenerator "concourse-up-ci" ["ci.example.com"]]) /\
    Config.ConcourseCert config = "USER CERT" /\
    Config.ConcourseCert config' = "GENERATED CERT" /\
    Config.ConcourseKey config = "KEY" /\
    Config.ConcourseKey config' = "GENERATED KEY" /\
    Config.ConcourseUserProvidedCert config' = true.
Proof.
  cbv zeta. split; [reflexivity | split; [reflexivity |]].
  eexists. split; [vm_compute; reflexivity |].
  repeat split.
Qed.

(** C1, amended: with no certificate in the arguments and a stored bundle
    marked as given by the user, the step leaves the bundle (certificate, key
    and mark, with the rest of the configuration) as it is and makes no call,
    provided the stored certificate is not empty, the domain did not change
    in this run and more than 28 days remain. *)
Theorem user_certificate_kept pkg client domainUpdated config metadata h
    remaining :
  DeployArgs.TLSCert (Client.deployArgs client) = EmptyString ->
  Config.ConcourseUserProvidedCert config = true ->
  Config.ConcourseCert config <> EmptyString ->
  domainUpdated = false ->
  timeTillExpiry pkg (Config.ConcourseCert config) h = (Ok remaining, []) ->
  renewalMargin < remaining ->
  exists config',
    ensureConcourseCerts pkg client domainUpdated config metadata h
    = (Ok config', []) /\
    Config.ConcourseCert config' = Config.ConcourseCert config /\
    Config.ConcourseKey config' = Config.ConcourseKey config /\
    Config.ConcourseUserProvidedCert config' = true /\
    config' = config.
Proof.
  intros Htls Huser Hcert Hdom Htime Hlong. exists config.
  split; [| now repeat split].
  now apply ensureConcourseCerts_skip with (remaining := remaining).
Qed.

Lemma user_certificate_kept_witness :
  exists config',
    ensureConcourseCerts (Sample.pkg Sample.NoFault)
      (Sample.client Sample.NoFault Sample.domainArgs None) false
      (Sample.deployed "eu-west-1" "ci.example.com" "USER CERT" true)
      Sample.metadata []
    = (Ok config', []) /\
    Config.ConcourseCert config' = "USER CERT" /\
    Config.ConcourseKey config' = "KEY" /\
    Config.ConcourseUserProvidedCert config' = true /\
    config' = Sample.deployed "eu-west-1" "ci.example.com" "USER CERT" true.
Proof.
  apply (user_certificate_kept (Sample.pkg Sample.NoFault)
           (Sample.client Sample.NoFault Sample.domainArgs None) false
           (Sample.deployed "eu-west-1" "ci.example.com" "USER CERT" true)
           Sample.metadata [] (365 * 24 * time.Hour)).
  - reflexivity.
  - reflexivity.
  - discriminate.
  - reflexivity.
  - reflexivity.
  - reflexivity.
Defined.

(** ** The lock on the region *)

Lemma loadConfig_calls client h :
  Forall (fun e => isTerraform e = false /\ isUpdate e = false)
    (calls (loadConfig client h)).
Proof.
  unfold loadConfig. rewrite calls_bind. apply Forall_app. split.
  - unfold try, calls. cbn. now repeat constructor.
  - destruct (outcome _) as [[cfg created] | e]; [| constructor].
    rewrite calls_bind. apply Forall_app. split.
    + destruct created; cbn; [constructor |].
      unfold writeConfigLoadedSuccessMessage, Write, check, calls.
      destruct (Writer.Write _ _ _); cbn; now repeat constructor.
    + destruct (outcome _); constructor.
Qed.

Lemma region_mismatch pkg client conf h :
  Config.Region conf <> EmptyString ->
  Config.Region conf <> DeployArgs.AWSRegion (Client.deployArgs client) ->
  checkPreTerraformConfigRequirements pkg client conf h
  = (Err (regionError (Config.Region conf)
            (DeployArgs.AWSRegion (Client.deployArgs client))), []).
Proof.
  intros Hset Hdiff. unfold checkPreTerraformConfigRequirements.
  apply String.eqb_neq in Hset, Hdiff. rewrite Hset, Hdiff.
  reflexivity.
Qed.

(** C3: when the configuration that was loaded has a region that is not empty
    and is not the region of the arguments, [Deploy] returns the error that
    names the two regions, the stored one first; the only calls of the run are
    those of the loading: terraform is not called and the configuration is not
    written back to the store, so that the stored region stays as it is. *)
Theorem Deploy_region_locked pkg client h config loading :
  loadConfig client h = (Ok config, loading) ->
  Config.Region config <> EmptyString ->
  Config.Region config <> DeployArgs.AWSRegion (Client.deployArgs client) ->
  let stored := Config.Region config in
  let requested := DeployArgs.AWSRegion (Client.deployArgs client) in
  Deploy pkg client h = (Err (regionError stored requested), loading) /\
  regionError stored requested
  = ("found previous deployment in " ++ stored ++
     ". Refusing to deploy to " ++ requested ++
     " as changing regions for existing deployments is not supported")%string
  /\
  Forall (fun e => isTerraform e = false /\ isUpdate e = false)
    (calls (Deploy pkg client h)) /\
  checkPreTerraformConfigRequirements pkg client config (h ++ loading)
  = (Err (regionError stored requested), []).
Proof.
  intros Hload Hset Hdiff stored requested.
  pose proof (region_mismatch pkg client config (h ++ loading) Hset Hdiff)
    as Hcheck.
  assert (Hrun :
    Deploy pkg client h = (Err (regionError stored requested), loading)).
  { unfold Deploy. rewrite (bind_Ok _ _ h config loading Hload).
    rewrite (bind_Err _ _ (h ++ loading) _ [] Hcheck).
    unfold outcome, calls. cbn [fst snd]. now rewrite app_nil_r. }
  split; [exact Hrun |]. split; [reflexivity |]. split; [| exact Hcheck].
  rewrite Hrun. unfold calls. cbn [snd].
  pose proof (loadConfig_calls client h) as Hcalls.
  rewrite Hload in Hcalls. exact Hcalls.
Qed.

Lemma Deploy_region_locked_witness :
  let client :=
    Sample.client Sample.NoFault Sample.args
      (Some (Sample.deployed "us-east-1" "1.2.3.4" "GENERATED CERT" false)) in
  Deploy (Sample.pkg Sample.NoFault) client []
  = (Err (regionError "us-east-1" "eu-west-1"),
     [EvLoadOrCreate Sample.args; EvWrite Stdout configLoadedMsg]).
Proof.
  cbv zeta.
  refine (proj1 (Deploy_region_locked (Sample.pkg Sample.NoFault)
            (Sample.client Sample.NoFault Sample.args
               (Some (Sample.deployed "us-east-1" "1.2.3.4" "GENERATED CERT"
                        false)))
            [] (Sample.deployed "us-east-1" "1.2.3.4" "GENERATED CERT" false)
            [EvLoadOrCreate Sample.args; EvWrite Stdout configLoadedMsg]
            _ _ _)).
  - reflexivity.
  - discriminate.
  - discriminate.
Defined.

(** ** The BOSH deploy and the two blobs *)

Lemma attempt_run {A : Type} (m : M A) h r l :
  m h = (r, l) -> attempt m h = (Ok r, l).
Proof. intros Hm. unfold attempt. now rewrite Hm. Qed.

Lemma defer_run {A : Type} ev (body : M A) h r l :
  body h = (r, l) -> defer ev body h = (r, l ++ [ev]).
Proof. intros Hbody. unfold defer. now rewrite Hbody. Qed.

Lemma loadDirectorState_calls pkg configClient h :
  Forall quietLoad (calls (loadDirectorState pkg configClient h)).
Proof.
  unfold loadDirectorState. rewrite calls_bind. apply Forall_app. split.
  - cbn. now repeat constructor.
  - destruct (outcome _) as [[|] | e]; cbn; now repeat constructor.
Qed.

Lemma loadDirectorCreds_calls pkg configClient h :
  Forall quietLoad (calls (loadDirectorCreds pkg configClient h)).
Proof.
  unfold loadDirectorCreds. rewrite calls_bind. apply Forall_app. split.
  - cbn. now repeat constructor.
  - destruct (outcome _) as [[|] | e]; cbn; now repeat constructor.
Qed.

Lemma loadDirectorState_absent pkg configClient h :
  IConfigClient.HasAsset configClient h (Packages.StateFilename pkg)
  = Ok false ->
  loadDirectorState pkg configClient h
  = (Ok EmptyString, [EvHasAsset (Packages.StateFilename pkg)]).
Proof.
  intros Habsent. unfold loadDirectorState.
  rewrite (bind_Ok _ _ h false [EvHasAsset (Packages.StateFilename pkg)])
    by (unfold try; now rewrite Habsent).
  reflexivity.
Qed.

Lemma loadDirectorCreds_absent pkg configClient h :
  IConfigClient.HasAsset configClient h (Packages.CredsFilename pkg)
  = Ok false ->
  loadDirectorCreds pkg configClient h
  = (Ok EmptyString, [EvHasAsset (Packages.CredsFilename pkg)]).
Proof.
  intros Habsent. unfold loadDirectorCreds.
  rewrite (bind_Ok _ _ h false [EvHasAsset (Packages.CredsFilename pkg)])
    by (unfold try; now rewrite Habsent).
  reflexivity.
Qed.

Section DeployBosh.

Variable pkg : Packages.t.
Variable client : Client.t.
Variables (config : Config.t) (metadata : Metadata.t) (detach : bool).
Variable h : History.

Let configClient := Client.configClient client.
Let built := EvBuildBoshClient config metadata.

Lemma deployBosh_unbuilt e :
  Packages.buildBoshClient pkg h config metadata = Err e ->
  deployBosh pkg client config metadata detach h = (Err e, [built]).
Proof.
  intros Hbuild. unfold deployBosh.
  apply bind_Err. unfold try. now rewrite Hbuild.
Qed.

Variable boshClient : IBoshClient.t.
Hypothesis Hbuild :
  Packages.buildBoshClient pkg h config metadata = Ok boshClient.

Lemma deployBosh_state_unreadable e l1 :
  loadDirectorState pkg configClient (h ++ [built]) = (Err e, l1) ->
  deployBosh pkg client config metadata detach h
  = (Ok config, [built] ++ (l1 ++ [EvBoshCleanup])).
Proof.
  intros Hstate. unfold deployBosh.
  rewrite (bind_Ok _ _ h boshClient [built])
    by (unfold try; now rewrite Hbuild).
  erewrite (defer_run _ _ _ (Ok config) l1); [reflexivity |].
  rewrite (bind_Ok _ _ _ (Err e) l1) by now apply attempt_run.
  cbn. now rewrite app_nil_r.
Qed.

Lemma deployBosh_creds_unreadable st l1 e l2 :
  loadDirectorState pkg configClient (h ++ [built]) = (Ok st, l1) ->
  loadDirectorCreds pkg configClient ((h ++ [built]) ++ l1) = (Err e, l2) ->
  deployBosh pkg client config metadata detach h
  = (Ok config, [built] ++ ((l1 ++ l2) ++ [EvBoshCleanup])).
Proof.
  intros Hstate Hcreds. unfold deployBosh.
  rewrite (bind_Ok _ _ h boshClient [built])
    by (unfold try; now rewrite Hbuild).
  erewrite (defer_run _ _ _ (Ok config) (l1 ++ l2)); [reflexivity |].
  rewrite (bind_Ok _ _ _ (Ok st) l1) by now apply attempt_run.
  rewrite (bind_Ok _ _ _ (Err e) l2) by now apply attempt_run.
  cbn. now rewrite app_nil_r.
Qed.

Variables (st cr : bytes) (l1 l2 : list Event).
Hypothesis Hstate :
  loadDirectorState pkg configClient (h ++ [built]) = (Ok st, l1).
Hypothesis Hcreds :
  loadDirectorCreds pkg configClient ((h ++ [built]) ++ l1) = (Ok cr, l2).

Let h2 := ((h ++ [built]) ++ l1) ++ l2.
Let deployed := EvBoshDeploy st cr detach.

Variables (st' cr' : bytes) (err : option error).
Hypothesis Hdeploy :
  IBoshClient.Deploy boshClient h2 st cr detach = (st', cr', err).

Let storedState := EvStoreAsset (Packages.StateFilename pkg) st'.
Let storedCreds := EvStoreAsset (Packages.CredsFilename pkg) cr'.
Let err1 :=
  IConfigClient.StoreAsset configClient (h2 ++ [deployed])
    (Packages.StateFilename pkg) st'.
Let err2 :=
  IConfigClient.StoreAsset configClient ((h2 ++ [deployed]) ++ [storedState])
    (Packages.CredsFilename pkg) cr'.

Lemma deployBosh_deployed :
  deployBosh pkg client config metadata detach h
  = (match firstError (firstError err err1) err2 with
     | Some e => Err e
     | None =>
         match Packages.Unmarshal pkg cr' with
         | Ok cc =>
             Ok (Config.set_CredhubUsername "credhub-cli"
                   (Config.set_CredhubURL
                      ("https://" ++ Metadata.ATCPublicIP metadata ++
                       ":8844/")
                      (Config.set_CredhubPassword (credhubCreds.Password cc)
                         (Config.set_CredhubCACert (credhubCreds.CACert cc)
                            config))))
         | Err e => Err e
         end
     end,
     [built] ++
     ((l1 ++ l2 ++ [deployed; storedState; storedCreds]) ++
      [EvBoshCleanup])).
Proof.
  unfold deployBosh.
  rewrite (bind_Ok _ _ h boshClient [built])
    by (unfold try; now rewrite Hbuild).
  match goal with
  | |- (outcome ?x, _ ++ calls ?x) = (?r, _ ++ ?l) =>
      assert (Hx : x = (r, l)); [| rewrite Hx; reflexivity]
  end.
  apply defer_run.
  rewrite (bind_Ok _ _ _ (Ok st) l1) by now apply attempt_run.
  rewrite (bind_Ok _ _ _ (Ok cr) l2) by now apply attempt_run.
  rewrite (bind_Ok _ _ _ (st', cr', err) [deployed])
    by (unfold call; fold h2; now rewrite Hdeploy).
  cbv beta iota.
  rewrite (bind_Ok _ _ _ err1 [storedState]) by reflexivity.
  rewrite (bind_Ok _ _ _ err2 [storedCreds]) by reflexivity.
  destruct (firstError (firstError err err1) err2) as [e |]; [reflexivity |].
  cbn [guard]. rewrite bind_ret.
  destruct (Packages.Unmarshal pkg cr') as [cc | e]; reflexivity.
Qed.

(** C5: once the loading of the two blobs has succeeded, the deploy call of
    the BOSH client is made and is followed by the store of the state blob
    and by the store of the credentials blob, each with the bytes the deploy
    call returned, whatever the errors of the calls before; [deployBosh]
    returns the error of the deploy call if there is one, else the error of
    the store of the state if there is one, else the error of the store of the
    credentials if there is one. *)
Theorem deployBosh_persists_both :
  calls (deployBosh pkg client config metadata detach h)
  = [built] ++ l1 ++ l2 ++
    [deployed; storedState; storedCreds; EvBoshCleanup] /\
  (forall e, err = Some e ->
     outcome (deployBosh pkg client config metadata detach h) = Err e) /\
  (forall e, err = None -> err1 = Some e ->
     outcome (deployBosh pkg client config metadata detach h) = Err e) /\
  (forall e, err = None -> err1 = None -> err2 = Some e ->
     outcome (deployBosh pkg client config metadata detach h) = Err e).
Proof.
  rewrite deployBosh_deployed. unfold calls, outcome. cbn [fst snd].
  split; [| split; [| split]].
  - cbn [app]. rewrite <- !app_assoc. reflexivity.
  - intros e ->. reflexivity.
  - intros e -> He1. fold err1. rewrite He1. reflexivity.
  - intros e -> He1 He2. fold err1 err2. rewrite He1, He2. reflexivity.
Qed.

End DeployBosh.

(** On the sample installation: a deploy call that fails, and a store of the
    state that fails.  Both blobs are stored all the same, and the error that
    comes first is returned. *)
Lemma deployBosh_persists_both_witness :
  let config := Sample.deployed "eu-west-1" "1.2.3.4" "GENERATED CERT" false in
  let blobs :=
    [EvBuildBoshClient config Sample.metadata;
     EvHasAsset "director-state.json";
     EvHasAsset "director-creds.yml";
     EvBoshDeploy EmptyString EmptyString false;
     EvStoreAsset "director-state.json" "NEW STATE";
     EvStoreAsset "director-creds.yml" "NEW CREDS";
     EvBoshCleanup] in
  (calls (deployBosh (Sample.pkg Sample.BoshDeployFails)
            (Sample.client Sample.BoshDeployFails Sample.args None)
            config Sample.metadata false [])
   = blobs /\
   outcome (deployBosh (Sample.pkg Sample.BoshDeployFails)
              (Sample.client Sample.BoshDeployFails Sample.args None)
              config Sample.metadata false [])
   = Err "bosh: deploy failed"%string) /\
  (calls (deployBosh (Sample.pkg Sample.StateStoreFails)
            (Sample.client Sample.StateStoreFails Sample.args None)
            config Sample.metadata false [])
   = blobs /\
   outcome (deployBosh (Sample.pkg Sample.StateStoreFails)
              (Sample.client Sample.StateStoreFails Sample.args None)
              config Sample.metadata false [])
   = Err "SlowDown"%string).
Proof.
  cbv zeta.
  pose proof
    (deployBosh_persists_both (Sample.pkg Sample.BoshDeployFails)
       (Sample.client Sample.BoshDeployFails Sample.args None)
       (Sample.deployed "eu-west-1" "1.2.3.4" "GENERATED CERT" false)
       Sample.metadata false []
       (Sample.boshClient Sample.BoshDeployFails) eq_refl
       EmptyString EmptyString
       [EvHasAsset "director-state.json"] [EvHasAsset "director-creds.yml"]
       eq_refl eq_refl
       "NEW STATE"%string "NEW CREDS"%string
       (Some "bosh: deploy failed"%string) eq_refl)
    as [Hcalls [Hdeploy _]].
  pose proof
    (deployBosh_persists_both (Sample.pkg Sample.StateStoreFails)
       (Sample.client Sample.StateStoreFails Sample.args None)
       (Sample.deployed "eu-west-1" "1.2.3.4" "GENERATED CERT" false)
       Sample.metadata false []
       (Sample.boshClient Sample.StateStoreFails) eq_refl
       EmptyString EmptyString
       [EvHasAsset "director-state.json"] [EvHasAsset "director-creds.yml"]
       eq_refl eq_refl
       "NEW STATE"%string "NEW CREDS"%string None eq_refl)
    as [Hcalls' [_ [Hstate _]]].
  split; split.
  - exact Hcalls.
  - apply Hdeploy. reflexivity.
  - exact Hcalls'.
  - apply Hstate; reflexivity.
Defined.

(** C2 as stated fails: on an installation whose store cannot tell whether a
    blob exists, the loading of the state returns an error; [deployBosh] then
    returns, and [Deploy] runs to its end, without a deploy call of BOSH. *)
Lemma load_error_skips_deploy :
  let pkg := Sample.pkg Sample.AssetsUnreadable in
  let client := Sample.client Sample.AssetsUnreadable Sample.args None in
  let config := Sample.deployed "eu-west-1" "1.2.3.4" "GENERATED CERT" false in
  loadDirectorState pkg (Client.configClient client)
    [EvBuildBoshClient config Sample.metadata]
  = (Err "AccessDenied"%string, [EvHasAsset "director-state.json"]) /\
  calls (deployBosh pkg client config Sample.metadata false [])
  = [EvBuildBoshClient config Sample.metadata;
     EvHasAsset "director-state.json";
     EvBoshCleanup] /\
  filter isBoshDeploy (calls (Deploy pkg client [])) = [].
Proof.
  cbv zeta. split; [| split]; vm_compute; reflexivity.
Qed.

(** C2, amended: when the loading of the stored state, or of the stored
    credentials, returns an error, [deployBosh] stops there: the calls of the
    run are those of the loading, between the building and the cleanup of the
    BOSH client, with no deploy call and no store of a blob.  A blob that the
    store reports as absent is loaded as the empty blob, without an error, and
    with two absent blobs the deploy call is made, on two empty blobs. *)
Theorem deployBosh_load_error pkg client config metadata detach h boshClient :
  Packages.buildBoshClient pkg h config metadata = Ok boshClient ->
  let configClient := Client.configClient client in
  let built := EvBuildBoshClient config metadata in
  let run := deployBosh pkg client config metadata detach h in
  (forall e l1,
     loadDirectorState pkg configClient (h ++ [built]) = (Err e, l1) ->
     calls run = [built] ++ l1 ++ [EvBoshCleanup] /\
     Forall quietLoad (calls run)) /\
  (forall st l1 e l2,
     loadDirectorState pkg configClient (h ++ [built]) = (Ok st, l1) ->
     loadDirectorCreds pkg configClient ((h ++ [built]) ++ l1) = (Err e, l2) ->
     calls run = [built] ++ l1 ++ l2 ++ [EvBoshCleanup] /\
     Forall quietLoad (calls run)) /\
  (IConfigClient.HasAsset configClient (h ++ [built])
     (Packages.StateFilename pkg) = Ok false ->
   IConfigClient.HasAsset configClient
     ((h ++ [built]) ++ [EvHasAsset (Packages.StateFilename pkg)])
     (Packages.CredsFilename pkg) = Ok false ->
   loadDirectorState pkg configClient (h ++ [built])
   = (Ok EmptyString, [EvHasAsset (Packages.StateFilename pkg)]) /\
   In (EvBoshDeploy EmptyString EmptyString detach) (calls run)).
Proof.
  intros Hbuild configClient built run. split; [| split].
  - intros e l1 Hstate.
    assert (Hcalls : calls run = [built] ++ l1 ++ [EvBoshCleanup]).
    { unfold run.
      now rewrite (deployBosh_state_unreadable pkg client config metadata
                     detach h boshClient Hbuild e l1 Hstate). }
    split; [exact Hcalls |]. rewrite Hcalls.
    pose proof (loadDirectorState_calls pkg configClient (h ++ [built]))
      as Hquiet.
    rewrite Hstate in Hquiet. cbn [calls snd] in Hquiet.
    apply Forall_app. split; [now repeat constructor |].
    apply Forall_app. split; [exact Hquiet | now repeat constructor].
  - intros st l1 e l2 Hstate Hcreds.
    assert (Hcalls : calls run = [built] ++ l1 ++ l2 ++ [EvBoshCleanup]).
    { unfold run.
      rewrite (deployBosh_creds_unreadable pkg client config metadata
                 detach h boshClient Hbuild st l1 e l2 Hstate Hcreds).
      unfold calls. cbn [snd]. now rewrite <- app_assoc. }
    split; [exact Hcalls |]. rewrite Hcalls.
    pose proof (loadDirectorState_calls pkg configClient (h ++ [built]))
      as Hquiet1.
    pose proof (loadDirectorCreds_calls pkg configClient ((h ++ [built]) ++ l1))
      as Hquiet2.
    rewrite Hstate in Hquiet1. rewrite Hcreds in Hquiet2.
    cbn [calls snd] in Hquiet1, Hquiet2.
    apply Forall_app. split; [now repeat constructor |].
    apply Forall_app. split; [exact Hquiet1 |].
    apply Forall_app. split; [exact Hquiet2 | now repeat constructor].
  - intros Hstate Hcreds.
    pose proof (loadDirectorState_absent pkg configClient _ Hstate) as Hs.
    pose proof (loadDirectorCreds_absent pkg configClient _ Hcreds) as Hc.
    split; [exact Hs |].
    destruct (IBoshClient.Deploy boshClient
                (((h ++ [built]) ++
                  [EvHasAsset (Packages.StateFilename pkg)]) ++
                 [EvHasAsset (Packages.CredsFilename pkg)])
                EmptyString EmptyString detach)
      as [[st' cr'] err] eqn:Hdeploy.
    unfold run.
    rewrite (deployBosh_deployed pkg client config metadata detach h
               boshClient Hbuild _ _ _ _ Hs Hc st' cr' err Hdeploy).
    unfold calls. cbn. right. right. right. left. reflexivity.
Qed.

Lemma deployBosh_load_error_witness :
  let config := Sample.deployed "eu-west-1" "1.2.3.4" "GENERATED CERT" false in
  calls (deployBosh (Sample.pkg Sample.AssetsUnreadable)
           (Sample.client Sample.AssetsUnreadable Sample.args None)
           config Sample.metadata false [])
  = [EvBuildBoshClient config Sample.metadata;
     EvHasAsset "director-state.json";
     EvBoshCleanup] /\
  In (EvBoshDeploy EmptyString EmptyString false)
    (calls (deployBosh (Sample.pkg Sample.NoFault)
              (Sample.client Sample.NoFault Sample.args None)
              config Sample.metadata false [])).
Proof.
  cbv zeta. split.
  - refine (proj1 (proj1
      (deployBosh_load_error (Sample.pkg Sample.AssetsUnreadable)
         (Sample.client Sample.AssetsUnreadable Sample.args None)
         (Sample.deployed "eu-west-1" "1.2.3.4" "GENERATED CERT" false)
         Sample.metadata false [] (Sample.boshClient Sample.AssetsUnreadable)
         eq_refl)
      "AccessDenied"%string [EvHasAsset "director-state.json"] eq_refl)).
  - refine (proj2 (proj2 (proj2
      (deployBosh_load_error (Sample.pkg Sample.NoFault)
         (Sample.client Sample.NoFault Sample.args None)
         (Sample.deployed "eu-west-1" "1.2.3.4" "GENERATED CERT" false)
         Sample.metadata false [] (Sample.boshClient Sample.NoFault)
         eq_refl)) eq_refl eq_refl)).
Defined.

(** ** The steps of a run *)

Lemma steps_app l1 l2 : steps (l1 ++ l2) = steps l1 ++ steps l2.
Proof.
  induction l1 as [| e l1 IH]; cbn; [reflexivity |].
  destruct (step_of e); cbn; now rewrite IH.
Qed.

Lemma steps_bind {A B : Type} (m : M A) (f : A -> M B) h :
  steps (calls (bind m f h)) =
  steps (calls (m h)) ++
  match outcome (m h) with
  | Ok a => steps (calls (f a (h ++ calls (m h))))
  | Err _ => []
  end.
Proof.
  rewrite calls_bind, steps_app. now destruct (outcome (m h)).
Qed.

Lemma quiet_ret {A : Type} (a : A) : quiet (ret a).
Proof. intros h. reflexivity. Qed.

Lemma quiet_fail {A : Type} e : quiet (@fail A e).
Proof. intros h. reflexivity. Qed.

Lemma quiet_ask {A : Type} (answer : History -> A) : quiet (ask answer).
Proof. intros h. reflexivity. Qed.

Lemma quiet_guard err : quiet (guard err).
Proof. intros h. now destruct err. Qed.

Lemma quiet_lift {A : Type} (r : Res A) : quiet (lift r).
Proof. intros h. now destruct r. Qed.

Lemma quiet_call {A : Type} ev (answer : History -> A) :
  step_of ev = None -> quiet (call ev answer).
Proof. intros Hev h. cbn. now rewrite Hev. Qed.

Lemma quiet_try {A : Type} ev (answer : History -> Res A) :
  step_of ev = None -> quiet (try ev answer).
Proof. intros Hev h. cbn. now rewrite Hev. Qed.

Lemma quiet_check ev answer : step_of ev = None -> quiet (check ev answer).
Proof.
  intros Hev h. unfold check. destruct (answer h); cbn; now rewrite Hev.
Qed.

Lemma quiet_bind {A B : Type} (m : M A) (f : A -> M B) :
  quiet m -> (forall a, quiet (f a)) -> quiet (bind m f).
Proof.
  intros Hm Hf h. rewrite steps_bind, Hm. cbn.
  destruct (outcome (m h)); [apply Hf | reflexivity].
Qed.

Lemma quiet_defer {A : Type} ev (body : M A) :
  step_of ev = None -> quiet body -> quiet (defer ev body).
Proof.
  intros Hev Hbody h. rewrite calls_defer, steps_app, Hbody. cbn.
  now rewrite Hev.
Qed.

Lemma quiet_attempt {A : Type} (m : M A) : quiet m -> quiet (attempt m).
Proof.
  intros Hm h. specialize (Hm h). unfold attempt, calls in *.
  now destruct (m h).
Qed.

(** Quietness follows the shape of the code. *)
Ltac quiet_step :=
  first
    [ apply quiet_ret
    | apply quiet_fail
    | apply quiet_ask
    | apply quiet_guard
    | apply quiet_lift
    | apply quiet_call; reflexivity
    | apply quiet_try; reflexivity
    | apply quiet_check; reflexivity
    | apply quiet_attempt
    | apply quiet_defer; [reflexivity |]
    | apply quiet_bind; [| intros ?]
    | match goal with
      | |- quiet (if ?b then _ else _) => destruct b
      | |- quiet (match ?x with _ => _ end) => destruct x
      end ].

Ltac quiet := cbv zeta; repeat quiet_step.

Lemma quiet_Write client w p : quiet (Write client w p).
Proof. unfold Write. quiet. Qed.

Lemma quiet_Update client config : quiet (Update client config).
Proof. unfold Update. quiet. Qed.

Lemma quiet_certGenerator client identity subjects :
  quiet (certGenerator client identity subjects).
Proof. unfold certGenerator. quiet. Qed.

Lemma quiet_StoreAsset client filename contents :
  quiet (StoreAsset client filename contents).
Proof. unfold StoreAsset. quiet. Qed.

Create HintDb quiet.

#[local] Hint Resolve quiet_Write quiet_Update quiet_certGenerator
  quiet_StoreAsset : quiet.

Ltac quiet_code :=
  cbv zeta; repeat first [ solve [auto with quiet] | quiet_step ].

Lemma quiet_loadConfig client : quiet (loadConfig client).
Proof. unfold loadConfig, writeConfigLoadedSuccessMessage. quiet_code. Qed.

Lemma quiet_loadDirectorState pkg configClient :
  quiet (loadDirectorState pkg configClient).
Proof. unfold loadDirectorState. quiet_code. Qed.

Lemma quiet_loadDirectorCreds pkg configClient :
  quiet (loadDirectorCreds pkg configClient).
Proof. unfold loadDirectorCreds. quiet_code. Qed.

Lemma quiet_setUserIP pkg client config : quiet (setUserIP pkg client config).
Proof. unfold setUserIP. quiet_code. Qed.

Lemma quiet_setHostedZone client config : quiet (setHostedZone client config).
Proof. unfold setHostedZone. quiet_code. Qed.

#[local] Hint Resolve quiet_loadConfig quiet_loadDirectorState
  quiet_loadDirectorCreds quiet_setUserIP quiet_setHostedZone : quiet.

Lemma quiet_checkPreTerraformConfigRequirements pkg client conf :
  quiet (checkPreTerraformConfigRequirements pkg client conf).
Proof. unfold checkPreTerraformConfigRequirements. quiet_code. Qed.

Lemma quiet_applyTerraform pkg client config :
  quiet (applyTerraform pkg client config).
Proof. unfold applyTerraform. quiet_code. Qed.

Lemma quiet_ensureDirectorCerts client config metadata :
  quiet (ensureDirectorCerts client config metadata).
Proof. unfold ensureDirectorCerts. quiet_code. Qed.

Lemma quiet_timeTillExpiry pkg cert : quiet (timeTillExpiry pkg cert).
Proof. unfold timeTillExpiry. quiet_code. Qed.

#[local] Hint Resolve quiet_ensureDirectorCerts quiet_timeTillExpiry : quiet.

Lemma quiet_ensureConcourseCerts pkg client domainUpdated config metadata :
  quiet (ensureConcourseCerts pkg client domainUpdated config metadata).
Proof. unfold ensureConcourseCerts. quiet_code. Qed.

#[local] Hint Resolve quiet_ensureConcourseCerts : quiet.

Lemma quiet_checkPreDeployConfigRequiments pkg client isDomainUpdated config
    metadata :
  quiet (checkPreDeployConfigRequiments pkg client isDomainUpdated config
           metadata).
Proof. unfold checkPreDeployConfigRequiments. quiet_code. Qed.

Lemma quiet_writeDeploySuccessMessage client config metadata w :
  quiet (writeDeploySuccessMessage client config metadata w).
Proof. unfold writeDeploySuccessMessage. quiet_code. Qed.

Lemma bind_quiet_shape {A B : Type} (P : Res B -> list Step -> Prop)
    (m : M A) (f : A -> M B) :
  quiet m ->
  (forall e, P (Err e) []) ->
  (forall a h, P (outcome (f a h)) (steps (calls (f a h)))) ->
  forall h, P (outcome (bind m f h)) (steps (calls (bind m f h))).
Proof.
  intros Hm Herr Hf h. rewrite outcome_bind, steps_bind, Hm. cbn [app].
  destruct (outcome (m h)); [apply Hf | apply Herr].
Qed.

Lemma steps_SetDefaultPipeline client flyClient config allow h :
  steps (calls (SetDefaultPipeline client flyClient config allow h))
  = [PipelineSet allow].
Proof.
  unfold SetDefaultPipeline, check.
  destruct (IFlyClient.SetDefaultPipeline _ _ _ _ _); reflexivity.
Qed.

Lemma deployBosh_steps pkg client config metadata detach h :
  steps (calls (deployBosh pkg client config metadata detach h)) = [BoshStep]
  \/
  steps (calls (deployBosh pkg client config metadata detach h))
  = [BoshStep; BoshCall detach].
Proof.
  unfold deployBosh. rewrite steps_bind.
  change (steps (calls (try (EvBuildBoshClient config metadata)
                          (fun h0 => Packages.buildBoshClient pkg h0 config
                                       metadata) h)))
    with [BoshStep].
  destruct (outcome _) as [boshClient | e]; [| now left].
  rewrite calls_defer, steps_app. cbn [steps step_of]. rewrite app_nil_r.
  rewrite steps_bind.
  rewrite (quiet_attempt _ (quiet_loadDirectorState pkg _)). cbn [app].
  destruct (outcome _) as [[boshStateBytes | e] | e]; try now left.
  rewrite steps_bind.
  rewrite (quiet_attempt _ (quiet_loadDirectorCreds pkg _)). cbn [app].
  destruct (outcome _) as [[boshCredsBytes | e] | e]; try now left.
  rewrite steps_bind. right. cbn [call calls snd steps step_of outcome fst].
  cbn [app]. do 2 f_equal.
  match goal with
  | |- steps (calls (?m ?h)) = [] => enough (Hq : quiet m) by apply Hq
  end.
  destruct (IBoshClient.Deploy _ _ _ _ _) as [[st' cr'] err].
  quiet_code.
Qed.

Lemma pipeline_then_quiet {A : Type} client flyClient config allow
    (k : M A) h :
  quiet k ->
  steps (calls (bind (SetDefaultPipeline client flyClient config allow)
                  (fun _ => k) h))
  = [PipelineSet allow].
Proof.
  intros Hk. rewrite steps_bind, steps_SetDefaultPipeline.
  destruct (outcome _); [now rewrite Hk | reflexivity].
Qed.

Lemma deployBosh_steps_loaded pkg client config metadata detach h :
  loadable pkg (Client.configClient client) ->
  (is_Err (outcome (deployBosh pkg client config metadata detach h)) = true /\
   steps (calls (deployBosh pkg client config metadata detach h))
   = [BoshStep]) \/
  steps (calls (deployBosh pkg client config metadata detach h))
  = [BoshStep; BoshCall detach].
Proof.
  intros Hload.
  destruct (Packages.buildBoshClient pkg h config metadata)
    as [boshClient | e] eqn:Hbuild.
  2: { left. now rewrite (deployBosh_unbuilt pkg client config metadata
                            detach h e Hbuild). }
  set (h1 := h ++ [EvBuildBoshClient config metadata]).
  destruct (loadDirectorState pkg (Client.configClient client) h1)
    as [[st | e] l1] eqn:Hstate.
  2: { pose proof (proj1 (Hload h1)) as Hok. rewrite Hstate in Hok.
       discriminate. }
  destruct (loadDirectorCreds pkg (Client.configClient client) (h1 ++ l1))
    as [[cr | e] l2] eqn:Hcreds.
  2: { pose proof (proj2 (Hload (h1 ++ l1))) as Hok. rewrite Hcreds in Hok.
       discriminate. }
  destruct (IBoshClient.Deploy boshClient ((h1 ++ l1) ++ l2) st cr detach)
    as [[st' cr'] err] eqn:Hdeploy.
  right.
  rewrite (deployBosh_deployed pkg client config metadata detach h boshClient
             Hbuild st cr l1 l2 Hstate Hcreds st' cr' err Hdeploy).
  unfold calls. cbn [snd]. rewrite !steps_app.
  pose proof (quiet_loadDirectorState pkg (Client.configClient client) h1)
    as Hq1.
  pose proof (quiet_loadDirectorCreds pkg (Client.configClient client)
                (h1 ++ l1)) as Hq2.
  rewrite Hstate in Hq1. rewrite Hcreds in Hq2. cbn [calls snd] in Hq1, Hq2.
  rewrite Hq1, Hq2. reflexivity.
Qed.

Lemma deployBoshAndPipeline_steps pkg client config metadata flyClient h :
  steps (calls (deployBoshAndPipeline pkg client config metadata flyClient h))
  = steps (calls (deployBosh pkg client config metadata false h)) ++
    (if is_Err (outcome (deployBosh pkg client config metadata false h))
     then [] else [PipelineSet false]) /\
  (is_Err (outcome (deployBosh pkg client config metadata false h)) = true ->
   is_Err
     (outcome (deployBoshAndPipeline pkg client config metadata flyClient h))
   = true).
Proof.
  unfold deployBoshAndPipeline. rewrite outcome_bind, steps_bind.
  destruct (outcome (deployBosh pkg client config metadata false h))
    as [config' | e]; cbn [is_Err].
  - split; [| discriminate]. rewrite pipeline_then_quiet; [reflexivity |].
    pose proof quiet_writeDeploySuccessMessage. quiet_code.
  - split; reflexivity.
Qed.

Lemma updateBoshAndPipeline_steps pkg client config metadata flyClient h :
  let run := updateBoshAndPipeline pkg client config metadata flyClient h in
  (is_Err (outcome run) = true /\
   (steps (calls run) = [] \/ steps (calls run) = [PipelineSet true])) \/
  exists h',
    steps (calls run)
    = PipelineSet true
      :: steps (calls (deployBosh pkg client config metadata true h')) /\
    (is_Err (outcome (deployBosh pkg client config metadata true h')) = true ->
     is_Err (outcome run) = true).
Proof.
  cbv zeta. unfold updateBoshAndPipeline.
  rewrite outcome_bind, steps_bind.
  change (steps (calls (try EvCanConnect (IFlyClient.CanConnect flyClient) h)))
    with (@nil Step).
  cbn [app].
  destruct (outcome (try EvCanConnect (IFlyClient.CanConnect flyClient) h))
    as [[|] | e]; cbn [negb].
  - rewrite outcome_bind, steps_bind, steps_SetDefaultPipeline.
    destruct (outcome (SetDefaultPipeline client flyClient config true _)).
    + right. rewrite outcome_bind, steps_bind.
      match goal with
      | |- context [outcome (deployBosh pkg client config metadata true ?h')]
        => exists h';
           destruct (outcome (deployBosh pkg client config metadata true h'))
      end.
      * cbv beta.
        match goal with
        | |- context [steps (calls (bind ?m ?f ?h'))] =>
            assert (Hq : quiet (bind m f)) by quiet_code;
            rewrite (Hq h')
        end.
        rewrite app_nil_r. split; [reflexivity | discriminate].
      * rewrite app_nil_r. split; reflexivity.
    + left. split; [reflexivity |]. now right.
  - left. split; [reflexivity |]. now left.
  - left. split; [reflexivity |]. now left.
Qed.

(** A run of [Deploy] either returns an error before it reaches the branch
    on the mode, having made none of the calls in view, or shows the steps of
    the branch and returns an error when the branch does. *)
Lemma Deploy_branch pkg client h :
  (is_Err (outcome (Deploy pkg client h)) = true /\
   steps (calls (Deploy pkg client h)) = []) \/
  exists config metadata flyClient h',
    let branch :=
      if DeployArgs.SelfUpdate (Client.deployArgs client)
      then updateBoshAndPipeline pkg client config metadata flyClient h'
      else deployBoshAndPipeline pkg client config metadata flyClient h' in
    steps (calls (Deploy pkg client h)) = steps (calls branch) /\
    (is_Err (outcome branch) = true ->
     is_Err (outcome (Deploy pkg client h)) = true).
Proof.
  set (P := fun (r : Res unit) (s : list Step) =>
    (is_Err r = true /\ s = []) \/
    exists config metadata flyClient h',
      let branch :=
        if DeployArgs.SelfUpdate (Client.deployArgs client)
        then updateBoshAndPipeline pkg client config metadata flyClient h'
        else deployBoshAndPipeline pkg client config metadata flyClient h' in
      s = steps (calls branch) /\
      (is_Err (outcome branch) = true -> is_Err r = true)).
  change (P (outcome (Deploy pkg client h))
            (steps (calls (Deploy pkg client h)))).
  assert (Herr : forall e, P (Err e) []) by (intros e; left; now split).
  revert h. unfold Deploy.
  apply bind_quiet_shape; [apply quiet_loadConfig | exact Herr |].
  intros config h. cbv zeta.
  apply bind_quiet_shape;
    [apply quiet_checkPreTerraformConfigRequirements | exact Herr |].
  clear h. intros config1 h.
  apply bind_quiet_shape; [apply quiet_applyTerraform | exact Herr |].
  clear h. intros metadata h.
  apply bind_quiet_shape;
    [apply quiet_checkPreDeployConfigRequiments | exact Herr |].
  clear h. intros config2 h.
  apply bind_quiet_shape; [apply quiet_try; reflexivity | exact Herr |].
  clear h. intros flyClient h.
  rewrite outcome_defer, calls_defer, steps_app. cbn [steps step_of].
  rewrite app_nil_r, outcome_bind, steps_bind.
  right. exists config2, metadata, flyClient, h. cbv zeta.
  destruct (DeployArgs.SelfUpdate (Client.deployArgs client)).
  - destruct (outcome (updateBoshAndPipeline pkg client config2 metadata
                         flyClient h)) as [config3 | e].
    + rewrite (quiet_Update client config3), app_nil_r.
      split; [reflexivity | discriminate].
    + rewrite app_nil_r. split; reflexivity.
  - destruct (outcome (deployBoshAndPipeline pkg client config2 metadata
                         flyClient h)) as [config3 | e].
    + rewrite (quiet_Update client config3), app_nil_r.
      split; [reflexivity | discriminate].
    + rewrite app_nil_r. split; reflexivity.
Qed.

(** The mode fixes the order of the steps.  In a run that updates itself the
    pipeline is set first, tolerating a version mismatch, and the BOSH step
    follows, its deploy call detached; in a run that deploys afresh the BOSH
    step comes first, its deploy call not detached, and the pipeline is set
    after it, without tolerance.  No run shows these calls in another order,
    with another flag or more than once.  When the loading of the blobs does
    not fail, the pipeline of a fresh run is set only after the deploy call
    has been made, and a run that updates itself and returns no error has
    made the deploy call after setting the pipeline.  When the loading fails
    the BOSH step of a fresh run can end without its deploy call and the
    pipeline be set all the same. *)
Theorem Deploy_order pkg client h :
  (if DeployArgs.SelfUpdate (Client.deployArgs client)
   then updateOrder (outcome (Deploy pkg client h))
          (steps (calls (Deploy pkg client h)))
   else freshOrder (outcome (Deploy pkg client h))
          (steps (calls (Deploy pkg client h)))) /\
  (loadable pkg (Client.configClient client) ->
   if DeployArgs.SelfUpdate (Client.deployArgs client)
   then updateOrderLoaded (outcome (Deploy pkg client h))
          (steps (calls (Deploy pkg client h)))
   else freshOrderLoaded (outcome (Deploy pkg client h))
          (steps (calls (Deploy pkg client h)))).
Proof.
  destruct (Deploy_branch pkg client h)
    as [[Herr Hnone] | (config & metadata & flyClient & h' & Hbranch)].
  { rewrite Hnone.
    split; [| intros _];
      destruct (DeployArgs.SelfUpdate (Client.deployArgs client));
      left; split; auto. }
  cbv zeta in Hbranch.
  destruct (DeployArgs.SelfUpdate (Client.deployArgs client)).
  - destruct Hbranch as [-> Hfail].
    destruct (updateBoshAndPipeline_steps pkg client config metadata
                flyClient h')
      as [[Hbad Hshort] | (h2 & -> & Hbosh)].
    + specialize (Hfail Hbad).
      split; [| intros _]; left; split; try exact Hfail;
        destruct Hshort as [-> | ->]; auto.
    + split.
      * destruct (deployBosh_steps pkg client config metadata true h2)
          as [-> | ->]; right; auto.
      * intros Hload.
        destruct (deployBosh_steps_loaded pkg client config metadata true h2
                    Hload) as [[Hbad ->] | ->].
        -- left. split; [apply Hfail, Hbosh, Hbad | auto].
        -- now right.
  - destruct Hbranch as [-> Hfail].
    destruct (deployBoshAndPipeline_steps pkg client config metadata
                flyClient h') as [-> Hbosh].
    split.
    + destruct (deployBosh_steps pkg client config metadata false h')
        as [-> | ->];
        destruct (is_Err (outcome (deployBosh pkg client config metadata
                                     false h'))) eqn:Hbad;
        cbn [app];
        try (left; split; [apply Hfail, Hbosh; reflexivity | auto]);
        right; auto.
    + intros Hload.
      destruct (deployBosh_steps_loaded pkg client config metadata false h'
                  Hload) as [[Hbad ->] | ->].
      * rewrite Hbad. cbn [app].
        left. split; [apply Hfail, Hbosh, Hbad | auto].
      * destruct (is_Err (outcome (deployBosh pkg client config metadata
                                     false h'))) eqn:Hbad; cbn [app].
        -- left. split; [apply Hfail, Hbosh; reflexivity | auto].
        -- now right.
Qed.

Lemma lastStored_HasAsset filename h asked :
  Sample.lastStored filename (h ++ [EvHasAsset asked])
  = Sample.lastStored filename h.
Proof. unfold Sample.lastStored. now rewrite fold_left_app. Qed.

(** The store of the sample installation loads the blobs it is asked for. *)
Lemma Sample_loadable :
  loadable (Sample.pkg Sample.NoFault)
    (Sample.configClient Sample.NoFault None).
Proof.
  intros h. split.
  - unfold loadDirectorState. rewrite outcome_bind.
    cbn [try outcome calls fst snd Sample.configClient
         IConfigClient.HasAsset].
    destruct (Sample.lastStored _ h) as [b |] eqn:Hstored; cbn [negb].
    + cbn [try outcome fst Sample.configClient IConfigClient.LoadAsset].
      now rewrite lastStored_HasAsset, Hstored.
    + reflexivity.
  - unfold loadDirectorCreds. rewrite outcome_bind.
    cbn [try outcome calls fst snd Sample.configClient
         IConfigClient.HasAsset].
    destruct (Sample.lastStored _ h) as [b |] eqn:Hstored; cbn [negb].
    + cbn [try outcome fst Sample.configClient IConfigClient.LoadAsset].
      now rewrite lastStored_HasAsset, Hstored.
    + reflexivity.
Qed.

Lemma Deploy_order_witness :
  freshOrderLoaded
    (outcome (Deploy (Sample.pkg Sample.NoFault)
                (Sample.client Sample.NoFault Sample.args None) []))
    (steps (calls (Deploy (Sample.pkg Sample.NoFault)
                     (Sample.client Sample.NoFault Sample.args None) [])))
  /\
  updateOrderLoaded
    (outcome (Deploy (Sample.pkg Sample.NoFault)
                (Sample.client Sample.NoFault Sample.selfUpdateArgs None) []))
    (steps (calls (Deploy (Sample.pkg Sample.NoFault)
                     (Sample.client Sample.NoFault Sample.selfUpdateArgs
                        None) []))).
Proof.
  split.
  - exact (proj2 (Deploy_order (Sample.pkg Sample.NoFault)
                    (Sample.client Sample.NoFault Sample.args None) [])
             Sample_loadable).
  - exact (proj2 (Deploy_order (Sample.pkg Sample.NoFault)
                    (Sample.client Sample.NoFault Sample.selfUpdateArgs None)
                    [])
             Sample_loadable).
Defined.

(** Both orders on the sample installation, in runs that succeed. *)
Example Deploy_order_sample :
  steps (calls (Deploy (Sample.pkg Sample.NoFault)
                  (Sample.client Sample.NoFault Sample.args None) []))
  = [BoshStep; BoshCall false; PipelineSet false] /\
  steps (calls (Deploy (Sample.pkg Sample.NoFault)
                  (Sample.client Sample.NoFault Sample.selfUpdateArgs None)
                  []))
  = [PipelineSet true; BoshStep; BoshCall true].
Proof. split; vm_compute; reflexivity. Qed.

(** C4 fails on an installation whose store cannot tell whether a blob
    exists.  The run deploys afresh; the loading of the state of the director
    returns an error, on which [deployBosh] returns at once, with no error
    and before its deploy call; [deployBoshAndPipeline] therefore goes on,
    the pipeline is set, and [Deploy] returns no error.  The pipeline is set
    although the deploy call, which the claim and the comment in
    [deployBoshAndPipeline] put before it, is nowhere in the run, and no
    blob is stored.  On the same installation without the fault the deploy
    call is made, not detached, before the pipeline is set. *)
Theorem pipeline_set_without_deploy :
  let pkg := Sample.pkg Sample.AssetsUnreadable in
  let client := Sample.client Sample.AssetsUnreadable Sample.args None in
  let run := Deploy pkg client [] in
  DeployArgs.SelfUpdate (Client.deployArgs client) = false /\
  (forall h,
     loadDirectorState pkg (Client.configClient client) h
     = (Err "AccessDenied"%string, [EvHasAsset "director-state.json"])) /\
  outcome run = Ok tt /\
  steps (calls run) = [BoshStep; PipelineSet false] /\
  filter isBoshDeploy (calls run) = [] /\
  filter isStoreAsset (calls run) = [] /\
  steps (calls (Deploy (Sample.pkg Sample.NoFault)
                  (Sample.client Sample.NoFault Sample.args None) []))
  = [BoshStep; BoshCall false; PipelineSet false].
Proof.
  cbv zeta. repeat split; vm_compute; reflexivity.
Qed.

(** ** The probe of a run that updates itself *)





(** ** A second deploy with the same arguments *)

(** What the requirements before the BOSH deploy come to when both bundles
    are kept: no certificate is generated, the three sizes are those of the
    arguments, and the configuration is written to the store. *)
Lemma checkPreDeployConfigRequiments_kept pkg client config metadata h
    remaining :
  DeployArgs.TLSCert (Client.deployArgs client) = EmptyString ->
  Config.DirectorCACert config <> EmptyString ->
  Config.ConcourseCert config <> EmptyString ->
  timeTillExpiry pkg (Config.ConcourseCert config) h = (Ok remaining, []) ->
  renewalMargin < remaining ->
  exists config',
    calls (checkPreDeployConfigRequiments pkg client false config metadata h)
    = [EvUpdate config'] /\
    Config.ConcourseWorkerCount config'
    = DeployArgs.WorkerCount (Client.deployArgs client) /\
    Config.ConcourseWorkerSize config'
    = DeployArgs.WorkerSize (Client.deployArgs client) /\
    Config.ConcourseWebSize config'
    = DeployArgs.WebSize (Client.deployArgs client) /\
    Config.DirectorCACert config' = Config.DirectorCACert config /\
    Config.DirectorCert config' = Config.DirectorCert config /\
    Config.DirectorKey config' = Config.DirectorKey config /\
    Config.ConcourseCACert config' = Config.ConcourseCACert config /\
    Config.ConcourseCert config' = Config.ConcourseCert config /\
    Config.ConcourseKey config' = Config.ConcourseKey config /\
    (IConfigClient.Update (Client.configClient client) h config' = None ->
     outcome (checkPreDeployConfigRequiments pkg client false config
                metadata h)
     = Ok config').
Proof.
  intros Htls Hca Hcert Htime Hlong.
  unfold checkPreDeployConfigRequiments.
  set (config0 :=
         if (DeployArgs.Domain (Client.deployArgs client) =? EmptyString)%string
         then Config.set_Domain (Metadata.ATCPublicIP metadata) config
         else config).
  assert (Hca0 : Config.DirectorCACert config0 = Config.DirectorCACert config)
    by (unfold config0; now destruct (_ =? _)%string).
  assert (Hcert0 : Config.ConcourseCert config0 = Config.ConcourseCert config)
    by (unfold config0; now destruct (_ =? _)%string).
  assert (Hrest : Config.DirectorCert config0 = Config.DirectorCert config /\
                  Config.DirectorKey config0 = Config.DirectorKey config /\
                  Config.ConcourseCACert config0
                  = Config.ConcourseCACert config /\
                  Config.ConcourseKey config0 = Config.ConcourseKey config)
    by (unfold config0; now destruct (_ =? _)%string).
  destruct Hrest as (Hdc & Hdk & Hcca & Hck).
  cbv zeta.
  rewrite (bind_Ok _ _ h config0 [])
    by (apply ensureDirectorCerts_present; now rewrite Hca0).
  rewrite app_nil_r.
  rewrite (bind_Ok _ _ h config0 [])
    by (apply ensureConcourseCerts_skip with (remaining := remaining);
        rewrite ?Hcert0; auto).
  rewrite app_nil_r. unfold outcome, calls. cbn [fst snd app].
  eexists. split.
  - unfold bind, Update, check.
    destruct (IConfigClient.Update _ _ _); reflexivity.
  - cbn. repeat (split; [solve [auto] |]).
    intros Hupd. unfold bind, Update, check. now rewrite Hupd.
Qed.

(** C8 on the sample installation, with no domain in the arguments: the
    first deploy stores the address of the ATC as the domain, so the second
    deploy with the same arguments finds a domain that differs from the empty
    one of its arguments; it raises no region error, leaves the director
    bundle alone and stores the sizes of the arguments, but calls the
    generator for the application although its certificate is good for
    a year. *)
Theorem second_deploy_regenerates :
  let pkg := Sample.pkg Sample.NoFault in
  let client := Sample.client Sample.NoFault Sample.args None in
  let first := Deploy pkg client [] in
  let second := Deploy pkg client (calls first) in
  outcome first = Ok tt /\
  option_map Config.Domain (Sample.lastUpdate (calls first))
  = Some "1.2.3.4"%string /\
  option_map Config.ConcourseCert (Sample.lastUpdate (calls first))
  = Some "GENERATED CERT"%string /\
  timeTillExpiry pkg "GENERATED CERT" (calls first)
  = (Ok (365 * 24 * time.Hour), []) /\
  outcome second = Ok tt /\
  filter isCertGenerator (calls second)
  = [EvCertGenerator "concourse-up-ci" ["1.2.3.4"%string]] /\
  option_map
    (fun c => (Config.ConcourseWorkerCount c, Config.ConcourseWorkerSize c,
               Config.ConcourseWebSize c))
    (Sample.lastUpdate (calls first ++ calls second))
  = Some (2, "large", "medium")%string.
Proof.
  cbv zeta. repeat split; vm_compute; reflexivity.
Qed.

(** The same two deploys with a domain in the arguments: the second one
    calls no generator. *)
Example second_deploy_with_domain :
  let pkg := Sample.pkg Sample.NoFault in
  let client := Sample.client Sample.NoFault Sample.domainArgs None in
  let first := Deploy pkg client [] in
  let second := Deploy pkg client (calls first) in
  outcome first = Ok tt /\
  outcome second = Ok tt /\
  filter isCertGenerator (calls first)
  = [EvCertGenerator "concourse-up-ci" ["5.6.7.8"; "10.0.0.6"]%string;
     EvCertGenerator "concourse-up-ci" ["ci.example.com"%string]] /\
  filter isCertGenerator (calls second) = [].
Proof.
  cbv zeta. repeat split; vm_compute; reflexivity.
Qed.

(** ** Hosted zone, operator address and the requirements before terraform *)

Lemma substring_prefix (p s : string) :
  substring 0 (String.length p) (p ++ s) = p.
Proof. induction p as [| c p IH]; cbn; [now destruct s | now rewrite IH]. Qed.

Lemma substring_whole (s : string) : substring 0 (String.length s) s = s.
Proof. induction s as [| c s IH]; cbn; [reflexivity | now rewrite IH]. Qed.

Lemma substring_suffix (p s : string) :
  substring (String.length p) (String.length s) (p ++ s) = s.
Proof.
  induction p as [| c p IH]; cbn; [apply substring_whole | exact IH].
Qed.

Lemma length_app_string (p s : string) :
  String.length (p ++ s) = (String.length p + String.length s)%nat.
Proof. induction p as [| c p IH]; cbn; [reflexivity | now rewrite IH]. Qed.

Lemma TrimSuffix_app (p suffix : string) : TrimSuffix (p ++ suffix) suffix = p.
Proof.
  unfold TrimSuffix, HasSuffix. rewrite length_app_string.
  replace (String.length p + String.length suffix - String.length suffix)%nat
    with (String.length p) by lia.
  rewrite substring_suffix, substring_prefix, String.eqb_refl.
  destruct (Nat.leb_spec (String.length suffix)
              (String.length p + String.length suffix)); [reflexivity | lia].
Qed.

Lemma check_run ev answer h :
  check ev answer h
  = (match answer h with None => Ok tt | Some e => Err e end, [ev]).
Proof. unfold check. now destruct (answer h). Qed.

(** X1: with a domain in the arguments that is a record prefix, a dot and the
    name of the hosted zone that the lookup returns, [setHostedZone] binds the
    configuration to that zone: the identifier of the zone, the record prefix
    (the domain without the dot and the name of the zone) and the domain.  No
    other configuration is returned or written to the store, and the write to
    the store is the last call of a run that succeeds. *)
Theorem setHostedZone_binds client config h prefix hostedZoneName
    hostedZoneID :
  DeployArgs.Domain (Client.deployArgs client)
  = (prefix ++ "." ++ hostedZoneName)%string ->
  IIaasClient.FindLongestMatchingHostedZone (Client.iaasClient client) h
    (DeployArgs.Domain (Client.deployArgs client))
  = Ok (hostedZoneName, hostedZoneID) ->
  let bound :=
    Config.set_Domain (DeployArgs.Domain (Client.deployArgs client))
      (Config.set_HostedZoneRecordPrefix prefix
         (Config.set_HostedZoneID hostedZoneID config)) in
  Config.HostedZoneRecordPrefix bound = prefix /\
  Config.HostedZoneID bound = hostedZoneID /\
  Forall (updates (fun c => c = bound)) (calls (setHostedZone client config h))
  /\
  (forall c,
     outcome (setHostedZone client config h) = Ok c ->
     c = bound /\
     exists l, calls (setHostedZone client config h) = l ++ [EvUpdate bound]).
Proof.
  intros Hdomain Hzone bound.
  split; [reflexivity |]. split; [reflexivity |].
  assert (Hne : (DeployArgs.Domain (Client.deployArgs client) =? EmptyString)
                %string = false).
  { rewrite Hdomain. apply String.eqb_neq. now destruct prefix. }
  assert (Htrim :
    TrimSuffix (DeployArgs.Domain (Client.deployArgs client))
      ("." ++ hostedZoneName) = prefix).
  { rewrite Hdomain. apply TrimSuffix_app. }
  unfold setHostedZone. rewrite Hne.
  rewrite (bind_Ok _ _ h (hostedZoneName, hostedZoneID)
             [EvFindLongestMatchingHostedZone
                (DeployArgs.Domain (Client.deployArgs client))])
    by (unfold try; now rewrite Hzone).
  cbv beta iota zeta. rewrite Htrim. fold bound.
  unfold bind, Write, Update. rewrite !check_run.
  destruct (Writer.Write _ _ _) as [e |]; cbn.
  - split; [now repeat constructor | discriminate].
  - destruct (IConfigClient.Update _ _ _) as [e |]; cbn.
    + split; [now repeat constructor | discriminate].
    + split; [now repeat constructor |].
      intros c [= <-]. split; [reflexivity |].
      now exists [EvFindLongestMatchingHostedZone
                    (DeployArgs.Domain (Client.deployArgs client));
                  EvWrite Stderr
                    (nl ++ "WARNING: adding record " ++
                     DeployArgs.Domain (Client.deployArgs client) ++
                     " to Route53 hosted zone " ++ hostedZoneName ++
                     " ID: " ++ hostedZoneID ++ nl ++ nl)%string].
Qed.

Lemma setHostedZone_binds_witness :
  exists l,
    calls (setHostedZone (Sample.client Sample.NoFault Sample.domainArgs None)
             (Sample.newConfig Sample.domainArgs) [])
    = l ++
      [EvUpdate
         (Config.set_Domain "ci.example.com"
            (Config.set_HostedZoneRecordPrefix "ci"
               (Config.set_HostedZoneID "Z2ABCDEF"
                  (Sample.newConfig Sample.domainArgs))))].
Proof.
  exact (proj2
           (proj2 (proj2 (proj2
              (setHostedZone_binds
                 (Sample.client Sample.NoFault Sample.domainArgs None)
                 (Sample.newConfig Sample.domainArgs) []
                 "ci"%string "example.com"%string "Z2ABCDEF"%string
                 eq_refl eq_refl)))
              _ eq_refl)).
Defined.

(** *** What every call and the result of a computation satisfy *)

Lemma sat_ret {A : Type} (Q : Event -> Prop) (R : A -> Prop) a :
  R a -> sat Q R (ret a).
Proof. intros Ha h. split; [constructor | now intros ? [= <-]]. Qed.

Lemma sat_fail {A : Type} (Q : Event -> Prop) (R : A -> Prop) e :
  sat Q R (fail e).
Proof. intros h. split; [constructor | discriminate]. Qed.

Lemma sat_ask {A : Type} (Q : Event -> Prop) (answer : History -> A) :
  sat Q (fun _ => True) (ask answer).
Proof. intros h. split; [constructor | trivial]. Qed.

Lemma sat_guard (Q : Event -> Prop) err : sat Q (fun _ => True) (guard err).
Proof. intros h. split; [destruct err; constructor | trivial]. Qed.

Lemma sat_lift {A : Type} (Q : Event -> Prop) (r : Res A) :
  sat Q (fun _ => True) (lift r).
Proof. intros h. split; [destruct r; constructor | trivial]. Qed.

Lemma sat_call {A : Type} (Q : Event -> Prop) ev (answer : History -> A) :
  Q ev -> sat Q (fun _ => True) (call ev answer).
Proof. intros Hev h. split; [now repeat constructor | trivial]. Qed.

Lemma sat_try {A : Type} (Q : Event -> Prop) ev (answer : History -> Res A) :
  Q ev -> sat Q (fun _ => True) (try ev answer).
Proof. intros Hev h. split; [now repeat constructor | trivial]. Qed.

Lemma sat_check (Q : Event -> Prop) ev answer :
  Q ev -> sat Q (fun _ => True) (check ev answer).
Proof.
  intros Hev h. rewrite check_run. split; [now repeat constructor | trivial].
Qed.

Lemma sat_bind {A B : Type} (Q : Event -> Prop) (R1 : A -> Prop)
    (R2 : B -> Prop) (m : M A) (f : A -> M B) :
  sat Q R1 m -> (forall a, R1 a -> sat Q R2 (f a)) -> sat Q R2 (bind m f).
Proof.
  intros Hm Hf h. rewrite calls_bind, outcome_bind.
  destruct (Hm h) as [Hcalls Hres].
  destruct (outcome (m h)) as [a | e].
  - destruct (Hf a (Hres a eq_refl) (h ++ calls (m h))) as [Hcalls' Hres'].
    split; [now apply Forall_app | exact Hres'].
  - split; [now rewrite app_nil_r | discriminate].
Qed.

Lemma sat_defer {A : Type} (Q : Event -> Prop) (R : A -> Prop) ev
    (body : M A) :
  Q ev -> sat Q R body -> sat Q R (defer ev body).
Proof.
  intros Hev Hbody h. rewrite calls_defer, outcome_defer.
  destruct (Hbody h) as [Hcalls Hres].
  split; [apply Forall_app; split; [exact Hcalls | now repeat constructor]
         | exact Hres].
Qed.

Lemma sat_attempt {A : Type} (Q : Event -> Prop) (R : A -> Prop) (m : M A) :
  sat Q R m ->
  sat Q (fun r => match r with Ok a => R a | Err _ => True end) (attempt m).
Proof.
  intros Hm h. destruct (Hm h) as [Hcalls Hres].
  unfold attempt, calls, outcome in *. destruct (m h) as [[a | e] l]; cbn in *.
  - split; [exact Hcalls |]. intros r [= <-]. now apply Hres.
  - split; [exact Hcalls |]. now intros r [= <-].
Qed.

Lemma sat_weaken {A : Type} (Q : Event -> Prop) (R R' : A -> Prop)
    (m : M A) :
  sat Q R m -> (forall a, R a -> R' a) -> sat Q R' m.
Proof.
  intros Hm Himp h. destruct (Hm h) as [Hcalls Hres].
  split; [exact Hcalls | intros a Ha; apply Himp, Hres, Ha].
Qed.

(** The shape of the code gives the calls; what is left is that each call
    and the result are as said. *)
Ltac sat_leaf := cbn; auto; try tauto; try (intuition congruence).

Ltac sat_step :=
  first
    [ apply sat_ret; sat_leaf
    | apply sat_fail
    | apply sat_defer; [sat_leaf |]
    | eapply sat_bind;
      [ first
          [ apply sat_check; sat_leaf
          | apply sat_try; sat_leaf
          | apply sat_call; sat_leaf
          | apply sat_ask
          | apply sat_guard
          | apply sat_lift
          | eassumption ]
      | intros ? ? ]
    | match goal with
      | |- sat _ _ (if ?b then _ else _) => destruct b eqn:?
      | |- sat _ _ (match ?x with _ => _ end) => destruct x eqn:?
      end ].

Ltac sat_code := cbv zeta; repeat sat_step.

Section Frames.

Variable pkg : Packages.t.
Variable client : Client.t.
Variable P : Config.t -> Prop.

Lemma setUserIP_sat config :
  P config ->
  (forall v c, P c -> P (Config.set_SourceAccessIP v c)) ->
  sat (updates P) P (setUserIP pkg client config).
Proof. intros Hc Hip. unfold setUserIP, Write, Update. sat_code. Qed.

Lemma setHostedZone_sat config :
  P config ->
  (forall v c, P c -> P (Config.set_HostedZoneID v c)) ->
  (forall v c, P c -> P (Config.set_HostedZoneRecordPrefix v c)) ->
  (forall c, P c ->
             P (Config.set_Domain (DeployArgs.Domain (Client.deployArgs client))
                  c)) ->
  sat (updates P) P (setHostedZone client config).
Proof.
  intros Hc Hid Hprefix Hdomain. unfold setHostedZone, Write, Update.
  sat_code.
Qed.

Lemma checkPreTerraformConfigRequirements_sat conf :
  P (let conf1 :=
       Config.set_Region (DeployArgs.AWSRegion (Client.deployArgs client))
         conf in
     if DeployArgs.DBSizeIsSet (Client.deployArgs client)
     then Config.set_RDSInstanceClass
            (Packages.DBSizes pkg (DeployArgs.DBSize (Client.deployArgs client)))
            conf1
     else conf1) ->
  (DeployArgs.SelfUpdate (Client.deployArgs client) = false ->
   forall v c, P c -> P (Config.set_SourceAccessIP v c)) ->
  (forall v c, P c -> P (Config.set_HostedZoneID v c)) ->
  (forall v c, P c -> P (Config.set_HostedZoneRecordPrefix v c)) ->
  (forall c, P c ->
             P (Config.set_Domain (DeployArgs.Domain (Client.deployArgs client))
                  c)) ->
  sat (updates P) P (checkPreTerraformConfigRequirements pkg client conf).
Proof.
  intros Hconf Hip Hid Hprefix Hdomain.
  unfold checkPreTerraformConfigRequirements. cbv zeta in *.
  apply (sat_bind _ (fun _ => True)).
  { destruct (negb _); [destruct (negb _) |];
      first [apply sat_fail | now apply sat_ret]. }
  intros _ _.
  apply (sat_bind _ P).
  { destruct (DeployArgs.SelfUpdate (Client.deployArgs client)) eqn:Hmode;
      cbn [negb].
    - now apply sat_ret.
    - apply setUserIP_sat; [exact Hconf | now apply Hip]. }
  intros conf' Hconf'.
  apply (sat_bind _ P).
  { now apply setHostedZone_sat. }
  intros conf'' Hconf''. now apply sat_ret.
Qed.

Lemma ensureDirectorCerts_sat config metadata :
  P config ->
  (forall v c, P c -> P (Config.set_DirectorCACert v c)) ->
  (forall v c, P c -> P (Config.set_DirectorCert v c)) ->
  (forall v c, P c -> P (Config.set_DirectorKey v c)) ->
  sat (updates P) P (ensureDirectorCerts client config metadata).
Proof.
  intros Hc Hca Hcert Hkey.
  unfold ensureDirectorCerts, Write, certGenerator. sat_code.
Qed.

Lemma ensureConcourseCerts_sat domainUpdated config metadata :
  P config ->
  (forall v c, P c -> P (Config.set_ConcourseCACert v c)) ->
  (forall v c, P c -> P (Config.set_ConcourseCert v c)) ->
  (forall v c, P c -> P (Config.set_ConcourseKey v c)) ->
  (forall c, P c -> P (Config.set_ConcourseUserProvidedCert true c)) ->
  sat (updates P) P
    (ensureConcourseCerts pkg client domainUpdated config metadata).
Proof.
  intros Hc Hca Hcert Hkey Huser.
  unfold ensureConcourseCerts, certGenerator.
  destruct (negb _); [now apply sat_ret; auto |].
  apply (sat_bind _ (fun _ => True)).
  { destruct (_ && _); [| now apply sat_ret].
    unfold timeTillExpiry.
    destruct (Packages.Decode _ _); [| now apply sat_ret].
    destruct (Packages.ParseCertificate _ _); [| now apply sat_ret].
    sat_code. }
  intros skip _. destruct skip; sat_code.
Qed.

End Frames.

(** X2: [setUserIP] writes nothing when the address it finds is the stored
    one: it makes the lookup and returns the configuration as it is, with no
    warning and no write to the store.  When the address differs, the only
    configuration it writes to the store or returns is the given one with the
    new address, and a run that succeeds ends with that write. *)
Theorem setUserIP_writes_on_change pkg client config h userIP :
  Packages.FindUserIP pkg h = Ok userIP ->
  (Config.SourceAccessIP config = userIP ->
   setUserIP pkg client config h = (Ok config, [EvFindUserIP])) /\
  (Config.SourceAccessIP config <> userIP ->
   let changed := Config.set_SourceAccessIP userIP config in
   Forall (updates (fun c => c = changed))
     (calls (setUserIP pkg client config h)) /\
   (forall c,
      outcome (setUserIP pkg client config h) = Ok c ->
      c = changed /\
      exists l, calls (setUserIP pkg client config h)
                = l ++ [EvUpdate changed])).
Proof.
  intros Hfind. unfold setUserIP.
  rewrite (bind_Ok _ _ h userIP [EvFindUserIP])
    by (unfold try; now rewrite Hfind).
  split.
  - intros Hsame. apply String.eqb_eq in Hsame. now rewrite Hsame.
  - intros Hdiff. apply String.eqb_neq in Hdiff. rewrite Hdiff.
    cbn [negb]. set (changed := Config.set_SourceAccessIP userIP config).
    unfold bind, Write, Update. rewrite !check_run.
    destruct (Writer.Write _ _ _) as [e |]; cbn.
    + split; [now repeat constructor | discriminate].
    + destruct (IConfigClient.Update _ _ _) as [e |]; cbn.
      * split; [now repeat constructor | discriminate].
      * split; [now repeat constructor |].
        intros c [= <-]. split; [reflexivity |].
        now exists [EvFindUserIP;
                    EvWrite Stderr
                      (nl ++
                       "WARNING: allowing access from local machine (address: "
                       ++ userIP ++ ")" ++ nl ++ nl)%string].
Qed.

Lemma setUserIP_writes_on_change_witness :
  setUserIP (Sample.pkg Sample.NoFault)
    (Sample.client Sample.NoFault Sample.args None)
    (Config.set_SourceAccessIP "9.9.9.9" (Sample.newConfig Sample.args)) []
  = (Ok (Config.set_SourceAccessIP "9.9.9.9" (Sample.newConfig Sample.args)),
     [EvFindUserIP]) /\
  exists l,
    calls (setUserIP (Sample.pkg Sample.NoFault)
             (Sample.client Sample.NoFault Sample.args None)
             (Sample.newConfig Sample.args) [])
    = l ++
      [EvUpdate
         (Config.set_SourceAccessIP "9.9.9.9" (Sample.newConfig Sample.args))].
Proof.
  split.
  - exact (proj1 (setUserIP_writes_on_change (Sample.pkg Sample.NoFault)
                    (Sample.client Sample.NoFault Sample.args None)
                    (Config.set_SourceAccessIP "9.9.9.9"
                       (Sample.newConfig Sample.args))
                    [] "9.9.9.9"%string eq_refl) eq_refl).
  - refine (proj2 (proj2 (proj2
              (setUserIP_writes_on_change (Sample.pkg Sample.NoFault)
                 (Sample.client Sample.NoFault Sample.args None)
                 (Sample.newConfig Sample.args) [] "9.9.9.9"%string eq_refl)
              _) _ eq_refl)).
    discriminate.
Defined.

(** X3: in a run that updates itself the requirements before terraform leave
    the address of the operator alone: [util.FindUserIP] is not called, and
    every configuration written to the store, and the one returned, has the
    source address of the configuration that was given. *)
Theorem selfUpdate_keeps_SourceAccessIP pkg client conf :
  DeployArgs.SelfUpdate (Client.deployArgs client) = true ->
  sat (fun e =>
         isFindUserIP e = false /\
         updates
           (fun c => Config.SourceAccessIP c = Config.SourceAccessIP conf) e)
    (fun c => Config.SourceAccessIP c = Config.SourceAccessIP conf)
    (checkPreTerraformConfigRequirements pkg client conf).
Proof.
  intros Hmode. unfold checkPreTerraformConfigRequirements. cbv zeta.
  rewrite Hmode. cbn [negb].
  apply (sat_bind _ (fun _ => True)).
  { destruct (negb _); [destruct (negb _) |];
      first [apply sat_fail | now apply sat_ret]. }
  intros _ _.
  apply (sat_bind _
           (fun c => Config.SourceAccessIP c = Config.SourceAccessIP conf)).
  { apply sat_ret. now destruct (DeployArgs.DBSizeIsSet _). }
  intros conf' Hconf'.
  apply (sat_bind _
           (fun c => Config.SourceAccessIP c = Config.SourceAccessIP conf));
    [| intros c Hc; now apply sat_ret].
  unfold setHostedZone, Write, Update. sat_code.
Qed.

Lemma selfUpdate_keeps_SourceAccessIP_witness :
  sat (fun e =>
         isFindUserIP e = false /\
         updates (fun c => Config.SourceAccessIP c = "8.8.8.8"%string) e)
    (fun c => Config.SourceAccessIP c = "8.8.8.8"%string)
    (checkPreTerraformConfigRequirements (Sample.pkg Sample.NoFault)
       (Sample.client Sample.NoFault Sample.selfUpdateArgs None)
       (Config.set_SourceAccessIP "8.8.8.8" (Sample.newConfig Sample.args))).
Proof.
  exact (selfUpdate_keeps_SourceAccessIP (Sample.pkg Sample.NoFault)
           (Sample.client Sample.NoFault Sample.selfUpdateArgs None)
           (Config.set_SourceAccessIP "8.8.8.8" (Sample.newConfig Sample.args))
           eq_refl).
Defined.

(** X4: whatever the requirements before terraform write to the store or
    return carries the region of the arguments, and as class of the database
    the entry of [config.DBSizes] for the size of the arguments when a size
    was set, else the class the configuration had. *)
Theorem checkPreTerraform_region_and_database pkg client conf :
  let expected c :=
    Config.Region c = DeployArgs.AWSRegion (Client.deployArgs client) /\
    Config.RDSInstanceClass c
    = if DeployArgs.DBSizeIsSet (Client.deployArgs client)
      then Packages.DBSizes pkg (DeployArgs.DBSize (Client.deployArgs client))
      else Config.RDSInstanceClass conf in
  sat (updates expected) expected
    (checkPreTerraformConfigRequirements pkg client conf).
Proof.
  cbv zeta. apply checkPreTerraformConfigRequirements_sat.
  - cbv zeta. now destruct (DeployArgs.DBSizeIsSet _).
  - intros _ v c Hc. exact Hc.
  - intros v c Hc. exact Hc.
  - intros v c Hc. exact Hc.
  - intros c Hc. exact Hc.
Qed.

(** X5: the requirements before terraform do not touch a certificate: the two
    bundles and the mark of a certificate of the user are, in every
    configuration written to the store and in the one returned, those of the
    configuration that was given. *)
Theorem checkPreTerraform_keeps_certificates pkg client conf :
  sat (updates (sameCertificates conf)) (sameCertificates conf)
    (checkPreTerraformConfigRequirements pkg client conf).
Proof.
  apply checkPreTerraformConfigRequirements_sat.
  - cbv zeta. destruct (DeployArgs.DBSizeIsSet _); now repeat split.
  - intros _ v c Hc. exact Hc.
  - intros v c Hc. exact Hc.
  - intros v c Hc. exact Hc.
  - intros c Hc. exact Hc.
Qed.

(** ** Terraform *)

Lemma applyTerraform_unbuilt pkg client config h e :
  Client.terraformClientFactory client (h ++ [EvIAAS])
    (IIaasClient.IAAS (Client.iaasClient client) h) config = Err e ->
  applyTerraform pkg client config h
  = (Err e,
     [EvIAAS;
      EvTerraformClientFactory
        (IIaasClient.IAAS (Client.iaasClient client) h) config]).
Proof.
  intros Hfactory. unfold applyTerraform.
  rewrite (bind_Ok _ _ h (IIaasClient.IAAS (Client.iaasClient client) h)
             [EvIAAS]) by reflexivity.
  rewrite (bind_Err _ _ (h ++ [EvIAAS]) e
             [EvTerraformClientFactory
                (IIaasClient.IAAS (Client.iaasClient client) h) config])
    by (unfold try; now rewrite Hfactory).
  reflexivity.
Qed.

Lemma applyTerraform_built pkg client config h terraformClient :
  Client.terraformClientFactory client (h ++ [EvIAAS])
    (IIaasClient.IAAS (Client.iaasClient client) h) config
  = Ok terraformClient ->
  let iaas := IIaasClient.IAAS (Client.iaasClient client) h in
  let h2 := (h ++ [EvIAAS]) ++ [EvTerraformClientFactory iaas config] in
  applyTerraform pkg client config h
  = match ITerraformClient.Apply terraformClient h2 false with
    | Some e =>
        (Err e,
         [EvIAAS; EvTerraformClientFactory iaas config;
          EvTerraformApply false; EvTerraformCleanup])
    | None =>
        (match ITerraformClient.Output terraformClient
                 (h2 ++ [EvTerraformApply false]) with
         | Ok metadata =>
             match Packages.AssertValid pkg metadata with
             | None => Ok metadata
             | Some e => Err e
             end
         | Err e => Err e
         end,
         [EvIAAS; EvTerraformClientFactory iaas config;
          EvTerraformApply false; EvTerraformOutput; EvTerraformCleanup])
    end.
Proof.
  intros Hfactory iaas h2. unfold applyTerraform.
  rewrite (bind_Ok _ _ h iaas [EvIAAS]) by reflexivity.
  rewrite (bind_Ok _ _ (h ++ [EvIAAS]) terraformClient
             [EvTerraformClientFactory iaas config])
    by (unfold try, iaas; now rewrite Hfactory).
  fold h2. unfold defer, bind. rewrite check_run.
  destruct (ITerraformClient.Apply terraformClient h2 false) as [e |];
    [reflexivity |].
  unfold try.
  destruct (ITerraformClient.Output terraformClient _) as [metadata | e];
    [| reflexivity].
  destruct (Packages.AssertValid pkg metadata); reflexivity.
Qed.

(** X6: [applyTerraform] releases the terraform client it built on every way
    out.  When the factory fails no client exists: the run ends there with
    the error of the factory.  When the factory gives a client, the cleanup
    of the client is the last call of the run, it is made once, and
    terraform is applied with the argument [false] before anything else is
    asked of the client. *)
Theorem applyTerraform_releases pkg client config h :
  let iaas := IIaasClient.IAAS (Client.iaasClient client) h in
  match Client.terraformClientFactory client (h ++ [EvIAAS]) iaas config with
  | Err e =>
      applyTerraform pkg client config h
      = (Err e, [EvIAAS; EvTerraformClientFactory iaas config])
  | Ok _ =>
      exists l,
        calls (applyTerraform pkg client config h)
        = [EvIAAS; EvTerraformClientFactory iaas config;
           EvTerraformApply false] ++ l ++ [EvTerraformCleanup] /\
        Forall (fun e => isTerraformCleanup e = false) l
  end.
Proof.
  cbv zeta.
  destruct (Client.terraformClientFactory client (h ++ [EvIAAS])
              (IIaasClient.IAAS (Client.iaasClient client) h) config)
    as [terraformClient | e] eqn:Hfactory.
  - rewrite (applyTerraform_built pkg client config h terraformClient
               Hfactory).
    cbv zeta. destruct (ITerraformClient.Apply terraformClient _ false).
    + exists []. split; [reflexivity | constructor].
    + exists [EvTerraformOutput]. split; [reflexivity |].
      now repeat constructor.
  - now apply applyTerraform_unbuilt.
Qed.

(** X7: metadata that [applyTerraform] returns has passed [AssertValid], and
    the run that returns it made exactly five calls: the kind of IaaS, the
    factory, the apply with [false], the output and the cleanup. *)
Theorem applyTerraform_validates pkg client config h metadata :
  outcome (applyTerraform pkg client config h) = Ok metadata ->
  Packages.AssertValid pkg metadata = None /\
  calls (applyTerraform pkg client config h)
  = [EvIAAS;
     EvTerraformClientFactory (IIaasClient.IAAS (Client.iaasClient client) h)
       config;
     EvTerraformApply false; EvTerraformOutput; EvTerraformCleanup].
Proof.
  destruct (Client.terraformClientFactory client (h ++ [EvIAAS])
              (IIaasClient.IAAS (Client.iaasClient client) h) config)
    as [terraformClient | e] eqn:Hfactory.
  2: { rewrite (applyTerraform_unbuilt pkg client config h e Hfactory).
       discriminate. }
  rewrite (applyTerraform_built pkg client config h terraformClient Hfactory).
  cbv zeta. destruct (ITerraformClient.Apply terraformClient _ false);
    [discriminate |].
  destruct (ITerraformClient.Output terraformClient _) as [m | e];
    [| discriminate].
  destruct (Packages.AssertValid pkg m) eqn:Hvalid; [discriminate |].
  cbn. intros [= <-]. now split.
Qed.

Lemma applyTerraform_validates_witness :
  Packages.AssertValid (Sample.pkg Sample.NoFault) Sample.metadata = None /\
  calls (applyTerraform (Sample.pkg Sample.NoFault)
           (Sample.client Sample.NoFault Sample.args None)
           (Sample.newConfig Sample.args) [])
  = [EvIAAS; EvTerraformClientFactory "AWS" (Sample.newConfig Sample.args);
     EvTerraformApply false; EvTerraformOutput; EvTerraformCleanup].
Proof.
  exact (applyTerraform_validates (Sample.pkg Sample.NoFault)
           (Sample.client Sample.NoFault Sample.args None)
           (Sample.newConfig Sample.args) [] Sample.metadata eq_refl).
Defined.

(** ** Certificates and the requirements before the BOSH deploy *)

Lemma bind_Ok_inv {A B : Type} (m : M A) (f : A -> M B) h b :
  outcome (bind m f h) = Ok b ->
  exists a,
    outcome (m h) = Ok a /\
    outcome (f a (h ++ calls (m h))) = Ok b /\
    calls (bind m f h) = calls (m h) ++ calls (f a (h ++ calls (m h))).
Proof.
  rewrite outcome_bind, calls_bind.
  destruct (outcome (m h)) as [a | e]; [| discriminate].
  intros Hf. now exists a.
Qed.

(** X8: a certificate in the arguments always wins: whatever is stored,
    whether the domain changed or not, [ensureConcourseCerts] makes no call
    and returns the configuration with the certificate and the key of the
    arguments, marked as given by the user; the CA certificate of the
    application and the bundle of the director stay as they were. *)
Theorem ensureConcourseCerts_adopts pkg client domainUpdated config metadata
    h :
  DeployArgs.TLSCert (Client.deployArgs client) <> EmptyString ->
  exists config',
    ensureConcourseCerts pkg client domainUpdated config metadata h
    = (Ok config', []) /\
    Config.ConcourseCert config'
    = DeployArgs.TLSCert (Client.deployArgs client) /\
    Config.ConcourseKey config' = DeployArgs.TLSKey (Client.deployArgs client)
    /\
    Config.ConcourseUserProvidedCert config' = true /\
    Config.ConcourseCACert config' = Config.ConcourseCACert config /\
    Config.DirectorCACert config' = Config.DirectorCACert config /\
    Config.DirectorCert config' = Config.DirectorCert config /\
    Config.DirectorKey config' = Config.DirectorKey config.
Proof.
  intros Htls. apply String.eqb_neq in Htls.
  unfold ensureConcourseCerts. rewrite Htls. cbn [negb].
  eexists. split; [reflexivity |]. now repeat split.
Qed.

Lemma ensureConcourseCerts_adopts_witness :
  exists config',
    ensureConcourseCerts (Sample.pkg Sample.NoFault)
      (Sample.client Sample.NoFault tlsArgs None) true
      (Sample.deployed "eu-west-1" "1.2.3.4" "EXPIRING CERT" false)
      Sample.metadata []
    = (Ok config', []) /\
    Config.ConcourseCert config' = "USER CERT"%string /\
    Config.ConcourseKey config' = "USER KEY"%string /\
    Config.ConcourseUserProvidedCert config' = true /\
    Config.ConcourseCACert config' = EmptyString /\
    Config.DirectorCACert config' = "DIRECTOR CA"%string /\
    Config.DirectorCert config' = "DIRECTOR CERT"%string /\
    Config.DirectorKey config' = "DIRECTOR KEY"%string.
Proof.
  refine (ensureConcourseCerts_adopts (Sample.pkg Sample.NoFault)
            (Sample.client Sample.NoFault tlsArgs None) true
            (Sample.deployed "eu-west-1" "1.2.3.4" "EXPIRING CERT" false)
            Sample.metadata [] _).
  discriminate.
Defined.

(** X9: with no CA certificate of the director stored, [ensureDirectorCerts]
    announces the generation on the standard output and then calls the
    generator once, for the deployment, with the public address of the
    director and the address 10.0.0.6; the three parts of the director bundle
    are then those the generator issued and nothing else changes.  When the
    announcement cannot be written the generator is not called and the error
    of the write is returned; an error of the generator is returned as it
    is. *)
Theorem ensureDirectorCerts_generates client config metadata h :
  Config.DirectorCACert config = EmptyString ->
  let subjects := [Metadata.DirectorPublicIP metadata; "10.0.0.6"%string] in
  let generation := EvCertGenerator (Config.Deployment config) subjects in
  let message :=
    (nl ++ "GENERATING BOSH DIRECTOR CERTIFICATE (" ++
     Metadata.DirectorPublicIP metadata ++ ", 10.0.0.6)" ++ nl)%string in
  let announcement := EvWrite Stdout message in
  (forall e,
     Writer.Write (Client.stdout client) h message = Some e ->
     ensureDirectorCerts client config metadata h = (Err e, [announcement]))
  /\
  (Writer.Write (Client.stdout client) h message = None ->
   (forall e,
      Client.certGenerator client (h ++ [announcement])
        (Config.Deployment config) subjects
      = Err e ->
      ensureDirectorCerts client config metadata h
      = (Err e, [announcement; generation])) /\
   (forall issued,
      Client.certGenerator client (h ++ [announcement])
        (Config.Deployment config) subjects
      = Ok issued ->
      ensureDirectorCerts client config metadata h
      = (Ok (Config.set_DirectorKey (Certs.Key issued)
               (Config.set_DirectorCert (Certs.Cert issued)
                  (Config.set_DirectorCACert (Certs.CACert issued) config))),
         [announcement; generation]))).
Proof.
  intros Hempty subjects generation message announcement.
  unfold ensureDirectorCerts.
  rewrite Hempty. cbn [String.eqb negb]. cbv zeta.
  unfold bind, Write, certGenerator, try. rewrite check_run.
  fold message. fold announcement. fold subjects.
  split.
  - intros e Hwrite. now rewrite Hwrite.
  - intros Hwrite. rewrite Hwrite. cbn [fst snd app].
    split.
    + intros e Hgen. now rewrite Hgen.
    + intros issued Hgen. now rewrite Hgen.
Qed.

(** The sample installation issues the director bundle on a first run. *)
Lemma ensureDirectorCerts_generates_witness :
  ensureDirectorCerts (Sample.client Sample.NoFault Sample.args None)
    (Sample.newConfig Sample.args) Sample.metadata []
  = (Ok (Config.set_DirectorKey "GENERATED KEY"
           (Config.set_DirectorCert "GENERATED CERT"
              (Config.set_DirectorCACert "GENERATED CA"
                 (Sample.newConfig Sample.args)))),
     [EvWrite Stdout
        (nl ++ "GENERATING BOSH DIRECTOR CERTIFICATE (5.6.7.8, 10.0.0.6)" ++
         nl);
      EvCertGenerator "concourse-up-ci" ["5.6.7.8"; "10.0.0.6"]%string]).
Proof.
  refine (proj2 (proj2 (ensureDirectorCerts_generates
                          (Sample.client Sample.NoFault Sample.args None)
                          (Sample.newConfig Sample.args) Sample.metadata []
                          eq_refl)
                   eq_refl)
            {| Certs.CACert := "GENERATED CA";
               Certs.Cert := "GENERATED CERT";
               Certs.Key := "GENERATED KEY" |} eq_refl).
Defined.

Lemma ensureDirectorCerts_no_update client config metadata :
  sat (fun e => isUpdate e = false) (fun _ => True)
    (ensureDirectorCerts client config metadata).
Proof. unfold ensureDirectorCerts, Write, certGenerator. sat_code. Qed.

Lemma ensureConcourseCerts_no_update pkg client domainUpdated config
    metadata :
  sat (fun e => isUpdate e = false) (fun _ => True)
    (ensureConcourseCerts pkg client domainUpdated config metadata).
Proof.
  unfold ensureConcourseCerts, certGenerator.
  destruct (negb _); [now apply sat_ret |].
  apply (sat_bind _ (fun _ => True)).
  { destruct (_ && _); [| now apply sat_ret].
    unfold timeTillExpiry.
    destruct (Packages.Decode _ _); [| now apply sat_ret].
    destruct (Packages.ParseCertificate _ _); [| now apply sat_ret].
    sat_code. }
  intros skip _. destruct skip; sat_code.
Qed.

Lemma Update_then_ret client config h c :
  outcome (bind (Update client config) (fun _ => ret config) h) = Ok c ->
  c = config /\
  calls (bind (Update client config) (fun _ => ret config) h)
  = [EvUpdate config].
Proof.
  unfold bind, Update. rewrite check_run.
  destruct (IConfigClient.Update _ _ _); cbn; [discriminate |].
  now intros [= <-].
Qed.

(** What [checkPreDeployConfigRequiments] returns, in terms of what it was
    given. *)
Lemma checkPreDeployConfigRequiments_returns pkg client isDomainUpdated
    config metadata h c :
  outcome (checkPreDeployConfigRequiments pkg client isDomainUpdated config
             metadata h) = Ok c ->
  Config.ConcourseWorkerCount c
  = DeployArgs.WorkerCount (Client.deployArgs client) /\
  Config.ConcourseWorkerSize c
  = DeployArgs.WorkerSize (Client.deployArgs client) /\
  Config.ConcourseWebSize c = DeployArgs.WebSize (Client.deployArgs client) /\
  Config.DirectorPublicIP c = Metadata.DirectorPublicIP metadata /\
  Config.Domain c
  = (if (DeployArgs.Domain (Client.deployArgs client) =? EmptyString)%string
     then Metadata.ATCPublicIP metadata
     else Config.Domain config) /\
  Config.Region c = Config.Region config /\
  exists l,
    calls (checkPreDeployConfigRequiments pkg client isDomainUpdated config
             metadata h) = l ++ [EvUpdate c] /\
    Forall (fun e => isUpdate e = false) l.
Proof.
  unfold checkPreDeployConfigRequiments. cbv zeta.
  set (config0 :=
         if (DeployArgs.Domain (Client.deployArgs client) =? EmptyString)%string
         then Config.set_Domain (Metadata.ATCPublicIP metadata) config
         else config).
  set (kept := fun c : Config.t =>
                 Config.Domain c = Config.Domain config0 /\
                 Config.Region c = Config.Region config0).
  intros Hok.
  apply bind_Ok_inv in Hok as (c1 & H1 & Hok & ->).
  apply bind_Ok_inv in Hok as (c2 & H2 & Hok & ->).
  apply Update_then_ret in Hok as [-> ->].
  assert (Hc1 : kept c1).
  { refine (proj2 (ensureDirectorCerts_sat client kept config0 metadata
                     _ _ _ _ h) c1 H1); unfold kept; auto. }
  assert (Hc2 : kept c2).
  { refine (proj2 (ensureConcourseCerts_sat pkg client kept isDomainUpdated
                     c1 metadata Hc1 _ _ _ _ _) c2 H2); unfold kept; auto. }
  destruct Hc2 as [Hdomain Hregion].
  cbn [Config.ConcourseWorkerCount Config.set_DirectorPublicIP
       Config.set_ConcourseWebSize Config.set_ConcourseWorkerSize
       Config.set_ConcourseWorkerCount Config.ConcourseWorkerSize
       Config.ConcourseWebSize Config.DirectorPublicIP Config.Domain
       Config.Region].
  repeat (split; [reflexivity |]).
  split; [| split].
  - rewrite Hdomain. unfold config0. now destruct (_ =? _)%string.
  - rewrite Hregion. unfold config0. now destruct (_ =? _)%string.
  - eexists. rewrite app_assoc. split; [reflexivity |].
    apply Forall_app. split.
    + apply (ensureDirectorCerts_no_update client config0 metadata h).
    + apply (ensureConcourseCerts_no_update pkg client isDomainUpdated c1
               metadata).
Qed.

(** X10: a configuration that [checkPreDeployConfigRequiments] returns has
    the three sizes of the arguments and the public address of the director
    from the metadata; its domain is the public address of the ATC when the
    arguments name no domain, else the domain it had; its region is
    unchanged.  It is the configuration that the last call of the run wrote
    to the store, the only write of the run. *)
Theorem checkPreDeploy_checkpoint pkg client isDomainUpdated config metadata
    h c :
  outcome (checkPreDeployConfigRequiments pkg client isDomainUpdated config
             metadata h) = Ok c ->
  Config.ConcourseWorkerCount c
  = DeployArgs.WorkerCount (Client.deployArgs client) /\
  Config.ConcourseWorkerSize c
  = DeployArgs.WorkerSize (Client.deployArgs client) /\
  Config.ConcourseWebSize c = DeployArgs.WebSize (Client.deployArgs client) /\
  Config.DirectorPublicIP c = Metadata.DirectorPublicIP metadata /\
  Config.Domain c
  = (if (DeployArgs.Domain (Client.deployArgs client) =? EmptyString)%string
     then Metadata.ATCPublicIP metadata
     else Config.Domain config) /\
  Config.Region c = Config.Region config /\
  exists l,
    calls (checkPreDeployConfigRequiments pkg client isDomainUpdated config
             metadata h) = l ++ [EvUpdate c] /\
    Forall (fun e => isUpdate e = false) l.
Proof. apply checkPreDeployConfigRequiments_returns. Qed.

(** ** The BOSH deploy *)

Lemma loadDirectorState_reads pkg configClient h :
  Forall (fun e => isAssetRead e = true)
    (calls (loadDirectorState pkg configClient h)).
Proof.
  unfold loadDirectorState. rewrite calls_bind. apply Forall_app. split.
  - cbn. now repeat constructor.
  - destruct (outcome _) as [[|] | e]; cbn; now repeat constructor.
Qed.

Lemma loadDirectorCreds_reads pkg configClient h :
  Forall (fun e => isAssetRead e = true)
    (calls (loadDirectorCreds pkg configClient h)).
Proof.
  unfold loadDirectorCreds. rewrite calls_bind. apply Forall_app. split.
  - cbn. now repeat constructor.
  - destruct (outcome _) as [[|] | e]; cbn; now repeat constructor.
Qed.

Lemma reads_are (Q : Event -> Prop) l :
  (forall e, isAssetRead e = true -> Q e) ->
  Forall (fun e => isAssetRead e = true) l -> Forall Q l.
Proof. intros HQ. apply Forall_impl. exact HQ. Qed.

(** The four ways through [deployBosh], with the calls of each. *)
Lemma deployBosh_cases pkg client config metadata detach h :
  let built := EvBuildBoshClient config metadata in
  let run := deployBosh pkg client config metadata detach h in
  (exists e, run = (Err e, [built])) \/
  (exists l1,
     Forall (fun e => isAssetRead e = true) l1 /\
     run = (Ok config, [built] ++ (l1 ++ [EvBoshCleanup]))) \/
  (exists boshClient st cr l1 l2 st' cr' err,
     Packages.buildBoshClient pkg h config metadata = Ok boshClient /\
     loadDirectorState pkg (Client.configClient client) (h ++ [built])
     = (Ok st, l1) /\
     loadDirectorCreds pkg (Client.configClient client)
       ((h ++ [built]) ++ l1) = (Ok cr, l2) /\
     IBoshClient.Deploy boshClient (((h ++ [built]) ++ l1) ++ l2) st cr detach
     = (st', cr', err) /\
     Forall (fun e => isAssetRead e = true) (l1 ++ l2) /\
     calls run
     = [built] ++
       ((l1 ++ l2 ++
         [EvBoshDeploy st cr detach;
          EvStoreAsset (Packages.StateFilename pkg) st';
          EvStoreAsset (Packages.CredsFilename pkg) cr']) ++
        [EvBoshCleanup]) /\
     forall config',
       outcome run = Ok config' ->
       exists cc,
         Packages.Unmarshal pkg cr' = Ok cc /\
         config'
         = Config.set_CredhubUsername "credhub-cli"
             (Config.set_CredhubURL
                ("https://" ++ Metadata.ATCPublicIP metadata ++ ":8844/")
                (Config.set_CredhubPassword (credhubCreds.Password cc)
                   (Config.set_CredhubCACert (credhubCreds.CACert cc)
                      config)))).
Proof.
  cbv zeta.
  destruct (Packages.buildBoshClient pkg h config metadata)
    as [boshClient | e] eqn:Hbuild.
  2: { left. exists e. now apply deployBosh_unbuilt. }
  right.
  set (h1 := h ++ [EvBuildBoshClient config metadata]).
  pose proof (loadDirectorState_reads pkg (Client.configClient client) h1)
    as Hr1.
  destruct (loadDirectorState pkg (Client.configClient client) h1)
    as [[st | e] l1] eqn:Hstate; cbn [calls snd] in Hr1.
  2: { left. exists l1. split; [exact Hr1 |].
       now apply (deployBosh_state_unreadable pkg client config metadata
                    detach h boshClient Hbuild e l1). }
  pose proof (loadDirectorCreds_reads pkg (Client.configClient client)
                (h1 ++ l1)) as Hr2.
  destruct (loadDirectorCreds pkg (Client.configClient client) (h1 ++ l1))
    as [[cr | e] l2] eqn:Hcreds; cbn [calls snd] in Hr2.
  2: { left. exists (l1 ++ l2). split; [now apply Forall_app |].
       now apply (deployBosh_creds_unreadable pkg client config metadata
                    detach h boshClient Hbuild st l1 e l2). }
  right.
  destruct (IBoshClient.Deploy boshClient ((h1 ++ l1) ++ l2) st cr detach)
    as [[st' cr'] err] eqn:Hdeploy.
  exists boshClient, st, cr, l1, l2, st', cr', err.
  repeat (split; [first [reflexivity | assumption | now apply Forall_app] |]).
  rewrite (deployBosh_deployed pkg client config metadata detach h boshClient
             Hbuild st cr l1 l2 Hstate Hcreds st' cr' err Hdeploy).
  split; [reflexivity |].
  intros config'. unfold outcome. cbn [fst].
  destruct (firstError _ _); [discriminate |].
  destruct (Packages.Unmarshal pkg cr') as [cc | e]; [| discriminate].
  intros [= <-]. now exists cc.
Qed.

Lemma no_deploy_among_reads l st cr detach :
  Forall (fun e => isAssetRead e = true) l ->
  ~ In (EvBoshDeploy st cr detach) l.
Proof.
  intros Hreads Hin. rewrite Forall_forall in Hreads.
  apply Hreads in Hin. discriminate.
Qed.

(** X11: a run of [deployBosh] that made the deploy call and returned no
    error stored a credentials blob that parses, and returns the
    configuration it was given with the four fields of CredHub set: the CA
    certificate and the password read from that blob, the URL made of the
    public address of the ATC and the port 8844, and the user name
    credhub-cli.  No other field is changed. *)
Theorem deployBosh_credhub pkg client config metadata detach h st cr
    config' :
  In (EvBoshDeploy st cr detach)
    (calls (deployBosh pkg client config metadata detach h)) ->
  outcome (deployBosh pkg client config metadata detach h) = Ok config' ->
  exists creds cc,
    In (EvStoreAsset (Packages.CredsFilename pkg) creds)
      (calls (deployBosh pkg client config metadata detach h)) /\
    Packages.Unmarshal pkg creds = Ok cc /\
    config'
    = Config.set_CredhubUsername "credhub-cli"
        (Config.set_CredhubURL
           ("https://" ++ Metadata.ATCPublicIP metadata ++ ":8844/")
           (Config.set_CredhubPassword (credhubCreds.Password cc)
              (Config.set_CredhubCACert (credhubCreds.CACert cc) config))).
Proof.
  intros Hcall Hok.
  destruct (deployBosh_cases pkg client config metadata detach h)
    as [[e Hrun] | [[l1 [Hreads Hrun]] |
        (boshClient & st0 & cr0 & l1 & l2 & st' & cr' & err & _ & _ & _ & _
         & _ & Hcalls & Hres)]].
  - rewrite Hrun in Hok. discriminate.
  - rewrite Hrun in Hcall. cbn [calls snd app] in Hcall.
    destruct Hcall as [Hbad | Hcall]; [discriminate |].
    apply in_app_or in Hcall as [Hcall | [Hbad | []]]; [| discriminate].
    now apply no_deploy_among_reads in Hcall.
  - destruct (Hres config' Hok) as (cc & Hparse & ->).
    exists cr', cc. split; [| now split].
    rewrite Hcalls. cbn [app]. right.
    apply in_or_app. left. apply in_or_app. right.
    apply in_or_app. right. cbn. auto.
Qed.

Lemma deployBosh_credhub_witness :
  exists creds cc,
    In (EvStoreAsset "director-creds.yml" creds)
      (calls (deployBosh (Sample.pkg Sample.NoFault)
                (Sample.client Sample.NoFault Sample.args None)
                (Sample.newConfig Sample.args) Sample.metadata false [])) /\
    Packages.Unmarshal (Sample.pkg Sample.NoFault) creds = Ok cc /\
    Config.set_CredhubUsername "credhub-cli"
      (Config.set_CredhubURL "https://1.2.3.4:8844/"
         (Config.set_CredhubPassword "credhub password"
            (Config.set_CredhubCACert "CREDHUB CA"
               (Sample.newConfig Sample.args))))
    = Config.set_CredhubUsername "credhub-cli"
        (Config.set_CredhubURL
           ("https://" ++ Metadata.ATCPublicIP Sample.metadata ++ ":8844/")
           (Config.set_CredhubPassword (credhubCreds.Password cc)
              (Config.set_CredhubCACert (credhubCreds.CACert cc)
                 (Sample.newConfig Sample.args)))).
Proof.
  refine (deployBosh_credhub (Sample.pkg Sample.NoFault)
            (Sample.client Sample.NoFault Sample.args None)
            (Sample.newConfig Sample.args) Sample.metadata false []
            EmptyString EmptyString _ _ eq_refl).
  cbn. auto.
Defined.

(** X12: [deployBosh] releases the BOSH client it built on every way out.
    When the client cannot be built the run ends there with that error.
    When it is built, the cleanup of the client is the last call of the run
    and is made once. *)
Theorem deployBosh_releases pkg client config metadata detach h :
  match Packages.buildBoshClient pkg h config metadata with
  | Err e =>
      deployBosh pkg client config metadata detach h
      = (Err e, [EvBuildBoshClient config metadata])
  | Ok _ =>
      exists l,
        calls (deployBosh pkg client config metadata detach h)
        = [EvBuildBoshClient config metadata] ++ l ++ [EvBoshCleanup] /\
        Forall (fun e => isBoshCleanup e = false) l
  end.
Proof.
  destruct (Packages.buildBoshClient pkg h config metadata)
    as [boshClient | e] eqn:Hbuild.
  2: { now apply deployBosh_unbuilt. }
  assert (Hheld : exists l,
             calls (deployBosh pkg client config metadata detach h)
             = [EvBuildBoshClient config metadata] ++ l ++ [EvBoshCleanup]).
  { unfold deployBosh. rewrite calls_bind. unfold try at 1 2.
    rewrite Hbuild. unfold outcome at 1. cbn [fst]. rewrite calls_defer.
    unfold calls at 1. cbn [snd]. eexists. reflexivity. }
  destruct (deployBosh_cases pkg client config metadata detach h)
    as [[e Hrun] | [[l1 [Hreads Hrun]] |
        (boshClient' & st0 & cr0 & l1 & l2 & st' & cr' & err & _ & _ & _ & _
         & Hreads & Hcalls & _)]].
  - destruct Hheld as [l Hheld]. rewrite Hrun in Hheld. cbn in Hheld.
    injection Hheld as Hheld. now destruct l.
  - exists l1. rewrite Hrun. split; [reflexivity |].
    apply (reads_are _ l1); [| exact Hreads]. now intros [].
  - eexists. rewrite Hcalls. split; [reflexivity |].
    rewrite app_assoc. apply Forall_app. split.
    + apply (reads_are _ (l1 ++ l2)); [| exact Hreads]. now intros [].
    + now repeat constructor.
Qed.

(** *** The blobs of the director from one run to the next *)

Lemma storedAsset_app filename h l :
  Forall (fun e => isStoreAsset e = false) l ->
  storedAsset filename (h ++ l) = storedAsset filename h.
Proof.
  intros Hl. unfold storedAsset. rewrite fold_left_app.
  generalize (fold_left
                (fun found e =>
                   match e with
                   | EvStoreAsset f b =>
                       if (f =? filename)%string then Some b else found
                   | _ => found
                   end) h None).
  induction Hl as [| e l He Hl IH]; intros found; cbn; [reflexivity |].
  rewrite <- IH. now destruct e.
Qed.

Lemma storedAsset_stored filename h b :
  storedAsset filename (h ++ [EvStoreAsset filename b]) = Some b.
Proof.
  unfold storedAsset. rewrite fold_left_app. cbn.
  now rewrite String.eqb_refl.
Qed.

Lemma storedAsset_other filename other h b :
  other <> filename ->
  storedAsset filename (h ++ [EvStoreAsset other b])
  = storedAsset filename h.
Proof.
  intros Hother. unfold storedAsset. rewrite fold_left_app. cbn.
  apply String.eqb_neq in Hother. now rewrite Hother.
Qed.

Lemma reads_store_nothing l :
  Forall (fun e => isAssetRead e = true) l ->
  Forall (fun e => isStoreAsset e = false) l.
Proof. apply Forall_impl. now intros []. Qed.

Lemma loadDirectorState_kept pkg configClient h :
  keepsAssets configClient ->
  outcome (loadDirectorState pkg configClient h)
  = Ok (blob (Packages.StateFilename pkg) h).
Proof.
  intros Hkeeps. unfold loadDirectorState, blob. rewrite outcome_bind.
  cbn [try outcome calls fst snd].
  rewrite (proj1 (Hkeeps h (Packages.StateFilename pkg))).
  destruct (storedAsset (Packages.StateFilename pkg) h) as [b |] eqn:Hstored;
    cbn [negb]; [| reflexivity].
  cbn [try outcome fst].
  apply (proj2 (Hkeeps _ (Packages.StateFilename pkg))).
  rewrite storedAsset_app by now repeat constructor. exact Hstored.
Qed.

Lemma loadDirectorCreds_kept pkg configClient h :
  keepsAssets configClient ->
  outcome (loadDirectorCreds pkg configClient h)
  = Ok (blob (Packages.CredsFilename pkg) h).
Proof.
  intros Hkeeps. unfold loadDirectorCreds, blob. rewrite outcome_bind.
  cbn [try outcome calls fst snd].
  rewrite (proj1 (Hkeeps h (Packages.CredsFilename pkg))).
  destruct (storedAsset (Packages.CredsFilename pkg) h) as [b |] eqn:Hstored;
    cbn [negb]; [| reflexivity].
  cbn [try outcome fst].
  apply (proj2 (Hkeeps _ (Packages.CredsFilename pkg))).
  rewrite storedAsset_app by now repeat constructor. exact Hstored.
Qed.

(** With a store that keeps its blobs, a run of [deployBosh] whose client is
    built gives the deploy call the blobs stored last, and leaves in the store
    the blobs that the deploy call returned. *)
Lemma deployBosh_resumes pkg client config metadata detach h boshClient :
  keepsAssets (Client.configClient client) ->
  Packages.StateFilename pkg <> Packages.CredsFilename pkg ->
  Packages.buildBoshClient pkg h config metadata = Ok boshClient ->
  let run := deployBosh pkg client config metadata detach h in
  let state := blob (Packages.StateFilename pkg) h in
  let creds := blob (Packages.CredsFilename pkg) h in
  exists hd state' creds' err,
    IBoshClient.Deploy boshClient hd state creds detach = (state', creds', err)
    /\
    In (EvBoshDeploy state creds detach) (calls run) /\
    blob (Packages.StateFilename pkg) (h ++ calls run) = state' /\
    blob (Packages.CredsFilename pkg) (h ++ calls run) = creds'.
Proof.
  intros Hkeeps Hnames Hbuild. cbv zeta.
  set (h1 := h ++ [EvBuildBoshClient config metadata]).
  pose proof (loadDirectorState_kept pkg (Client.configClient client) h1
                Hkeeps) as Hs.
  pose proof (loadDirectorState_reads pkg (Client.configClient client) h1)
    as Hreads1.
  destruct (loadDirectorState pkg (Client.configClient client) h1)
    as [[st | e] l1] eqn:Hstate; [| discriminate].
  cbn [outcome calls fst snd] in Hs, Hreads1. injection Hs as Hs.
  pose proof (loadDirectorCreds_kept pkg (Client.configClient client)
                (h1 ++ l1) Hkeeps) as Hc.
  pose proof (loadDirectorCreds_reads pkg (Client.configClient client)
                (h1 ++ l1)) as Hreads2.
  destruct (loadDirectorCreds pkg (Client.configClient client) (h1 ++ l1))
    as [[cr | e] l2] eqn:Hcreds; [| discriminate].
  cbn [outcome calls fst snd] in Hc, Hreads2. injection Hc as Hc.
  destruct (IBoshClient.Deploy boshClient ((h1 ++ l1) ++ l2) st cr detach)
    as [[st' cr'] err] eqn:Hdeploy.
  pose proof (f_equal calls
                (deployBosh_deployed pkg client config metadata detach h
                   boshClient Hbuild st cr l1 l2 Hstate Hcreds st' cr' err
                   Hdeploy)) as Hcalls.
  cbn [calls snd] in Hcalls.
  assert (Hst : st = blob (Packages.StateFilename pkg) h).
  { rewrite Hs. unfold blob, h1.
    now rewrite storedAsset_app by now repeat constructor. }
  assert (Hcr : cr = blob (Packages.CredsFilename pkg) h).
  { rewrite Hc. unfold blob, h1.
    rewrite storedAsset_app by now apply reads_store_nothing.
    now rewrite storedAsset_app by now repeat constructor. }
  rewrite Hst, Hcr in Hdeploy, Hcalls.
  exists ((h1 ++ l1) ++ l2), st', cr', err.
  split; [exact Hdeploy |]. rewrite Hcalls.
  set (deployed := EvBoshDeploy (blob (Packages.StateFilename pkg) h)
                     (blob (Packages.CredsFilename pkg) h) detach).
  assert (Hshape :
    h ++
    [EvBuildBoshClient config metadata] ++
    (l1 ++ l2 ++
     [deployed; EvStoreAsset (Packages.StateFilename pkg) st';
      EvStoreAsset (Packages.CredsFilename pkg) cr']) ++
    [EvBoshCleanup]
    = ((((h1 ++ l1 ++ l2) ++ [deployed]) ++
        [EvStoreAsset (Packages.StateFilename pkg) st']) ++
       [EvStoreAsset (Packages.CredsFilename pkg) cr']) ++
      [EvBoshCleanup]).
  { unfold h1. cbn [app]. now rewrite <- !app_assoc. }
  split; [| split].
  - cbn [app]. right. apply in_or_app. left.
    apply in_or_app. right. apply in_or_app. right. cbn. auto.
  - unfold blob at 1. rewrite Hshape.
    rewrite storedAsset_app by now repeat constructor.
    rewrite storedAsset_other by congruence.
    now rewrite storedAsset_stored.
  - unfold blob at 1. rewrite Hshape.
    rewrite storedAsset_app by now repeat constructor.
    now rewrite storedAsset_stored.
Qed.

(** X13: the blobs go from one run to the next.  With a store that keeps what
    is stored in it and two distinct names for the blobs, the deploy call of
    a run of [deployBosh] receives the state and the credentials that the
    deploy call of the run before returned, whether that call returned an
    error or not, as long as nothing else was stored in between. *)
Theorem deployBosh_carries_blobs pkg client config metadata detach h
    boshClient config2 metadata2 detach2 l boshClient2 :
  keepsAssets (Client.configClient client) ->
  Packages.StateFilename pkg <> Packages.CredsFilename pkg ->
  Packages.buildBoshClient pkg h config metadata = Ok boshClient ->
  let first := deployBosh pkg client config metadata detach h in
  Forall (fun e => isStoreAsset e = false) l ->
  Packages.buildBoshClient pkg (h ++ calls first ++ l) config2 metadata2
  = Ok boshClient2 ->
  let second :=
    deployBosh pkg client config2 metadata2 detach2 (h ++ calls first ++ l) in
  exists hd state creds state' creds' err,
    In (EvBoshDeploy state creds detach) (calls first) /\
    IBoshClient.Deploy boshClient hd state creds detach = (state', creds', err)
    /\
    In (EvBoshDeploy state' creds' detach2) (calls second).
Proof.
  intros Hkeeps Hnames Hbuild first Hl Hbuild2 second.
  destruct (deployBosh_resumes pkg client config metadata detach h boshClient
              Hkeeps Hnames Hbuild)
    as (hd & state' & creds' & err & Hdeploy & Hin & Hstate & Hcreds).
  destruct (deployBosh_resumes pkg client config2 metadata2 detach2
              (h ++ calls first ++ l) boshClient2 Hkeeps Hnames Hbuild2)
    as (_ & _ & _ & _ & _ & Hin2 & _ & _).
  exists hd, (blob (Packages.StateFilename pkg) h),
    (blob (Packages.CredsFilename pkg) h), state', creds', err.
  split; [exact Hin |]. split; [exact Hdeploy |].
  fold first in Hstate, Hcreds.
  assert (Hstate2 :
    blob (Packages.StateFilename pkg) (h ++ calls first ++ l) = state').
  { rewrite <- Hstate. unfold blob.
    now rewrite app_assoc, storedAsset_app by exact Hl. }
  assert (Hcreds2 :
    blob (Packages.CredsFilename pkg) (h ++ calls first ++ l) = creds').
  { rewrite <- Hcreds. unfold blob.
    now rewrite app_assoc, storedAsset_app by exact Hl. }
  rewrite Hstate2, Hcreds2 in Hin2. exact Hin2.
Qed.

Lemma Sample_keepsAssets :
  keepsAssets (Sample.configClient Sample.NoFault None).
Proof.
  intros h filename. split; [reflexivity |].
  intros b Hstored. cbn [Sample.configClient IConfigClient.LoadAsset].
  change (Sample.lastStored filename h) with (storedAsset filename h).
  now rewrite Hstored.
Qed.

(** On the sample installation the second run deploys with the state and the
    credentials that the first deploy call returned. *)
Lemma deployBosh_carries_blobs_witness :
  let config := Sample.newConfig Sample.args in
  let first :=
    deployBosh (Sample.pkg Sample.NoFault)
      (Sample.client Sample.NoFault Sample.args None) config Sample.metadata
      false [] in
  exists hd state creds state' creds' err,
    In (EvBoshDeploy state creds false) (calls first) /\
    IBoshClient.Deploy (Sample.boshClient Sample.NoFault) hd state creds false
    = (state', creds', err) /\
    In (EvBoshDeploy state' creds' true)
      (calls (deployBosh (Sample.pkg Sample.NoFault)
                (Sample.client Sample.NoFault Sample.args None) config
                Sample.metadata true ([] ++ calls first ++ [EvCanConnect]))).
Proof.
  cbv zeta.
  refine (deployBosh_carries_blobs (Sample.pkg Sample.NoFault)
            (Sample.client Sample.NoFault Sample.args None)
            (Sample.newConfig Sample.args) Sample.metadata false []
            (Sample.boshClient Sample.NoFault)
            (Sample.newConfig Sample.args) Sample.metadata true
            [EvCanConnect] (Sample.boshClient Sample.NoFault)
            Sample_keepsAssets _ eq_refl _ eq_refl).
  - discriminate.
  - now repeat constructor.
Defined.

(** ** The whole of [Deploy] *)

Section LateFrames.

Variable pkg : Packages.t.
Variable client : Client.t.
Variable P : Config.t -> Prop.

Hypothesis Hdomain : forall v c, P c -> P (Config.set_Domain v c).
Hypothesis HdirectorCA : forall v c, P c -> P (Config.set_DirectorCACert v c).
Hypothesis HdirectorCert : forall v c, P c -> P (Config.set_DirectorCert v c).
Hypothesis HdirectorKey : forall v c, P c -> P (Config.set_DirectorKey v c).
Hypothesis HconcourseCA :
  forall v c, P c -> P (Config.set_ConcourseCACert v c).
Hypothesis HconcourseCert :
  forall v c, P c -> P (Config.set_ConcourseCert v c).
Hypothesis HconcourseKey : forall v c, P c -> P (Config.set_ConcourseKey v c).
Hypothesis HuserProvided :
  forall c, P c -> P (Config.set_ConcourseUserProvidedCert true c).
Hypothesis HworkerCount :
  forall v c, P c -> P (Config.set_ConcourseWorkerCount v c).
Hypothesis HworkerSize :
  forall v c, P c -> P (Config.set_ConcourseWorkerSize v c).
Hypothesis HwebSize : forall v c, P c -> P (Config.set_ConcourseWebSize v c).
Hypothesis HdirectorIP :
  forall v c, P c -> P (Config.set_DirectorPublicIP v c).
Hypothesis HcredhubCA : forall v c, P c -> P (Config.set_CredhubCACert v c).
Hypothesis HcredhubPassword :
  forall v c, P c -> P (Config.set_CredhubPassword v c).
Hypothesis HcredhubURL : forall v c, P c -> P (Config.set_CredhubURL v c).
Hypothesis HcredhubUsername :
  forall v c, P c -> P (Config.set_CredhubUsername v c).

Lemma checkPreDeployConfigRequiments_sat isDomainUpdated config metadata :
  P config ->
  sat (updates P) P
    (checkPreDeployConfigRequiments pkg client isDomainUpdated config
       metadata).
Proof.
  intros Hc. unfold checkPreDeployConfigRequiments. cbv zeta.
  apply (sat_bind _ P).
  { apply ensureDirectorCerts_sat; auto. destruct (_ =? _)%string; auto. }
  intros c1 Hc1. apply (sat_bind _ P).
  { apply ensureConcourseCerts_sat; auto. }
  intros c2 Hc2. unfold Update.
  apply (sat_bind _ (fun _ => True)).
  { apply sat_check. cbn. auto 10. }
  intros _ _. apply sat_ret. auto 10.
Qed.

Lemma loads_sat (Q : Event -> Prop) configClient :
  (forall e, isAssetRead e = true -> Q e) ->
  sat Q (fun _ => True) (loadDirectorState pkg configClient) /\
  sat Q (fun _ => True) (loadDirectorCreds pkg configClient).
Proof.
  intros HQ. split; intros h; (split; [| trivial]).
  - apply (reads_are Q); [exact HQ | apply loadDirectorState_reads].
  - apply (reads_are Q); [exact HQ | apply loadDirectorCreds_reads].
Qed.

Lemma deployBosh_sat config metadata detach :
  P config -> sat (updates P) P (deployBosh pkg client config metadata detach).
Proof.
  intros Hc. unfold deployBosh.
  apply (sat_bind _ (fun _ => True)); [now apply sat_try |].
  intros boshClient _. apply sat_defer; [exact I |].
  assert (Hreads : forall e, isAssetRead e = true -> updates P e)
    by now intros [].
  destruct (loads_sat (updates P) (Client.configClient client) Hreads)
    as [Hstate Hcreds].
  eapply sat_bind; [apply sat_attempt, Hstate |].
  intros [boshStateBytes | e] _; [| now apply sat_ret].
  eapply sat_bind; [apply sat_attempt, Hcreds |].
  intros [boshCredsBytes | e] _; [| now apply sat_ret].
  apply (sat_bind _ (fun _ => True)); [now apply sat_call |].
  intros [[st' cr'] err] _. unfold StoreAsset.
  apply (sat_bind _ (fun _ => True)); [now apply sat_call |].
  intros err1 _.
  apply (sat_bind _ (fun _ => True)); [now apply sat_call |].
  intros err2 _.
  apply (sat_bind _ (fun _ => True)); [apply sat_guard |].
  intros _ _.
  apply (sat_bind _ (fun _ => True)); [apply sat_lift |].
  intros cc _. apply sat_ret. auto.
Qed.

Lemma deployBoshAndPipeline_sat config metadata flyClient :
  P config ->
  sat (updates P) P
    (deployBoshAndPipeline pkg client config metadata flyClient).
Proof.
  intros Hc. unfold deployBoshAndPipeline.
  apply (sat_bind _ P); [now apply deployBosh_sat |].
  intros c1 Hc1.
  unfold SetDefaultPipeline, writeDeploySuccessMessage, Write. sat_code.
Qed.

Lemma updateBoshAndPipeline_sat config metadata flyClient :
  P config ->
  sat (updates P) P
    (updateBoshAndPipeline pkg client config metadata flyClient).
Proof.
  intros Hc. unfold updateBoshAndPipeline.
  apply (sat_bind _ (fun _ => True)); [now apply sat_try |].
  intros running _. destruct (negb running); [apply sat_fail |].
  unfold SetDefaultPipeline.
  apply (sat_bind _ (fun _ => True)); [now apply sat_check |].
  intros _ _.
  apply (sat_bind _ P); [now apply deployBosh_sat |].
  intros c1 Hc1. unfold Write. sat_code.
Qed.

Hypothesis Hestablish :
  forall conf,
    P (let conf1 :=
         Config.set_Region (DeployArgs.AWSRegion (Client.deployArgs client))
           conf in
       if DeployArgs.DBSizeIsSet (Client.deployArgs client)
       then Config.set_RDSInstanceClass
              (Packages.DBSizes pkg
                 (DeployArgs.DBSize (Client.deployArgs client))) conf1
       else conf1).
Hypothesis HsourceIP : forall v c, P c -> P (Config.set_SourceAccessIP v c).
Hypothesis HzoneID : forall v c, P c -> P (Config.set_HostedZoneID v c).
Hypothesis HzonePrefix :
  forall v c, P c -> P (Config.set_HostedZoneRecordPrefix v c).

Lemma applyTerraform_no_update config :
  sat (updates P) (fun _ => True) (applyTerraform pkg client config).
Proof.
  unfold applyTerraform.
  apply (sat_bind _ (fun _ => True)); [now apply sat_call |].
  intros iaas _.
  apply (sat_bind _ (fun _ => True)); [now apply sat_try |].
  intros terraformClient _. sat_code.
Qed.

Lemma loadConfig_no_update :
  sat (updates P) (fun _ => True) (loadConfig client).
Proof.
  unfold loadConfig, writeConfigLoadedSuccessMessage, Write.
  apply (sat_bind _ (fun _ => True)); [now apply sat_try |].
  intros [cfg created] _.
  apply (sat_bind _ (fun _ => True)).
  { destruct (negb created); [now apply sat_check | now apply sat_ret]. }
  intros _ _. now apply sat_ret.
Qed.

Lemma Deploy_sat : sat (updates P) (fun _ => True) (Deploy pkg client).
Proof.
  unfold Deploy.
  apply (sat_bind _ (fun _ => True)); [apply loadConfig_no_update |].
  intros config _. cbv zeta.
  apply (sat_bind _ P).
  { apply checkPreTerraformConfigRequirements_sat; auto. }
  intros config1 Hc1.
  apply (sat_bind _ (fun _ => True)); [apply applyTerraform_no_update |].
  intros metadata _.
  apply (sat_bind _ P); [now apply checkPreDeployConfigRequiments_sat |].
  intros config2 Hc2.
  apply (sat_bind _ (fun _ => True)); [now apply sat_try |].
  intros flyClient _. apply sat_defer; [exact I |].
  apply (sat_bind _ P).
  { destruct (DeployArgs.SelfUpdate _);
      [now apply updateBoshAndPipeline_sat
      | now apply deployBoshAndPipeline_sat]. }
  intros config3 Hc3. unfold Update. now apply sat_check.
Qed.

End LateFrames.

(** X14: every configuration that a run of [Deploy] writes to the store, at
    any of its checkpoints and whatever becomes of the run, carries the
    region of the arguments. *)
Theorem Deploy_writes_requested_region pkg client h :
  Forall
    (updates
       (fun c =>
          Config.Region c = DeployArgs.AWSRegion (Client.deployArgs client)))
    (calls (Deploy pkg client h)).
Proof.
  apply (Deploy_sat pkg client
           (fun c =>
              Config.Region c
              = DeployArgs.AWSRegion (Client.deployArgs client)));
    try (intros; assumption).
  intros conf. cbv zeta. now destruct (DeployArgs.DBSizeIsSet _).
Qed.

Lemma setHostedZone_domain client config :
  DeployArgs.Domain (Client.deployArgs client) <> EmptyString ->
  sat (fun _ => True)
    (fun c => Config.Domain c = DeployArgs.Domain (Client.deployArgs client))
    (setHostedZone client config).
Proof.
  intros Hdomain. apply String.eqb_neq in Hdomain.
  unfold setHostedZone, Write, Update. rewrite Hdomain. sat_code.
Qed.

Lemma checkPreTerraform_domain pkg client conf :
  DeployArgs.Domain (Client.deployArgs client) <> EmptyString ->
  sat (fun _ => True)
    (fun c => Config.Domain c = DeployArgs.Domain (Client.deployArgs client))
    (checkPreTerraformConfigRequirements pkg client conf).
Proof.
  intros Hdomain. unfold checkPreTerraformConfigRequirements. cbv zeta.
  apply (sat_bind _ (fun _ => True)).
  { destruct (negb _); [destruct (negb _) |];
      first [apply sat_fail | now apply sat_ret]. }
  intros _ _.
  apply (sat_bind _ (fun _ => True)).
  { destruct (negb _); [| now apply sat_ret].
    unfold setUserIP, Write, Update. sat_code. }
  intros conf' _.
  eapply sat_bind; [now apply setHostedZone_domain |].
  intros c Hc. now apply sat_ret.
Qed.

Lemma applyTerraform_valid pkg client config :
  sat (fun _ => True) (fun metadata => Packages.AssertValid pkg metadata = None)
    (applyTerraform pkg client config).
Proof.
  unfold applyTerraform.
  apply (sat_bind _ (fun _ => True)); [now apply sat_call |].
  intros iaas _.
  apply (sat_bind _ (fun _ => True)); [now apply sat_try |].
  intros terraformClient _. apply sat_defer; [exact I |].
  apply (sat_bind _ (fun _ => True)); [now apply sat_check |].
  intros _ _.
  apply (sat_bind _ (fun _ => True)); [now apply sat_try |].
  intros metadata _.
  destruct (Packages.AssertValid pkg metadata) eqn:Hvalid; cbn [guard].
  - apply (sat_bind _ (fun _ => False)); [apply sat_fail | now intros a []].
  - apply (sat_bind _ (fun _ => True)); [now apply sat_ret |].
    intros _ _. now apply sat_ret.
Qed.

Lemma checkPreTerraform_region pkg client conf :
  sat (fun _ => True)
    (fun c =>
       Config.Region c = DeployArgs.AWSRegion (Client.deployArgs client))
    (checkPreTerraformConfigRequirements pkg client conf).
Proof.
  intros h.
  destruct (checkPreTerraformConfigRequirements_sat pkg client
              (fun c =>
                 Config.Region c
                 = DeployArgs.AWSRegion (Client.deployArgs client)) conf)
    with (h := h) as [_ Hres]; try (intros; assumption).
  - cbv zeta. now destruct (DeployArgs.DBSizeIsSet _).
  - split; [| exact Hres]. apply Forall_forall. trivial.
Qed.

(** X15: a run of [Deploy] that returns no error ends by writing the final
    configuration to the store and releasing the fly client.  That
    configuration has the region, the three sizes and, when one is given, the
    domain of the arguments; with no domain in the arguments its domain is
    the public address of the ATC in the metadata of terraform, which passed
    [AssertValid] and also gives the public address of the director. *)
Theorem Deploy_success pkg client h :
  outcome (Deploy pkg client h) = Ok tt ->
  exists l final metadata,
    calls (Deploy pkg client h) = l ++ [EvUpdate final; EvFlyCleanup] /\
    Packages.AssertValid pkg metadata = None /\
    Config.Region final = DeployArgs.AWSRegion (Client.deployArgs client) /\
    Config.ConcourseWorkerCount final
    = DeployArgs.WorkerCount (Client.deployArgs client) /\
    Config.ConcourseWorkerSize final
    = DeployArgs.WorkerSize (Client.deployArgs client) /\
    Config.ConcourseWebSize final
    = DeployArgs.WebSize (Client.deployArgs client) /\
    Config.DirectorPublicIP final = Metadata.DirectorPublicIP metadata /\
    Config.Domain final
    = (if (DeployArgs.Domain (Client.deployArgs client) =? EmptyString)%string
       then Metadata.ATCPublicIP metadata
       else DeployArgs.Domain (Client.deployArgs client)).
Proof.
  unfold Deploy. intros Hok.
  apply bind_Ok_inv in Hok as (config & Hload & Hok & ->).
  set (h1 := h ++ calls (loadConfig client h)) in *.
  cbv zeta in Hok |- *.
  apply bind_Ok_inv in Hok as (config1 & Hpre & Hok & ->).
  set (h2 := h1 ++ calls _) in *.
  apply bind_Ok_inv in Hok as (metadata & Hterraform & Hok & ->).
  set (h3 := h2 ++ calls _) in *.
  apply bind_Ok_inv in Hok as (config2 & Hdeploy & Hok & ->).
  set (h4 := h3 ++ calls _) in *.
  apply bind_Ok_inv in Hok as (flyClient & Hfly & Hok & ->).
  set (h5 := h4 ++ calls _) in *.
  rewrite outcome_defer in Hok. rewrite calls_defer.
  apply bind_Ok_inv in Hok as (config3 & Hbranch & Hok & ->).
  set (h6 := h5 ++ calls _) in *.
  assert (Hlast : calls (Update client config3 h6) = [EvUpdate config3])
    by (unfold Update; now rewrite check_run).
  rewrite Hlast.
  pose proof (proj2 (checkPreTerraform_region pkg client config h1) config1
                Hpre) as Hregion1.
  pose proof (proj2 (applyTerraform_valid pkg client config1 h2) metadata
                Hterraform) as Hvalid.
  destruct (checkPreDeployConfigRequiments_returns pkg client _ config1
              metadata h3 config2 Hdeploy)
    as (Hcount & Hsize & Hweb & Hdirector & Hdomain & Hregion & _).
  set (kept := fun c : Config.t =>
                 Config.Region c = Config.Region config2 /\
                 Config.ConcourseWorkerCount c
                 = Config.ConcourseWorkerCount config2 /\
                 Config.ConcourseWorkerSize c
                 = Config.ConcourseWorkerSize config2 /\
                 Config.ConcourseWebSize c = Config.ConcourseWebSize config2 /\
                 Config.DirectorPublicIP c = Config.DirectorPublicIP config2 /\
                 Config.Domain c = Config.Domain config2).
  assert (Hkept : kept config3).
  { assert (Hstart : kept config2) by (unfold kept; tauto).
    destruct (DeployArgs.SelfUpdate (Client.deployArgs client)).
    - refine (proj2 (updateBoshAndPipeline_sat pkg client kept _ _ _ _
                       config2 metadata flyClient Hstart h5) config3 Hbranch);
        intros v c Hc; exact Hc.
    - refine (proj2 (deployBoshAndPipeline_sat pkg client kept _ _ _ _
                       config2 metadata flyClient Hstart h5) config3 Hbranch);
        intros v c Hc; exact Hc. }
  destruct Hkept as (Kregion & Kcount & Ksize & Kweb & Kdirector & Kdomain).
  exists (calls (loadConfig client h) ++
          calls (checkPreTerraformConfigRequirements pkg client config h1) ++
          calls (applyTerraform pkg client config1 h2) ++
          calls (checkPreDeployConfigRequiments pkg client
                   (negb (DeployArgs.Domain (Client.deployArgs client) =?
                          Config.Domain config)%string) config1 metadata h3) ++
          calls (try (EvFlyClientFactory (flyCredentials config2))
                   (fun h0 => Client.flyClientFactory client h0
                                (flyCredentials config2)) h4) ++
          calls ((if DeployArgs.SelfUpdate (Client.deployArgs client)
                  then updateBoshAndPipeline pkg client config2 metadata
                         flyClient
                  else deployBoshAndPipeline pkg client config2 metadata
                         flyClient) h5)),
    config3, metadata.
  split; [now rewrite <- !app_assoc |].
  split; [exact Hvalid |].
  split; [congruence |].
  split; [congruence |]. split; [congruence |]. split; [congruence |].
  split; [congruence |].
  rewrite Kdomain, Hdomain.
  destruct (String.eqb_spec (DeployArgs.Domain (Client.deployArgs client))
              EmptyString) as [Hnone | Hsome]; [reflexivity |].
  exact (proj2 (checkPreTerraform_domain pkg client config Hsome h1) config1
           Hpre).
Qed.

Lemma Deploy_success_witness :
  exists l final metadata,
    calls (Deploy (Sample.pkg Sample.NoFault)
             (Sample.client Sample.NoFault Sample.args None) [])
    = l ++ [EvUpdate final; EvFlyCleanup] /\
    Packages.AssertValid (Sample.pkg Sample.NoFault) metadata = None /\
    Config.Region final = "eu-west-1"%string /\
    Config.ConcourseWorkerCount final = 2 /\
    Config.ConcourseWorkerSize final = "large"%string /\
    Config.ConcourseWebSize final = "medium"%string /\
    Config.DirectorPublicIP final = Metadata.DirectorPublicIP metadata /\
    Config.Domain final = Metadata.ATCPublicIP metadata.
Proof.
  exact (Deploy_success (Sample.pkg Sample.NoFault)
           (Sample.client Sample.NoFault Sample.args None) [] eq_refl).
Defined.

(** *** Calls of a kind in a piece of code *)

Lemma sat_attempt_any {A : Type} (Q : Event -> Prop) (m : M A) :
  sat Q (fun _ => True) m -> sat Q (fun _ => True) (attempt m).
Proof.
  intros Hm. apply (sat_weaken Q _ _ _ (sat_attempt Q _ m Hm)). trivial.
Qed.

Ltac calls_step :=
  first
    [ apply sat_ret; exact I
    | apply sat_fail
    | apply sat_ask
    | apply sat_guard
    | apply sat_lift
    | apply sat_check; sat_leaf
    | apply sat_try; sat_leaf
    | apply sat_call; sat_leaf
    | apply sat_attempt_any
    | apply sat_defer; [sat_leaf |]
    | apply (sat_bind _ (fun _ => True)); [| intros ? _]
    | match goal with
      | |- sat _ _ (if ?b then _ else _) => destruct b
      | |- sat _ _ (match ?x with _ => _ end) => destruct x
      end ].

Ltac calls_code :=
  unfold loadConfig, writeConfigLoadedSuccessMessage,
    checkPreTerraformConfigRequirements, setUserIP, setHostedZone,
    applyTerraform, checkPreDeployConfigRequiments, ensureDirectorCerts,
    ensureConcourseCerts, timeTillExpiry, deployBoshAndPipeline,
    updateBoshAndPipeline, deployBosh, loadDirectorState, loadDirectorCreds,
    writeDeploySuccessMessage, SetDefaultPipeline, StoreAsset, certGenerator,
    Write, Update;
  cbv zeta; repeat calls_step.

Section Early.

Variable pkg : Packages.t.
Variable client : Client.t.

Lemma early_loadConfig :
  sat (fun e => afterTerraform e = false /\ needsFly e = false)
    (fun _ => True) (loadConfig client).
Proof. calls_code. Qed.

Lemma early_checkPreTerraform conf :
  sat (fun e => afterTerraform e = false /\ needsFly e = false)
    (fun _ => True) (checkPreTerraformConfigRequirements pkg client conf).
Proof. calls_code. Qed.

Lemma early_applyTerraform config :
  sat (fun e => afterTerraform e = false /\ needsFly e = false)
    (fun _ => True) (applyTerraform pkg client config).
Proof. calls_code. Qed.

Lemma checkPreDeploy_before_fly isDomainUpdated config metadata :
  sat (fun e => needsFly e = false) (fun _ => True)
    (checkPreDeployConfigRequiments pkg client isDomainUpdated config
       metadata).
Proof. calls_code. Qed.

End Early.

Lemma Forall_and_l (Q1 Q2 : Event -> Prop) l :
  Forall (fun e => Q1 e /\ Q2 e) l -> Forall Q1 l.
Proof. apply Forall_impl. tauto. Qed.

Lemma Forall_and_r (Q1 Q2 : Event -> Prop) l :
  Forall (fun e => Q1 e /\ Q2 e) l -> Forall Q2 l.
Proof. apply Forall_impl. tauto. Qed.

Lemma applyTerraform_Ok_calls pkg client config h metadata :
  outcome (applyTerraform pkg client config h) = Ok metadata ->
  exists iaas,
    calls (applyTerraform pkg client config h)
    = [EvIAAS; EvTerraformClientFactory iaas config; EvTerraformApply false;
       EvTerraformOutput; EvTerraformCleanup].
Proof.
  intros Hok. exists (IIaasClient.IAAS (Client.iaasClient client) h).
  revert Hok.
  destruct (Client.terraformClientFactory client (h ++ [EvIAAS])
              (IIaasClient.IAAS (Client.iaasClient client) h) config)
    as [terraformClient | e] eqn:Hfactory.
  2: { rewrite (applyTerraform_unbuilt pkg client config h e Hfactory).
       discriminate. }
  rewrite (applyTerraform_built pkg client config h terraformClient Hfactory).
  cbv zeta. destruct (ITerraformClient.Apply terraformClient _ false);
    [discriminate | reflexivity].
Qed.

(** A run of [Deploy] either never gets a fly client, and then makes no call
    that needs one, or is made of the calls before the fly client, the calls
    of the branch on the mode followed by the last write to the store, and
    the cleanup of the fly client. *)
Lemma Deploy_until_fly pkg client h :
  Forall (fun e => needsFly e = false) (calls (Deploy pkg client h)) \/
  exists pre config2 metadata flyClient h5,
    calls (Deploy pkg client h)
    = pre ++
      calls
        (bind
           (if DeployArgs.SelfUpdate (Client.deployArgs client)
            then updateBoshAndPipeline pkg client config2 metadata flyClient
            else deployBoshAndPipeline pkg client config2 metadata flyClient)
           (fun config => Update client config) h5) ++
      [EvFlyCleanup] /\
    Forall (fun e => needsFly e = false) pre /\
    In (EvUpdate config2) pre.
Proof.
  unfold Deploy. rewrite calls_bind.
  pose proof (Forall_and_r _ _ _ (proj1 (early_loadConfig client h))) as H0.
  destruct (outcome (loadConfig client h)) as [config | e].
  2: { left. now rewrite app_nil_r. }
  set (h1 := h ++ calls (loadConfig client h)) in *. cbv zeta.
  rewrite calls_bind.
  pose proof (Forall_and_r _ _ _
                (proj1 (early_checkPreTerraform pkg client config h1))) as H1.
  destruct (outcome (checkPreTerraformConfigRequirements pkg client config h1))
    as [config1 | e].
  2: { left. rewrite app_nil_r. now apply Forall_app. }
  set (h2 := h1 ++ calls _) in *.
  rewrite calls_bind.
  pose proof (Forall_and_r _ _ _
                (proj1 (early_applyTerraform pkg client config1 h2))) as H2.
  destruct (outcome (applyTerraform pkg client config1 h2)) as [metadata | e].
  2: { left. rewrite app_nil_r. now repeat (apply Forall_app; split). }
  set (h3 := h2 ++ calls _) in *.
  rewrite calls_bind.
  set (isDomainUpdated :=
         negb (DeployArgs.Domain (Client.deployArgs client) =?
               Config.Domain config)%string).
  pose proof (proj1 (checkPreDeploy_before_fly pkg client isDomainUpdated
                       config1 metadata h3)) as H3.
  destruct (outcome (checkPreDeployConfigRequiments pkg client isDomainUpdated
                       config1 metadata h3)) as [config2 | e] eqn:Hdeploy.
  2: { left. rewrite app_nil_r. now repeat (apply Forall_app; split). }
  set (h4 := h3 ++ calls _) in *.
  rewrite calls_bind.
  change (calls (try (EvFlyClientFactory (flyCredentials config2))
                   (fun h0 => Client.flyClientFactory client h0
                                (flyCredentials config2)) h4))
    with [EvFlyClientFactory (flyCredentials config2)].
  destruct (outcome (try _ _ h4)) as [flyClient | e].
  2: { left. rewrite app_nil_r.
       repeat (apply Forall_app; split); auto. }
  right. rewrite calls_defer.
  exists (calls (loadConfig client h) ++
          calls (checkPreTerraformConfigRequirements pkg client config h1) ++
          calls (applyTerraform pkg client config1 h2) ++
          calls (checkPreDeployConfigRequiments pkg client isDomainUpdated
                   config1 metadata h3) ++
          [EvFlyClientFactory (flyCredentials config2)]),
    config2, metadata, flyClient,
    (h4 ++ [EvFlyClientFactory (flyCredentials config2)]).
  split; [now rewrite <- !app_assoc |].
  split; [repeat (apply Forall_app; split); auto |].
  destruct (checkPreDeployConfigRequiments_returns pkg client isDomainUpdated
              config1 metadata h3 config2 Hdeploy)
    as (_ & _ & _ & _ & _ & _ & l & Hcalls & _).
  rewrite Hcalls.
  apply in_or_app. right. apply in_or_app. right. apply in_or_app. right.
  apply in_or_app. left. apply in_or_app. right. cbn. auto.
Qed.

Lemma split_after_prefix (kind : Event -> bool) pre rest l1 e l2 :
  pre ++ rest = l1 ++ e :: l2 ->
  Forall (fun x => kind x = false) pre ->
  kind e = true ->
  exists r1, l1 = pre ++ r1 /\ rest = r1 ++ e :: l2.
Proof.
  revert l1. induction pre as [| x pre IH]; intros l1 Heq Hpre He.
  - exists l1. now split.
  - inversion Hpre as [| ? ? Hx Hpre']; subst.
    destruct l1 as [| y l1]; cbn in Heq.
    + injection Heq as -> _. congruence.
    + injection Heq as <- Heq.
      destruct (IH l1 Heq Hpre' He) as (r1 & -> & ->).
      now exists r1.
Qed.

Section Branch.

Variable pkg : Packages.t.
Variable client : Client.t.
Variables (config : Config.t) (metadata : Metadata.t).
Variable flyClient : IFlyClient.t.

Let branch : M unit :=
  bind
    (if DeployArgs.SelfUpdate (Client.deployArgs client)
     then updateBoshAndPipeline pkg client config metadata flyClient
     else deployBoshAndPipeline pkg client config metadata flyClient)
    (fun config => Update client config).


Lemma branch_buildsFrom :
  sat (buildsFrom config metadata) (fun _ => True) branch.
Proof. unfold branch. calls_code. Qed.

End Branch.


(** X17: the BOSH client is built from the configuration that [Deploy] has
    just written to the store: whenever a run of [Deploy] builds the BOSH
    client, from a configuration [c], a write of [c] to the store precedes
    the call. *)
Theorem Deploy_checkpoint_before_bosh pkg client h l1 c m l2 :
  calls (Deploy pkg client h) = l1 ++ EvBuildBoshClient c m :: l2 ->
  In (EvUpdate c) l1.
Proof.
  intros Hsplit.
  destruct (Deploy_until_fly pkg client h)
    as [Hnone | (pre & config2 & metadata & flyClient & h5 & Hcalls & Hpre
                 & Hupdate)].
  - rewrite Hsplit in Hnone. apply Forall_app in Hnone as [_ Hnone].
    inversion Hnone as [| ? ? Hbad _]. discriminate.
  - rewrite Hcalls in Hsplit.
    destruct (split_after_prefix needsFly _ _ _ _ _ Hsplit Hpre eq_refl)
      as (r1 & -> & Hrest).
    pose proof (proj1 (branch_buildsFrom pkg client config2 metadata
                         flyClient h5)) as Hfrom.
    assert (Hall : Forall (buildsFrom config2 metadata)
                     (r1 ++ EvBuildBoshClient c m :: l2)).
    { rewrite <- Hrest. apply Forall_app. split; [exact Hfrom |].
      now repeat constructor. }
    apply Forall_app in Hall as [_ Hall].
    inversion Hall as [| ? ? Hb _]. cbn in Hb. destruct Hb as [-> _].
    apply in_or_app. now left.
Qed.

Lemma Deploy_checkpoint_before_bosh_witness :
  let run :=
    calls (Deploy (Sample.pkg Sample.NoFault)
             (Sample.client Sample.NoFault Sample.args None) []) in
  exists l1 c m l2,
    run = l1 ++ EvBuildBoshClient c m :: l2 /\ In (EvUpdate c) l1.
Proof.
  intros run.
  set (c := match nth 14 run EvIAAS with
            | EvBuildBoshClient c _ => c
            | _ => Sample.newConfig Sample.args
            end).
  assert (Hsplit :
    run
    = firstn 14 run ++ EvBuildBoshClient c Sample.metadata :: skipn 15 run)
    by (vm_compute; reflexivity).
  exists (firstn 14 run), c, Sample.metadata, (skipn 15 run).
  split; [exact Hsplit |].
  exact (Deploy_checkpoint_before_bosh (Sample.pkg Sample.NoFault)
           (Sample.client Sample.NoFault Sample.args None) []
           (firstn 14 run) c Sample.metadata (skipn 15 run) Hsplit).
Defined.

(** A run of [Deploy] either makes no call that needs the infrastructure, or
    is made of calls that do not need it, among them the apply, the output
    and the cleanup of terraform, followed by the rest. *)
Lemma Deploy_until_terraform pkg client h :
  Forall (fun e => afterTerraform e = false) (calls (Deploy pkg client h)) \/
  exists pre rest,
    calls (Deploy pkg client h) = pre ++ rest /\
    Forall (fun e => afterTerraform e = false) pre /\
    In (EvTerraformApply false) pre /\
    In EvTerraformOutput pre /\
    In EvTerraformCleanup pre.
Proof.
  unfold Deploy. rewrite calls_bind.
  pose proof (Forall_and_l _ _ _ (proj1 (early_loadConfig client h))) as H0.
  destruct (outcome (loadConfig client h)) as [config | e].
  2: { left. now rewrite app_nil_r. }
  set (h1 := h ++ calls (loadConfig client h)) in *. cbv zeta.
  rewrite calls_bind.
  pose proof (Forall_and_l _ _ _
                (proj1 (early_checkPreTerraform pkg client config h1))) as H1.
  destruct (outcome (checkPreTerraformConfigRequirements pkg client config h1))
    as [config1 | e].
  2: { left. rewrite app_nil_r. now apply Forall_app. }
  set (h2 := h1 ++ calls _) in *.
  rewrite calls_bind.
  pose proof (Forall_and_l _ _ _
                (proj1 (early_applyTerraform pkg client config1 h2))) as H2.
  destruct (outcome (applyTerraform pkg client config1 h2))
    as [metadata | e] eqn:Hterraform.
  2: { left. rewrite app_nil_r. now repeat (apply Forall_app; split). }
  right.
  destruct (applyTerraform_Ok_calls pkg client config1 h2 metadata Hterraform)
    as [iaas Hcalls].
  eexists (calls (loadConfig client h) ++
           calls (checkPreTerraformConfigRequirements pkg client config h1) ++
           calls (applyTerraform pkg client config1 h2)), _.
  split; [now rewrite <- !app_assoc |].
  split; [now repeat (apply Forall_app; split) |].
  rewrite Hcalls.
  repeat split; apply in_or_app; right; apply in_or_app; right; cbn;
    auto 10.
Qed.

(** X18: nothing that needs the infrastructure happens before terraform is
    done: a call of the certificate generator, of the fly client or of the
    BOSH step, and a reading or storing of a blob of the director, is
    preceded in the run by the apply of terraform (with [false]), by its
    output and by the cleanup of its client. *)
Theorem Deploy_terraform_first pkg client h l1 e l2 :
  calls (Deploy pkg client h) = l1 ++ e :: l2 ->
  afterTerraform e = true ->
  In (EvTerraformApply false) l1 /\
  In EvTerraformOutput l1 /\
  In EvTerraformCleanup l1.
Proof.
  intros Hsplit He.
  destruct (Deploy_until_terraform pkg client h)
    as [Hnone | (pre & rest & Hcalls & Hpre & Happly & Houtput & Hcleanup)].
  - rewrite Hsplit in Hnone. apply Forall_app in Hnone as [_ Hnone].
    inversion Hnone as [| ? ? Hbad _]. congruence.
  - rewrite Hcalls in Hsplit.
    destruct (split_after_prefix afterTerraform _ _ _ _ _ Hsplit Hpre He)
      as (r1 & -> & _).
    repeat split; apply in_or_app; now left.
Qed.

Lemma Deploy_terraform_first_witness :
  let run :=
    calls (Deploy (Sample.pkg Sample.NoFault)
             (Sample.client Sample.NoFault Sample.args None) []) in
  In (EvTerraformApply false) (firstn 10 run) /\
  In EvTerraformOutput (firstn 10 run) /\
  In EvTerraformCleanup (firstn 10 run).
Proof.
  intros run.
  assert (Hsplit :
    run
    = firstn 10 run ++
      EvCertGenerator "concourse-up-ci" ["5.6.7.8"; "10.0.0.6"]%string
      :: skipn 11 run)
    by (vm_compute; reflexivity).
  exact (Deploy_terraform_first (Sample.pkg Sample.NoFault)
           (Sample.client Sample.NoFault Sample.args None) []
           (firstn 10 run) _ (skipn 11 run) Hsplit eq_refl).
Defined.

Lemma early_generates_nothing l :
  Forall (fun e => afterTerraform e = false /\ needsFly e = false) l ->
  Forall (fun e => isCertGenerator e = false) l.
Proof. apply Forall_impl. intros [] [He _]; (reflexivity || discriminate). Qed.

Lemma branch_generates_nothing pkg client config metadata flyClient :
  sat (fun e => isCertGenerator e = false) (fun _ => True)
    (bind
       (if DeployArgs.SelfUpdate (Client.deployArgs client)
        then updateBoshAndPipeline pkg client config metadata flyClient
        else deployBoshAndPipeline pkg client config metadata flyClient)
       (fun config => Update client config)).
Proof. calls_code. Qed.

(** X19: a deploy on top of a finished one generates no certificate.  When
    the configuration that is loaded has the domain of the arguments, a CA
    certificate of the director and a certificate of the application with
    more than 28 days left, and the arguments carry no certificate, no run of
    [Deploy] calls the certificate generator. *)
Theorem Deploy_generates_nothing pkg client h config loading :
  loadConfig client h = (Ok config, loading) ->
  DeployArgs.TLSCert (Client.deployArgs client) = EmptyString ->
  DeployArgs.Domain (Client.deployArgs client) = Config.Domain config ->
  Config.DirectorCACert config <> EmptyString ->
  Config.ConcourseCert config <> EmptyString ->
  (forall h',
     exists remaining,
       timeTillExpiry pkg (Config.ConcourseCert config) h'
       = (Ok remaining, []) /\
       renewalMargin < remaining) ->
  Forall (fun e => isCertGenerator e = false) (calls (Deploy pkg client h)).
Proof.
  intros Hload Htls Hdomain Hca Hcert Hvalid.
  unfold Deploy. rewrite calls_bind.
  pose proof (early_generates_nothing _ (proj1 (early_loadConfig client h)))
    as H0.
  rewrite Hload in *. cbn [outcome calls fst snd] in *.
  set (h1 := h ++ loading). cbv zeta.
  rewrite Hdomain, String.eqb_refl. cbn [negb].
  rewrite calls_bind.
  pose proof (early_generates_nothing _
                (proj1 (early_checkPreTerraform pkg client config h1))) as H1.
  pose proof (proj2 (checkPreTerraformConfigRequirements_sat pkg client
                       (sameCertificates config) config
                       ltac:(cbv zeta; destruct (DeployArgs.DBSizeIsSet _);
                             now repeat split)
                       ltac:(intros _ v c Hc; exact Hc)
                       ltac:(intros v c Hc; exact Hc)
                       ltac:(intros v c Hc; exact Hc)
                       ltac:(intros c Hc; exact Hc) h1)) as Hsame.
  destruct (outcome (checkPreTerraformConfigRequirements pkg client config h1))
    as [config1 | e].
  2: { rewrite app_nil_r. now apply Forall_app. }
  specialize (Hsame config1 eq_refl).
  destruct Hsame as (Sca & _ & _ & _ & Scert & _).
  set (h2 := h1 ++ calls _) in *.
  rewrite calls_bind.
  pose proof (early_generates_nothing _
                (proj1 (early_applyTerraform pkg client config1 h2))) as H2.
  destruct (outcome (applyTerraform pkg client config1 h2)) as [metadata | e].
  2: { rewrite app_nil_r. now repeat (apply Forall_app; split). }
  set (h3 := h2 ++ calls _) in *.
  rewrite calls_bind.
  destruct (Hvalid h3) as (remaining & Htime & Hlong).
  destruct (checkPreDeployConfigRequiments_kept pkg client config1 metadata h3
              remaining Htls) as (config' & Hcalls & _).
  { now rewrite Sca. }
  { now rewrite Scert. }
  { now rewrite Scert. }
  { exact Hlong. }
  rewrite Hcalls.
  destruct (outcome (checkPreDeployConfigRequiments pkg client false config1
                       metadata h3)) as [config2 | e].
  2: { rewrite app_nil_r.
       repeat (apply Forall_app; split); auto; try now repeat constructor. }
  rewrite calls_bind.
  change (calls (try (EvFlyClientFactory (flyCredentials config2))
                   (fun h0 => Client.flyClientFactory client h0
                                (flyCredentials config2))
                   (h3 ++ [EvUpdate config'])))
    with [EvFlyClientFactory (flyCredentials config2)].
  destruct (outcome (try _ _ _)) as [flyClient | e].
  2: { rewrite app_nil_r.
       repeat (apply Forall_app; split); auto; try now repeat constructor. }
  rewrite calls_defer.
  repeat (apply Forall_app; split); auto; try now repeat constructor.
  apply (branch_generates_nothing pkg client config2 metadata flyClient).
Qed.

Lemma Deploy_generates_nothing_witness :
  let stored :=
    Sample.deployed "eu-west-1" "ci.example.com" "GENERATED CERT" false in
  Forall (fun e => isCertGenerator e = false)
    (calls (Deploy (Sample.pkg Sample.NoFault)
              (Sample.client Sample.NoFault Sample.domainArgs (Some stored))
              [])).
Proof.
  cbv zeta.
  refine (Deploy_generates_nothing (Sample.pkg Sample.NoFault)
            (Sample.client Sample.NoFault Sample.domainArgs
               (Some (Sample.deployed "eu-west-1" "ci.example.com"
                        "GENERATED CERT" false)))
            [] _ _ eq_refl eq_refl eq_refl _ _ _).
  - discriminate.
  - discriminate.
  - intros h'. exists (365 * 24 * time.Hour). split; reflexivity.
Defined.

(** The checkpoint of a first run on the sample installation. *)
Lemma checkPreDeploy_checkpoint_witness :
  let c :=
    Config.set_DirectorPublicIP "5.6.7.8"
      (Config.set_ConcourseWebSize "medium"
         (Config.set_ConcourseWorkerSize "large"
            (Config.set_ConcourseWorkerCount 2
               (Config.set_ConcourseCACert "GENERATED CA"
                  (Config.set_ConcourseKey "GENERATED KEY"
                     (Config.set_ConcourseCert "GENERATED CERT"
                        (Config.set_DirectorKey "GENERATED KEY"
                           (Config.set_DirectorCert "GENERATED CERT"
                              (Config.set_DirectorCACert "GENERATED CA"
                                 (Config.set_Domain "1.2.3.4"
                                    (Sample.newConfig Sample.args)))))))))))
  in
  Config.Domain c = Metadata.ATCPublicIP Sample.metadata /\
  exists l,
    calls (checkPreDeployConfigRequiments (Sample.pkg Sample.NoFault)
             (Sample.client Sample.NoFault Sample.args None) true
             (Sample.newConfig Sample.args) Sample.metadata [])
    = l ++ [EvUpdate c] /\
    Forall (fun e => isUpdate e = false) l.
Proof.
  intros c.
  destruct (checkPreDeploy_checkpoint (Sample.pkg Sample.NoFault)
              (Sample.client Sample.NoFault Sample.args None) true
              (Sample.newConfig Sample.args) Sample.metadata [] c eq_refl)
    as (_ & _ & _ & _ & Hdomain & _ & Hcalls).
  split; [exact Hdomain | exact Hcalls].
Defined.
